(** * Tumblr photos to TFRecords: a model of [datasets/convert_images_tfrecords.py]

    The converter scans [<dataset_dir>/<photos_subdir>] for class directories,
    shuffles the photo paths with a fixed seed, cuts them into a validation and
    a training split, writes every split as [_NUM_SHARDS] record files and
    finally writes the label file.

    The Python code is embedded as functions in a state-and-exception monad
    over a [world]: the file store, the generator of module [random], the
    console and a log of the files opened for reading. *)

From stdpp Require Import base strings list gmap sorting pretty.
From Stdlib Require Import Ascii ZArith Lia.
From Stdlib Require Strings.Byte.

(** ** Python strings and [posixpath] *)

Definition bytes := list Byte.byte.

Module posixpath.

Definition sep : ascii := "/"%char.

(** [s.startswith('/')] *)
Definition startswith_sep (s : string) : bool :=
  match s with
  | String c _ => bool_decide (c = sep)
  | EmptyString => false
  end.

(** [s.endswith('/')] *)
Fixpoint endswith_sep (s : string) : bool :=
  match s with
  | EmptyString => false
  | String c EmptyString => bool_decide (c = sep)
  | String _ r => endswith_sep r
  end.

(** One round of the loop of [posixpath.join]: [path] joined with [b]. *)
Definition join_step (path b : string) : string :=
  if startswith_sep b then b
  else if bool_decide (path = "") || endswith_sep path then path +:+ b
  else path +:+ "/" +:+ b.

(** [os.path.join(a, *p)] *)
Definition join (a : string) (p : list string) : string := foldl join_step a p.

(** [(p[:i], p[i:])] for [i = p.rfind('/') + 1]. *)
Fixpoint rsplit_sep (p : string) : string * string :=
  match p with
  | EmptyString => ("", "")
  | String c r =>
      let '(h, t) := rsplit_sep r in
      if bool_decide (h = "") then
        if bool_decide (c = sep) then ("/", r) else ("", String c r)
      else (String c h, t)
  end.

(** [s == '/' * len(s)] *)
Fixpoint all_sep (s : string) : bool :=
  match s with
  | EmptyString => true
  | String c r => bool_decide (c = sep) && all_sep r
  end.

(** [s.rstrip('/')] *)
Fixpoint rstrip_sep (s : string) : string :=
  match s with
  | EmptyString => ""
  | String c r =>
      let r' := rstrip_sep r in
      if bool_decide (c = sep) && bool_decide (r' = "") then "" else String c r'
  end.

(** [os.path.basename(p)] *)
Definition basename (p : string) : string := (rsplit_sep p).2.

(** Not a function of the library: what [join] puts in front of a last
    component that is relative, the path with one [/] after it. *)
Definition with_sep (path : string) : string :=
  if bool_decide (path = "") || endswith_sep path then path else path +:+ "/".

(** [os.path.dirname(p)] *)
Definition dirname (p : string) : string :=
  let head := (rsplit_sep p).1 in
  if negb (bool_decide (head = "")) && negb (all_sep head)
  then rstrip_sep head else head.

End posixpath.

(** [c in s] for a one-character string [c]. *)
Fixpoint contains_char (c : ascii) (s : string) : bool :=
  match s with
  | EmptyString => false
  | String c' r => bool_decide (c' = c) || contains_char c r
  end.

(** ['%d' % n] and ['%05d' % n] for a natural number [n]. *)
Definition fmt_d (n : nat) : string := pretty n.

Fixpoint zeros (n : nat) : string :=
  match n with
  | O => ""
  | S n => String "0" (zeros n)
  end.

Definition fmt_05d (n : nat) : string :=
  zeros (5 - String.length (fmt_d n)) +:+ fmt_d n.

Definition newline : string := String "010" "".
Definition carriage_return : string := String "013" "".

(** ** Python lists and dicts *)

(** The start or stop [n] of a slice of a list of length [len], clamped the
    way Python clamps it: a negative [n] counts from the end. *)
Definition slice_index (len : nat) (n : Z) : nat :=
  if (n <? 0)%Z then Z.to_nat (Z.max 0 (Z.of_nat len + n))
  else Z.to_nat (Z.min n (Z.of_nat len)).

(** [l[n:]] and [l[:n]] *)
Definition slice_from {A} (l : list A) (n : Z) : list A :=
  drop (slice_index (length l) n) l.
Definition slice_to {A} (l : list A) (n : Z) : list A :=
  take (slice_index (length l) n) l.

(** [range(start, stop)] and [range(stop)] *)
Definition range2 (start stop : nat) : list nat := seq start (stop - start).
Definition range (stop : nat) : list nat := range2 0 stop.

(** [dict(pairs)]: a later pair with the same key replaces an earlier one. *)
Definition dict `{Countable K} {V} (pairs : list (K * V)) : gmap K V :=
  foldl (λ m kv, <[kv.1 := kv.2]> m) ∅ pairs.

(** [sorted(l)] for a list of strings. *)
Definition sorted (l : list string) : list string := merge_sort String.le l.

(** ** Constants of the module *)

Definition _NUM_VALIDATION : Z := 50.
Definition _RANDOM_SEED : Z := 0.
Definition _NUM_SHARDS : nat := 5.

(** ** TF-Example records *)

(** Modelled from the spec: [dataset_utils.image_to_tfexample] is not part of
    the sources; the record it builds holds the encoded bytes, the format
    tag, the height, the width and the class id. *)
Record tfexample := TFExample {
  image_encoded : bytes;
  image_format : bytes;
  image_height : nat;
  image_width : nat;
  image_class : nat
}.

Definition image_to_tfexample (image_data image_format : bytes)
    (height width class_id : nat) : tfexample :=
  TFExample image_data image_format height width class_id.

(** [b'jpg'] *)
Definition b_jpg : bytes := [Byte.x6a; Byte.x70; Byte.x67].

(** ** The file store *)

Inductive node :=
  | Dir (entries : list string)          (* a directory with its os.listdir listing *)
  | File (data : bytes)                  (* a file this program reads *)
  | RecordFile (records : list tfexample) (* a file written through TFRecordWriter *)
  | LabelFile (labels : gmap nat string). (* the file written by write_label_file *)

(** ** Exceptions *)

Inductive exn :=
  | AssertionError
  | KeyError
  | IndexError
  | OSError                 (* os.listdir on a path that is no directory *)
  | NotFoundError           (* tf.gfile opens a path that does not exist *)
  | FailedPreconditionError (* tf.gfile meets a directory where it needs a
                               file, or a file where it needs a directory *)
  | InvalidArgumentError.   (* the decode op rejects the data *)

Inductive result (A : Type) :=
  | Ok (a : A)
  | Raise (e : exn).
Arguments Ok {A} a.
Arguments Raise {A} e.

(** ** The libraries the converter calls *)

(** Module [random]: a generator state, [random.seed(a)] and the draw of an
    index below [n] that [random.shuffle] makes. *)
Class PyRandom := {
  rng_state : Type;
  random_seed : Z → rng_state;
  randbelow : rng_state → nat → nat * rng_state;
  randbelow_lt : ∀ s n, 0 < n → (randbelow s n).1 < n
}.

(** TensorFlow: the shape of the tensor that [sess.run] returns for the
    decode op ([None] when the op raises), and the bytes a reader gets from a
    file that was written as records or as labels. [ImageReader.__init__]
    builds the op as [tf.image.decode_jpeg(..., channels=3)]: whatever the
    image holds, the tensor it returns has three dimensions, the last of
    them 3. *)
Class TensorFlow := {
  run_decode_jpeg : bytes → option (list nat);
  run_decode_jpeg_channels : ∀ image_data shape,
    run_decode_jpeg image_data = Some shape →
    ∃ height width, shape = [height; width; 3];
  record_file_bytes : list tfexample → bytes;
  label_file_bytes : gmap nat string → bytes
}.

(** ** The converter *)

Section Converter.
Context `{!PyRandom} `{!TensorFlow}.

(** The store is keyed by the path string as the program builds it, one key
    for a file or directory; rights and links are outside the model. A
    directory holds the listing that [os.listdir] returns for it when the
    run starts, and a file or directory that the run creates is not added
    to a listing: a run lists the photos directory and the class
    directories only, and the statements about whole runs take the two
    subdirectories to be plain names, so that nothing is created inside a
    directory that is listed afterwards. *)
Record world := World {
  fs : gmap string node;
  rng : rng_state;          (* the hidden generator of module random *)
  stdout : list string;     (* what was written to the console, oldest first *)
  reads : list string       (* the paths opened for reading, oldest first *)
}.

Definition M (A : Type) : Type := world → result A * world.

Definition ret {A} (a : A) : M A := λ w, (Ok a, w).
Definition raise {A} (e : exn) : M A := λ w, (Raise e, w).
Definition bind {A B} (m : M A) (k : A → M B) : M B := λ w,
  match m w with
  | (Ok a, w') => k a w'
  | (Raise e, w') => (Raise e, w')
  end.

Notation "x <- m ;; k" := (bind m (λ x, k))
  (at level 100, m at next level, right associativity).
Notation "'let*' p := m 'in' k" := (bind m (λ x, match x with p => k end))
  (at level 100, p pattern, m at next level, right associativity).
Notation "m ;; k" := (bind m (λ _, k))
  (at level 100, right associativity).

(** [for x in l: body(x)] *)
Fixpoint for_each {A} (l : list A) (body : A → M unit) : M unit :=
  match l with
  | [] => ret tt
  | x :: l' => body x ;; for_each l' body
  end.

(** [for x in l: acc = body(acc, x)] for a loop that updates local variables. *)
Fixpoint for_fold {A S} (l : list A) (acc : S) (body : S → A → M S) : M S :=
  match l with
  | [] => ret acc
  | x :: l' => acc' <- body acc x ;; for_fold l' acc' body
  end.

(** [assert b] *)
Definition assert (b : bool) : M unit :=
  if b then ret tt else raise AssertionError.

(** [l[i]] for an index [i >= 0] *)
Definition getitem {A} (l : list A) (i : nat) : M A :=
  match l !! i with
  | Some x => ret x
  | None => raise IndexError
  end.

(** [d[k]] *)
Definition dict_getitem `{Countable K} {V} (d : gmap K V) (k : K) : M V :=
  match d !! k with
  | Some v => ret v
  | None => raise KeyError
  end.

(** *** Console, file system and generator *)

Definition stdout_write (s : string) : M unit := λ w,
  (Ok tt, World (fs w) (rng w) (stdout w ++ [s]) (reads w)).

Definition print (s : string) : M unit := stdout_write (s +:+ newline).

Definition gfile_Exists (p : string) : M bool := λ w,
  (Ok (bool_decide (is_Some (fs w !! p))), w).

(** [tf.gfile.MakeDirs(p)], as [convert_images] calls it: for a path that
    is missing. The new directory is empty. The directories above it, which
    the call creates when they are missing, and the listing of its parent
    are not recorded (see [world]): a run whose subdirectories are plain
    names lists neither of them. *)
Definition gfile_MakeDirs (p : string) : M unit := λ w,
  match fs w !! p with
  | Some _ => (Ok tt, w)
  | None => (Ok tt, World (<[p := Dir []]> (fs w)) (rng w) (stdout w) (reads w))
  end.

Definition os_listdir (p : string) : M (list string) := λ w,
  match fs w !! p with
  | Some (Dir entries) => (Ok entries, w)
  | _ => (Raise OSError, w)
  end.

Definition os_path_isdir (p : string) : M bool := λ w,
  match fs w !! p with
  | Some (Dir _) => (Ok true, w)
  | _ => (Ok false, w)
  end.

(** [tf.gfile.FastGFile(p, 'rb').read()] *)
Definition gfile_read (p : string) : M bytes := λ w,
  let w' := World (fs w) (rng w) (stdout w) (reads w ++ [p]) in
  match fs w !! p with
  | Some (File data) => (Ok data, w')
  | Some (RecordFile records) => (Ok (record_file_bytes records), w')
  | Some (LabelFile labels) => (Ok (label_file_bytes labels), w')
  | Some (Dir _) => (Raise FailedPreconditionError, w')
  | None => (Raise NotFoundError, w')
  end.

(** What stops a file from being opened for writing at [p]: a directory at
    [p], or no directory to hold it. The working directory and the root are
    directories also when the store does not hold them; the directories
    above the directory of [p] are not looked at. *)
Definition open_error (m : gmap string node) (p : string) : option exn :=
  match m !! p with
  | Some (Dir _) => Some FailedPreconditionError
  | _ =>
      match m !! posixpath.dirname p with
      | Some (Dir _) => None
      | Some _ => Some FailedPreconditionError
      | None =>
          if posixpath.all_sep (posixpath.dirname p) then None
          else Some NotFoundError
      end
  end.

(** [tf.python_io.TFRecordWriter(p)]: the file is created in its directory,
    or emptied when it is there; without the directory the call raises and
    nothing is written. The listing that the directory node holds stays the
    one of the start of the run (see [world]). *)
Definition TFRecordWriter (p : string) : M unit := λ w,
  match open_error (fs w) p with
  | Some e => (Raise e, w)
  | None =>
      (Ok tt, World (<[p := RecordFile []]> (fs w)) (rng w) (stdout w) (reads w))
  end.

(** [tfrecord_writer.write(example.SerializeToString())] on the writer of [p] *)
Definition tfrecord_write (p : string) (example : tfexample) : M unit := λ w,
  let records :=
    match fs w !! p with
    | Some (RecordFile records) => records
    | _ => []
    end in
  (Ok tt, World (<[p := RecordFile (records ++ [example])]> (fs w))
                (rng w) (stdout w) (reads w)).

(** Modelled from the spec: [dataset_utils.write_label_file] is not part of
    the sources; it writes the id to class-name mapping, one entry per
    line, to the label file, here [<dataset_dir>/<photos_subdir>/labels.txt]. *)
Definition write_label_file (labels_to_class_names : gmap nat string)
    (dataset_dir photos_subdir : string) : M unit := λ w,
  let labels_filename := posixpath.join dataset_dir [photos_subdir; "labels.txt"] in
  (Ok tt, World (<[labels_filename := LabelFile labels_to_class_names]> (fs w))
                (rng w) (stdout w) (reads w)).

(** [random.seed(a)] *)
Definition seed (a : Z) : M unit := λ w,
  (Ok tt, World (fs w) (random_seed a) (stdout w) (reads w)).

(** [x[i], x[j] = x[j], x[i]]; [random.shuffle] only swaps inside the list. *)
Definition swap {A} (i j : nat) (x : list A) : list A :=
  match x !! i, x !! j with
  | Some xi, Some xj => <[j := xi]> (<[i := xj]> x)
  | _, _ => x
  end.

(** The loop of [random.shuffle]:
    [for i in reversed(range(1, len(x))): j = randbelow(i + 1); swap]. *)
Fixpoint shuffle_loop {A} (idx : list nat) (s : rng_state) (x : list A)
    : list A * rng_state :=
  match idx with
  | [] => (x, s)
  | i :: idx' =>
      let '(j, s') := randbelow s (i + 1) in
      shuffle_loop idx' s' (swap i j x)
  end.

(** The pairs [(i, j)] that the loop exchanges. *)
Fixpoint shuffle_draws (idx : list nat) (s : rng_state) : list (nat * nat) :=
  match idx with
  | [] => []
  | i :: idx' =>
      let '(j, s') := randbelow s (i + 1) in
      (i, j) :: shuffle_draws idx' s'
  end.

Definition shuffle_from {A} (s : rng_state) (x : list A) : list A * rng_state :=
  shuffle_loop (reverse (range2 1 (length x))) s x.

(** [random.shuffle(x)]; the list is returned since the model has no
    mutable lists. *)
Definition shuffle {A} (x : list A) : M (list A) := λ w,
  let '(x', s') := shuffle_from (rng w) x in
  (Ok x', World (fs w) s' (stdout w) (reads w)).

(** *** class ImageReader *)

(** [sess.run(self._decode_jpeg, feed_dict=...)], as the shape of the image *)
Definition sess_run_decode_jpeg (image_data : bytes) : M (list nat) :=
  match run_decode_jpeg image_data with
  | Some shape => ret shape
  | None => raise InvalidArgumentError
  end.

Definition decode_jpeg (image_data : bytes) : M (list nat) :=
  image_shape <- sess_run_decode_jpeg image_data ;;
  assert (bool_decide (length image_shape = 3)) ;;
  channels <- getitem image_shape 2 ;;
  assert (bool_decide (channels = 3)) ;;
  ret image_shape.

Definition read_image_dims (image_data : bytes) : M (nat * nat) :=
  image_shape <- decode_jpeg image_data ;;
  height <- getitem image_shape 0 ;;
  width <- getitem image_shape 1 ;;
  ret (height, width).

(** *** The functions of the module *)

Definition _get_filenames_and_classes (dataset_dir photos_subdir : string)
    : M (list string * list string) :=
  let root := posixpath.join dataset_dir [photos_subdir] in
  entries <- os_listdir root ;;
  let* (directories, class_names) :=
    for_fold entries ([], []) (λ '(directories, class_names) filename,
      let path := posixpath.join root [filename] in
      is_dir <- os_path_isdir path ;;
      if is_dir : bool
      then ret (directories ++ [path], class_names ++ [filename])
      else ret (directories, class_names)) in
  photo_filenames <-
    for_fold directories [] (λ photo_filenames directory,
      entries <- os_listdir directory ;;
      for_fold entries photo_filenames (λ photo_filenames filename,
        if bool_decide (filename ≠ ".DS_Store")
        then ret (photo_filenames ++ [posixpath.join directory [filename]])
        else ret photo_filenames)) ;;
  ret (photo_filenames, sorted class_names).

Definition _get_dataset_filename (dataset_dir photos_subdir split_name : string)
    (shard_id : nat) : string :=
  let output_filename :=
    "tumblr_" +:+ split_name +:+ "_" +:+ fmt_05d shard_id +:+ "-of-" +:+
    fmt_05d _NUM_SHARDS +:+ ".tfrecord" in
  posixpath.join dataset_dir [photos_subdir; output_filename].

(** [int(math.ceil(n / float(d)))]. The quotient is a double; for every
    length below 2^50 it lies strictly between two integers exactly when
    [d] does not divide [n], so the result is the integer ceiling. *)
Definition ceil_div (n d : nat) : nat := (n + d - 1) `div` d.

(** The body of the loop over the images of one shard. *)
Definition convert_image (filenames : list string)
    (class_names_to_ids : gmap string nat) (output_filename : string)
    (shard_id i : nat) : M unit :=
  stdout_write (carriage_return +:+ ">> Converting image " +:+ fmt_d (i + 1) +:+
                "/" +:+ fmt_d (length filenames) +:+ " shard " +:+ fmt_d shard_id) ;;
  filename <- getitem filenames i ;;
  image_data <- gfile_read filename ;;
  let* (height, width) := read_image_dims image_data in
  filename <- getitem filenames i ;;
  let class_name := posixpath.basename (posixpath.dirname filename) in
  class_id <- dict_getitem class_names_to_ids class_name ;;
  let example := image_to_tfexample image_data b_jpg height width class_id in
  tfrecord_write output_filename example.

Definition _convert_dataset (split_name : string) (filenames : list string)
    (class_names_to_ids : gmap string nat) (dataset_dir tfrecords_subdir : string)
    : M unit :=
  assert (bool_decide (split_name ∈ ["train"; "validation"])) ;;
  let num_per_shard := ceil_div (length filenames) _NUM_SHARDS in
  for_each (range _NUM_SHARDS) (λ shard_id,
    let output_filename :=
      _get_dataset_filename dataset_dir tfrecords_subdir split_name shard_id in
    TFRecordWriter output_filename ;;
    let start_ndx := shard_id * num_per_shard in
    let end_ndx := ((shard_id + 1) * num_per_shard) `min` length filenames in
    for_each (range2 start_ndx end_ndx)
      (convert_image filenames class_names_to_ids output_filename shard_id)) ;;
  stdout_write newline.

(** The loops of [_dataset_exists] leave at the first missing file; the
    checks have no effect, so the result is the conjunction of all of them. *)
Definition _dataset_exists (dataset_dir photos_subdir : string) : M bool := λ w,
  (Ok (forallb (λ split_name,
         forallb (λ shard_id,
           let output_filename :=
             _get_dataset_filename dataset_dir photos_subdir split_name shard_id in
           bool_decide (is_Some (fs w !! output_filename)))
         (range _NUM_SHARDS))
       ["train"; "validation"]), w).

Definition convert_images (dataset_dir : string) (num_valid : Z)
    (photos_subdir tfrecords_subdir : string) : M unit :=
  (* Create the tfrecords_subdir if it doesn't exist *)
  tfrecords_exists <- gfile_Exists (posixpath.join dataset_dir [tfrecords_subdir]) ;;
  (if negb tfrecords_exists
   then gfile_MakeDirs (posixpath.join dataset_dir [tfrecords_subdir])
   else ret tt) ;;
  exist <- _dataset_exists dataset_dir photos_subdir ;;
  if exist : bool then
    print "Dataset files already exist. Exiting without re-creating them."
  else
    let* (photo_filenames, class_names) :=
      _get_filenames_and_classes dataset_dir photos_subdir in
    let class_names_to_ids := dict (zip class_names (range (length class_names))) in
    (* Divide into train and test: *)
    seed _RANDOM_SEED ;;
    photo_filenames <- shuffle photo_filenames ;;
    let training_filenames := slice_from photo_filenames num_valid in
    let validation_filenames := slice_to photo_filenames num_valid in
    (* First, convert the training and validation sets. *)
    _convert_dataset "train" training_filenames class_names_to_ids
                     dataset_dir tfrecords_subdir ;;
    _convert_dataset "validation" validation_filenames class_names_to_ids
                     dataset_dir tfrecords_subdir ;;
    (* Finally, write the labels file: *)
    let labels_to_class_names := dict (zip (range (length class_names)) class_names) in
    write_label_file labels_to_class_names dataset_dir photos_subdir ;;
    print (newline +:+ "Finished converting the dataset!").

End Converter.

(** ** What the functions compute, as functions of the file store

    The statements below compare the monadic code with these descriptions. *)

Section Outcome.
Context `{!PyRandom} `{!TensorFlow}.

(** What a reader gets from the path [p]. *)
Definition read_data (m : gmap string node) (p : string) : result bytes :=
  match m !! p with
  | Some (File data) => Ok data
  | Some (RecordFile records) => Ok (record_file_bytes records)
  | Some (LabelFile labels) => Ok (label_file_bytes labels)
  | Some (Dir _) => Raise FailedPreconditionError
  | None => Raise NotFoundError
  end.

(** Height and width of an image that decodes to three dimensions and
    three channels. *)
Definition checked_dims (image_data : bytes) : result (nat * nat) :=
  match run_decode_jpeg image_data with
  | None => Raise InvalidArgumentError
  | Some [height; width; channels] =>
      if bool_decide (channels = 3) then Ok (height, width) else Raise AssertionError
  | Some _ => Raise AssertionError
  end.

(** The record of the photo at path [f], or the exception that ends the run. *)
Definition example_of (m : gmap string node) (ids : gmap string nat) (f : string)
    : result tfexample :=
  match read_data m f with
  | Raise e => Raise e
  | Ok image_data =>
      match checked_dims image_data with
      | Raise e => Raise e
      | Ok (height, width) =>
          match ids !! posixpath.basename (posixpath.dirname f) with
          | None => Raise KeyError
          | Some class_id =>
              Ok (image_to_tfexample image_data b_jpg height width class_id)
          end
      end
  end.

(** The records held by the file at [p]. *)
Definition records_at (m : gmap string node) (p : string) : list tfexample :=
  match m !! p with
  | Some (RecordFile records) => records
  | _ => []
  end.

(** The console line written for image [i] of shard [k]. *)
Definition progress (total k i : nat) : string :=
  carriage_return +:+ ">> Converting image " +:+ fmt_d (i + 1) +:+
  "/" +:+ fmt_d total +:+ " shard " +:+ fmt_d k.

(** The file name of shard [k] of a split, without its directory. *)
Definition shard_name (split_name : string) (k : nat) : string :=
  "tumblr_" +:+ split_name +:+ "_" +:+ fmt_05d k +:+ "-of-" +:+
  fmt_05d _NUM_SHARDS +:+ ".tfrecord".

(** [filenames[start_ndx:end_ndx]] for shard [k]. *)
Definition shard_start (n k : nat) : nat := k * ceil_div n _NUM_SHARDS.
Definition shard_end (n k : nat) : nat := ((k + 1) * ceil_div n _NUM_SHARDS) `min` n.
Definition shard_files {A} (l : list A) (k : nat) : list A :=
  take (shard_end (length l) k - shard_start (length l) k)
       (drop (shard_start (length l) k) l).

(** The store after the shards [ks] of a split were written in full. *)
Definition write_shards (dataset_dir tfrecords_subdir split_name : string)
    (records : list tfexample) (ks : list nat) (m : gmap string node)
    : gmap string node :=
  foldl (λ m k,
           <[_get_dataset_filename dataset_dir tfrecords_subdir split_name k :=
               RecordFile (shard_files records k)]> m) m ks.

(** Every file of [filenames] is away from the record files of the split
    and gives the record [g f]. *)
Definition convertible (m : gmap string node) (ids : gmap string nat)
    (dataset_dir tfrecords_subdir split_name : string)
    (g : string → tfexample) (filenames : list string) : Prop :=
  ∀ f, f ∈ filenames →
    (∀ k, k < _NUM_SHARDS →
       f ≠ _get_dataset_filename dataset_dir tfrecords_subdir split_name k) ∧
    example_of m ids f = Ok (g f).

(** The console lines of the shards [ks] of a split of [n] images. *)
Definition progress_lines (n : nat) (ks : list nat) : list string :=
  ks ≫= λ k, progress n k <$> range2 (shard_start n k) (shard_end n k).

(** The scan of the photos directory [root] with listing [entries]. *)
Definition is_dir (m : gmap string node) (p : string) : bool :=
  match m !! p with
  | Some (Dir _) => true
  | _ => false
  end.

Definition listing (m : gmap string node) (p : string) : list string :=
  match m !! p with
  | Some (Dir entries) => entries
  | _ => []
  end.

Definition class_dirs (m : gmap string node) (root : string) (entries : list string)
    : list string :=
  filter (λ c, is_dir m (posixpath.join root [c]) = true) entries.

Definition photos_in (m : gmap string node) (directory : string) : list string :=
  (λ f, posixpath.join directory [f]) <$>
    filter (λ f, f ≠ ".DS_Store") (listing m directory).

Definition scan (m : gmap string node) (root : string) (entries : list string)
    : list string :=
  class_dirs m root entries ≫= λ c, photos_in m (posixpath.join root [c]).

(** A single path component: not empty, without [/], neither [.] nor [..]. *)
Definition plain_name (s : string) : bool :=
  negb (bool_decide (s = "")) && negb (contains_char posixpath.sep s) &&
  negb (bool_decide (s = ".")) && negb (bool_decide (s = "..")).

(** The five record files of a split can be opened for writing. *)
Definition writable (m : gmap string node)
    (dataset_dir tfrecords_subdir split_name : string) : Prop :=
  ∀ k, k < _NUM_SHARDS →
    open_error m (_get_dataset_filename dataset_dir tfrecords_subdir split_name k)
    = None.

(** All ten record files are present below [subdir]. *)
Definition shards_exist (m : gmap string node) (dataset_dir subdir : string) : bool :=
  forallb (λ split_name,
    forallb (λ shard_id,
      bool_decide (is_Some (m !! _get_dataset_filename dataset_dir subdir
                                   split_name shard_id)))
      (range _NUM_SHARDS))
    ["train"; "validation"].

(** The store once the directory [q] was created if it was missing. *)
Definition ensure_dir (m : gmap string node) (q : string) : gmap string node :=
  match m !! q with
  | Some _ => m
  | None => <[q := Dir []]> m
  end.

(** No path disappears from the store, and every file that is opened for
    reading belongs to [allowed]. *)
Definition grows (allowed : list string) (w w' : world) : Prop :=
  (∀ q, is_Some (fs w !! q) → is_Some (fs w' !! q)) ∧
  ∃ l, reads w' = reads w ++ l ∧ ∀ x, x ∈ l → x ∈ allowed.

(** A computation that stays inside the relation [R], however it ends. *)
Definition preserves {A} (R : world → world → Prop) (m : M A) : Prop :=
  ∀ w, R w (m w).2.

(** Outside the paths of [written] the store holds what it held. *)
Definition writes_within (written : string → Prop) (w w' : world) : Prop :=
  ∀ q, ¬ written q → fs w' !! q = fs w !! q.

(** The two lines that [convert_images] prints. *)
Definition exists_message : string :=
  "Dataset files already exist. Exiting without re-creating them." +:+ newline.
Definition finished_message : string :=
  newline +:+ "Finished converting the dataset!" +:+ newline.

End Outcome.

(** ** A small instance to run the converter on *)

Module Demo.

(** A linear congruential generator stands in for the Mersenne Twister. *)
Definition lcg_next (s : Z) : Z := ((s * 1103515245 + 12345) `mod` 2147483648)%Z.

#[export, refine] Instance lcg : PyRandom := {|
  rng_state := Z;
  random_seed a := Z.abs a;
  randbelow s n := (Z.to_nat (s `mod` Z.of_nat n), lcg_next s)
|}.
Proof.
  intros s n Hn. simpl.
  pose proof (Z.mod_pos_bound s (Z.of_nat n)). lia.
Defined.

(** A decoder that reads the height and the width from the first two bytes
    of the data and rejects data of fewer than three bytes; the third byte
    stands for the colour components of the file, which the op turns into
    three channels. *)
#[export, refine] Instance header_decoder : TensorFlow := {|
  run_decode_jpeg data :=
    match data with
    | h :: w :: _ :: _ => Some [Byte.to_nat h; Byte.to_nat w; 3]
    | _ => None
    end;
  record_file_bytes records := [];
  label_file_bytes labels := []
|}.
Proof.
  intros [|h [|w [|c data]]] shape; [done..|]. intros [= <-]. eauto.
Defined.

Definition rgb (h w : Byte.byte) : node := File [h; w; Byte.x03; Byte.xff].
Definition broken : node := File [Byte.xff].

(** [data/photos] with the classes [sad] and [happy] and a stray file. *)
Definition photos : gmap string node :=
  list_to_map [
    ("data/photos", Dir ["sad"; "README"; "happy"]);
    ("data/photos/README", File []);
    ("data/photos/sad", Dir ["c.jpg"; ".DS_Store"]);
    ("data/photos/sad/c.jpg", rgb Byte.x05 Byte.x06);
    ("data/photos/sad/.DS_Store", File [Byte.x00]);
    ("data/photos/happy", Dir ["a.jpg"; "b.jpg"; "d.jpg"]);
    ("data/photos/happy/a.jpg", rgb Byte.x01 Byte.x02);
    ("data/photos/happy/b.jpg", rgb Byte.x03 Byte.x04);
    ("data/photos/happy/d.jpg", rgb Byte.x07 Byte.x08)
  ].

(** The same tree with the output directory [data/tfrecords]. *)
Definition photos_out : gmap string node :=
  <["data/tfrecords" := Dir []]> photos.

(** The tree with the output directory and one photo that does not decode. *)
Definition photos_broken : gmap string node :=
  <["data/photos/happy/b.jpg" := broken]> photos_out.

(** The tree with a regular file in the place of the output directory. *)
Definition photos_blocked : gmap string node :=
  <["data/tfrecords" := File []]> photos.

(** The tree and the blocked tree with the node of the directory [data]. *)
Definition photos_in_data : gmap string node :=
  <["data" := Dir ["photos"]]> photos.
Definition photos_blocked_in_data : gmap string node :=
  <["data" := Dir ["photos"; "tfrecords"]]> photos_blocked.

(** The tree with the output directory and, in it, a directory that has the
    name of the second training record file. *)
Definition photos_shard_dir : gmap string node :=
  <["data/tfrecords/tumblr_train_00001-of-00005.tfrecord" := Dir []]> photos_out.


Definition files : list string :=
  ["data/photos/sad/c.jpg"; "data/photos/happy/a.jpg";
   "data/photos/happy/b.jpg"; "data/photos/happy/d.jpg"].

Definition ids : gmap string nat := dict (zip ["happy"; "sad"] (range 2)).

(** The record of a photo of the store [m], when it has one. *)
Definition record_of (m : gmap string node) (f : string) : tfexample :=
  match example_of m ids f with
  | Ok example => example
  | Raise _ => TFExample [] [] 0 0 0
  end.

Definition start (m : gmap string node) : world := World m 7%Z [] [].

End Demo.

(** ** Tactics for the small instance *)

(** Discharges [convertible] on a store and a list that compute. *)
Ltac by_cases_on_files Hf :=
  vm_compute in Hf;
  repeat (apply elem_of_cons in Hf as [-> | Hf]);
  [..|by apply elem_of_nil in Hf].

Ltac away_from_shards :=
  let k := fresh "k" in
  let Hk := fresh "Hk" in
  intros k Hk; unfold _NUM_SHARDS in Hk;
  do 5 (destruct k as [|k]; [by vm_compute|]); lia.

(** Discharges [writable] on a store that computes. *)
Ltac writable_by_computation := unfold writable; away_from_shards.

Ltac convertible_by_computation :=
  let f := fresh "f" in
  let Hf := fresh "Hf" in
  intros f Hf; by_cases_on_files Hf;
  (split; [away_from_shards|by vm_compute]).

(** Replaces the literal path [p] of the goal by the expression [e] that
    computes to it. *)
Ltac path_of p e :=
  let Hp := fresh "Hp" in
  assert (e = p) as Hp by (by vm_compute);
  rewrite <-Hp; clear Hp.

(** * Properties *)

(** ** Paths *)

Module posixpath_facts.
Import posixpath.

Lemma append_String c (r s : string) : String c r +:+ s = String c (r +:+ s).
Proof. reflexivity. Qed.

Lemma append_empty_l (s : string) : "" +:+ s = s.
Proof. reflexivity. Qed.

Lemma append_assoc (a b c : string) : (a +:+ b) +:+ c = a +:+ b +:+ c.
Proof. induction a as [|x r IH]; [done|]. by rewrite !append_String, IH. Qed.

Lemma append_eq_empty (a b : string) : a +:+ b = "" → a = "" ∧ b = "".
Proof. destruct a; [done|]. by rewrite append_String. Qed.

Lemma join_step_relative path b :
  startswith_sep b = false → join_step path b = with_sep path +:+ b.
Proof.
  intros Hb. unfold join_step, with_sep. rewrite Hb.
  destruct (bool_decide (path = "") || endswith_sep path); [done|].
  by rewrite append_assoc.
Qed.

Lemma no_sep_relative f : contains_char sep f = false → startswith_sep f = false.
Proof. destruct f as [|c r]; simpl; [done|]. by intros [? _]%orb_false_iff. Qed.

Lemma join_relative d f :
  contains_char sep f = false → join d [f] = with_sep d +:+ f.
Proof. intros Hf. apply join_step_relative, no_sep_relative, Hf. Qed.

Lemma endswith_sep_app x c :
  c ≠ "" → endswith_sep (x +:+ c) = endswith_sep c.
Proof.
  intros Hc. induction x as [|a r IH]; [done|].
  rewrite append_String. simpl.
  destruct (r +:+ c) eqn:E; [|done].
  by apply append_eq_empty in E as [_ ?].
Qed.

Lemma endswith_sep_app_sep d : endswith_sep (d +:+ "/") = true.
Proof. by rewrite endswith_sep_app. Qed.

Lemma with_sep_cases d : with_sep d = "" ∨ endswith_sep (with_sep d) = true.
Proof.
  unfold with_sep. destruct (bool_decide (d = "")) eqn:E1; simpl.
  - left. by apply bool_decide_eq_true in E1.
  - destruct (endswith_sep d) eqn:E2; [by right|].
    right. apply endswith_sep_app_sep.
Qed.

Lemma rsplit_sep_no_sep f : contains_char sep f = false → rsplit_sep f = ("", f).
Proof.
  induction f as [|c r IH]; simpl; [done|].
  intros [Hc Hr]%orb_false_iff. rewrite (IH Hr). simpl. by rewrite Hc.
Qed.

Lemma rsplit_sep_app x f :
  contains_char sep f = false →
  x = "" ∨ endswith_sep x = true →
  rsplit_sep (x +:+ f) = (x, f).
Proof.
  intros Hf. induction x as [|c r IH]; intros Hx.
  - by apply rsplit_sep_no_sep.
  - destruct Hx as [?|Hx]; [done|]. rewrite append_String. simpl in *.
    destruct r as [|c' r'].
    + apply bool_decide_eq_true in Hx as ->.
      by rewrite append_empty_l, (rsplit_sep_no_sep f Hf).
    + rewrite IH by (by right). done.
Qed.

Lemma basename_join d f : contains_char sep f = false → basename (join d [f]) = f.
Proof.
  intros Hf. rewrite (join_relative _ _ Hf). unfold basename.
  by rewrite (rsplit_sep_app _ _ Hf (with_sep_cases d)).
Qed.

Lemma no_sep_endswith c : contains_char sep c = false → endswith_sep c = false.
Proof.
  induction c as [|a r IH]; simpl; [done|].
  intros [Ha Hr]%orb_false_iff. destruct r; [done|by apply IH].
Qed.

Lemma all_sep_app_sep d :
  d ≠ "" → endswith_sep d = false → all_sep (d +:+ "/") = false.
Proof.
  induction d as [|c r IH]; [done|]. intros _ Hd.
  rewrite append_String. simpl in *.
  destruct r as [|c' r'].
  - by rewrite Hd.
  - rewrite IH; [by rewrite andb_false_r|done|done].
Qed.

Lemma rstrip_sep_app_sep d :
  d ≠ "" → endswith_sep d = false → rstrip_sep (d +:+ "/") = d.
Proof.
  induction d as [|c r IH]; [done|]. intros _ Hd.
  rewrite append_String. simpl in *.
  destruct r as [|c' r'].
  - rewrite append_empty_l. simpl. by rewrite Hd.
  - rewrite IH by done. simpl. by rewrite andb_false_r.
Qed.

Lemma dirname_join d f :
  d ≠ "" → endswith_sep d = false → contains_char sep f = false →
  dirname (join d [f]) = d.
Proof.
  intros Hd Hend Hf. rewrite (join_relative _ _ Hf).
  unfold dirname. rewrite (rsplit_sep_app _ _ Hf (with_sep_cases d)). simpl.
  unfold with_sep. rewrite Hend, orb_false_r.
  rewrite (bool_decide_eq_false_2 (d = "")) by done.
  rewrite all_sep_app_sep by done.
  rewrite bool_decide_eq_false_2; simpl.
  - by apply rstrip_sep_app_sep.
  - by intros [? _]%append_eq_empty.
Qed.

(** The class directory is recovered from the path of a photo. *)
Lemma basename_dirname_join root c f :
  c ≠ "" → contains_char sep c = false → contains_char sep f = false →
  basename (dirname (join (join root [c]) [f])) = c.
Proof.
  intros Hc Hsep Hf.
  rewrite dirname_join; [by apply basename_join| | |done].
  - rewrite (join_relative _ _ Hsep). by intros [_ ?]%append_eq_empty.
  - rewrite (join_relative _ _ Hsep), endswith_sep_app by done.
    by apply no_sep_endswith.
Qed.

(** *** The names of the record files *)

Lemma length_append (a b : string) :
  String.length (a +:+ b) = String.length a + String.length b.
Proof. induction a as [|c r IH]; [done|]. rewrite append_String. simpl. lia. Qed.

Lemma rstrip_sep_length s : String.length (rstrip_sep s) ≤ String.length s.
Proof.
  induction s as [|c r IH]; [done|]. simpl.
  destruct (bool_decide (c = sep) && bool_decide (rstrip_sep r = ""));
    simpl; lia.
Qed.

(** The directory of [join d [f]] is not longer than [d] with its [/]. *)
Lemma dirname_join_length d f :
  contains_char sep f = false →
  String.length (dirname (join d [f])) ≤ String.length (with_sep d).
Proof.
  intros Hf. rewrite (join_relative _ _ Hf). unfold dirname.
  rewrite (rsplit_sep_app _ _ Hf (with_sep_cases d)). simpl.
  destruct (negb _ && negb _); [apply rstrip_sep_length|done].
Qed.

(** A file in a directory is not the directory of a file next to it. *)
Lemma join_ne_dirname_join d f f' :
  f ≠ "" → contains_char sep f = false → contains_char sep f' = false →
  join d [f] ≠ dirname (join d [f']).
Proof.
  intros Hne Hf Hf' Heq. pose proof (dirname_join_length d f' Hf') as Hlen.
  rewrite <-Heq, (join_relative _ _ Hf), length_append in Hlen.
  destruct f; [done|]. simpl in Hlen. lia.
Qed.

Lemma dataset_filename_eq d t split_name k :
  _get_dataset_filename d t split_name k =
  with_sep (join d [t]) +:+ shard_name split_name k.
Proof.
  unfold _get_dataset_filename, join. simpl.
  by rewrite (join_step_relative _ (shard_name split_name k)).
Qed.

Lemma shard_name_inj s1 s2 k1 k2 :
  s1 ∈ ["train"; "validation"] → s2 ∈ ["train"; "validation"] →
  k1 < _NUM_SHARDS → k2 < _NUM_SHARDS →
  shard_name s1 k1 = shard_name s2 k2 → s1 = s2 ∧ k1 = k2.
Proof.
  unfold _NUM_SHARDS. intros Hs1 Hs2 Hk1 Hk2 Heq.
  assert (s1 = "train" ∨ s1 = "validation") as Hs1'
    by (rewrite !elem_of_cons, elem_of_nil in Hs1; tauto).
  assert (s2 = "train" ∨ s2 = "validation") as Hs2'
    by (rewrite !elem_of_cons, elem_of_nil in Hs2; tauto).
  clear Hs1 Hs2.
  destruct k1 as [|[|[|[|[|k1]]]]]; [| | | | |lia];
    destruct k2 as [|[|[|[|[|k2]]]]]; try lia;
    destruct Hs1' as [-> | ->], Hs2' as [-> | ->];
    first [done | by vm_compute in Heq].
Qed.

Lemma dataset_filename_inj d t s1 s2 k1 k2 :
  s1 ∈ ["train"; "validation"] → s2 ∈ ["train"; "validation"] →
  k1 < _NUM_SHARDS → k2 < _NUM_SHARDS →
  _get_dataset_filename d t s1 k1 = _get_dataset_filename d t s2 k2 →
  s1 = s2 ∧ k1 = k2.
Proof.
  intros ? ? ? ?. rewrite !dataset_filename_eq. intros Heq%(inj _).
  by apply shard_name_inj.
Qed.

End posixpath_facts.

Lemma shard_name_no_sep split_name k :
  split_name ∈ ["train"; "validation"] → k < _NUM_SHARDS →
  contains_char posixpath.sep (shard_name split_name k) = false.
Proof.
  unfold _NUM_SHARDS. intros Hsplit Hk.
  assert (split_name = "train" ∨ split_name = "validation") as [-> | ->]
    by (rewrite !elem_of_cons, elem_of_nil in Hsplit; tauto);
    destruct k as [|[|[|[|[|k]]]]]; try lia; by vm_compute.
Qed.

(** No record file is the directory of a record file. *)
Lemma dataset_filename_ne_dirname d t s1 s2 k1 k2 :
  s1 ∈ ["train"; "validation"] → s2 ∈ ["train"; "validation"] →
  k1 < _NUM_SHARDS → k2 < _NUM_SHARDS →
  _get_dataset_filename d t s1 k1 ≠
  posixpath.dirname (_get_dataset_filename d t s2 k2).
Proof.
  intros Hs1 Hs2 Hk1 Hk2.
  change (_get_dataset_filename d t s1 k1)
    with (posixpath.join (posixpath.join d [t]) [shard_name s1 k1]).
  change (_get_dataset_filename d t s2 k2)
    with (posixpath.join (posixpath.join d [t]) [shard_name s2 k2]).
  apply posixpath_facts.join_ne_dirname_join; [|by apply shard_name_no_sep..].
  unfold shard_name. by intros [? _]%posixpath_facts.append_eq_empty.
Qed.

(** *** Paths below plain subdirectory names *)

Lemma plain_name_spec s :
  plain_name s = true → s ≠ "" ∧ contains_char posixpath.sep s = false.
Proof.
  unfold plain_name. rewrite !andb_true_iff, !negb_true_iff.
  intros [[[Hne Hsep] _] _]. split; [|done].
  by apply bool_decide_eq_false in Hne.
Qed.

Lemma with_sep_nonempty x :
  x ≠ "" → posixpath.endswith_sep x = false → posixpath.with_sep x = x +:+ "/".
Proof.
  intros Hne Hend. unfold posixpath.with_sep.
  by rewrite bool_decide_eq_false_2, Hend by done.
Qed.

Lemma join_plain d t :
  plain_name t = true →
  posixpath.join d [t] = posixpath.with_sep d +:+ t ∧
  posixpath.join d [t] ≠ "" ∧
  posixpath.endswith_sep (posixpath.join d [t]) = false.
Proof.
  intros [Hne Hsep]%plain_name_spec.
  rewrite (posixpath_facts.join_relative _ _ Hsep). split; [done|]. split.
  - by intros [_ ?]%posixpath_facts.append_eq_empty.
  - rewrite posixpath_facts.endswith_sep_app by done.
    by apply posixpath_facts.no_sep_endswith.
Qed.

(** [<d>/<t>/<f>] as a string. *)
Lemma join_plain_file d t f :
  plain_name t = true → contains_char posixpath.sep f = false →
  posixpath.join (posixpath.join d [t]) [f] =
  posixpath.with_sep d +:+ t +:+ String posixpath.sep f.
Proof.
  intros Ht Hf. destruct (join_plain d t Ht) as (Heq & Hne & Hend).
  rewrite (posixpath_facts.join_relative _ f Hf), with_sep_nonempty by done.
  by rewrite Heq, !posixpath_facts.append_assoc.
Qed.

Lemma dataset_filename_plain d t split_name k :
  plain_name t = true → split_name ∈ ["train"; "validation"] → k < _NUM_SHARDS →
  _get_dataset_filename d t split_name k =
  posixpath.with_sep d +:+ t +:+ String posixpath.sep (shard_name split_name k).
Proof.
  intros Ht Hsplit Hk.
  change (_get_dataset_filename d t split_name k)
    with (posixpath.join (posixpath.join d [t]) [shard_name split_name k]).
  apply join_plain_file; [done|]. by apply shard_name_no_sep.
Qed.

Lemma contains_char_app_sep a x :
  contains_char posixpath.sep (a +:+ String posixpath.sep x) = true.
Proof.
  induction a as [|c r IH].
  - by rewrite posixpath_facts.append_empty_l.
  - rewrite posixpath_facts.append_String. simpl. by rewrite IH, orb_true_r.
Qed.

(** Two paths that agree have the same first component. *)
Lemma append_sep_inj a a' x y :
  contains_char posixpath.sep a = false →
  contains_char posixpath.sep a' = false →
  a +:+ String posixpath.sep x = a' +:+ String posixpath.sep y →
  a = a' ∧ x = y.
Proof.
  revert a'. induction a as [|c r IH]; intros [|c' r'] Ha Ha' Heq.
  - rewrite !posixpath_facts.append_empty_l in Heq. by injection Heq as ->.
  - rewrite posixpath_facts.append_empty_l, posixpath_facts.append_String in Heq.
    by injection Heq as <- _.
  - rewrite posixpath_facts.append_empty_l, posixpath_facts.append_String in Heq.
    by injection Heq as -> _.
  - rewrite !posixpath_facts.append_String in Heq. injection Heq as -> Heq.
    simpl in Ha, Ha'.
    apply orb_false_iff in Ha as [_ Ha]. apply orb_false_iff in Ha' as [_ Ha'].
    by destruct (IH r' Ha Ha' Heq) as [-> ->].
Qed.

(** The record files of two plain subdirectories are different files. *)
Lemma dataset_filename_subdir_ne d p t s1 s2 k1 k2 :
  plain_name p = true → plain_name t = true → p ≠ t →
  s1 ∈ ["train"; "validation"] → s2 ∈ ["train"; "validation"] →
  k1 < _NUM_SHARDS → k2 < _NUM_SHARDS →
  _get_dataset_filename d p s1 k1 ≠ _get_dataset_filename d t s2 k2.
Proof.
  intros Hp Ht Hne Hs1 Hs2 Hk1 Hk2.
  rewrite !dataset_filename_plain by done. intros Heq%(inj _).
  apply plain_name_spec in Hp as [_ Hp]. apply plain_name_spec in Ht as [_ Ht].
  by apply append_sep_inj in Heq as [? _].
Qed.

(** A file of a class directory is none of the paths that a run writes. *)
Lemma photo_path_not_written d p t c f :
  plain_name p = true → plain_name t = true →
  c ≠ "" → contains_char posixpath.sep c = false →
  contains_char posixpath.sep f = false →
  let path := posixpath.join (posixpath.join (posixpath.join d [p]) [c]) [f] in
  path ≠ posixpath.join d [t] ∧
  path ≠ posixpath.join d [p; "labels.txt"] ∧
  ∀ split_name k, split_name ∈ ["train"; "validation"] → k < _NUM_SHARDS →
    path ≠ _get_dataset_filename d t split_name k.
Proof.
  intros Hp Ht Hc Hsep Hf path.
  assert (path = posixpath.with_sep d +:+ p +:+
                 String posixpath.sep (c +:+ String posixpath.sep f)) as ->.
  { unfold path. rewrite (posixpath_facts.join_relative _ f Hf).
    rewrite (join_plain_file d p c Hp Hsep).
    rewrite with_sep_nonempty.
    - by rewrite !posixpath_facts.append_assoc.
    - by intros [_ [_ [=]]%posixpath_facts.append_eq_empty
        ]%posixpath_facts.append_eq_empty.
    - rewrite (posixpath_facts.endswith_sep_app _ (p +:+ String posixpath.sep c))
        by (by intros [_ [=]]%posixpath_facts.append_eq_empty).
      rewrite (posixpath_facts.endswith_sep_app p (String posixpath.sep c)) by done.
      change (String posixpath.sep c) with ("/" +:+ c).
      rewrite posixpath_facts.endswith_sep_app by done.
      by apply posixpath_facts.no_sep_endswith. }
  pose proof (plain_name_spec p Hp) as [_ Hp'].
  pose proof (plain_name_spec t Ht) as [_ Ht'].
  split; [|split].
  - destruct (join_plain d t Ht) as (-> & _ & _). intros Heq%(inj _).
    by rewrite <-Heq, contains_char_app_sep in Ht'.
  - change (posixpath.join d [p; "labels.txt"])
      with (posixpath.join (posixpath.join d [p]) ["labels.txt"]).
    rewrite (join_plain_file d p "labels.txt") by done.
    intros Heq%(inj _)%(inj _). injection Heq as Heq.
    apply (f_equal (contains_char posixpath.sep)) in Heq.
    by rewrite contains_char_app_sep in Heq.
  - intros split_name k Hsplit Hk. rewrite dataset_filename_plain by done.
    intros Heq%(inj _). apply append_sep_inj in Heq as [_ Heq]; [|done..].
    apply (f_equal (contains_char posixpath.sep)) in Heq.
    by rewrite contains_char_app_sep, shard_name_no_sep in Heq.
Qed.

(** ** Running the monadic code *)

Section Run.
Context `{!PyRandom} `{!TensorFlow}.

Lemma world_eta (w : world) : World (fs w) (rng w) (stdout w) (reads w) = w.
Proof. by destruct w. Qed.

Lemma bind_ok {A B} (m : M A) (k : A → M B) w a w' :
  m w = (Ok a, w') → bind m k w = k a w'.
Proof. unfold bind. by intros ->. Qed.

Lemma bind_raise {A B} (m : M A) (k : A → M B) w e w' :
  m w = (Raise e, w') → bind m k w = (Raise e, w').
Proof. unfold bind. by intros ->. Qed.

Lemma for_each_app {A} (l1 l2 : list A) (body : A → M unit) w :
  for_each (l1 ++ l2) body w =
  bind (for_each l1 body) (λ _, for_each l2 body) w.
Proof.
  revert w. induction l1 as [|x l1 IH]; intros w; simpl; [done|].
  unfold bind in *. destruct (body x w) as [[[]|e] w1]; [|done].
  by rewrite IH.
Qed.

Lemma for_fold_cons {A S} (x : A) (l : list A) (acc : S) (body : S → A → M S) w :
  for_fold (x :: l) acc body w =
  match body acc x w with
  | (Ok acc', w') => for_fold l acc' body w'
  | (Raise e, w') => (Raise e, w')
  end.
Proof. reflexivity. Qed.

Lemma read_image_dims_run image_data w :
  read_image_dims image_data w = (checked_dims image_data, w).
Proof.
  unfold read_image_dims, decode_jpeg, sess_run_decode_jpeg, checked_dims, bind.
  destruct (run_decode_jpeg image_data) as [shape|]; [|done]. simpl.
  destruct shape as [|h [|wd [|c [|x shape]]]]; simpl; try done.
  unfold assert. by case_bool_decide.
Qed.

Lemma example_of_ext m1 m2 ids f :
  m1 !! f = m2 !! f → example_of m1 ids f = example_of m2 ids f.
Proof. unfold example_of, read_data. by intros ->. Qed.

Lemma TFRecordWriter_ok p w :
  open_error (fs w) p = None →
  TFRecordWriter p w =
  (Ok (), World (<[p := RecordFile []]> (fs w)) (rng w) (stdout w) (reads w)).
Proof. unfold TFRecordWriter. by intros ->. Qed.

Lemma TFRecordWriter_raise p w e :
  open_error (fs w) p = Some e → TFRecordWriter p w = (Raise e, w).
Proof. unfold TFRecordWriter. by intros ->. Qed.

(** A record file that is written elsewhere leaves [p] as easy to open. *)
Lemma open_error_insert m q rs p :
  open_error m p = None → q ≠ posixpath.dirname p →
  open_error (<[q := RecordFile rs]> m) p = None.
Proof.
  unfold open_error. intros Hopen Hq.
  rewrite (lookup_insert_ne _ q (posixpath.dirname p)) by done.
  destruct (decide (q = p)) as [->|Hne].
  - rewrite lookup_insert_eq.
    by destruct (m !! p) as [[entries|data|records|labels]|].
  - by rewrite lookup_insert_ne.
Qed.

(** One image: the console line and the read happen in any case, the
    record is appended when the image is accepted. *)
Lemma convert_image_run filenames ids out k i f w :
  filenames !! i = Some f →
  convert_image filenames ids out k i w =
  match example_of (fs w) ids f with
  | Ok example =>
      (Ok (), World (<[out := RecordFile (records_at (fs w) out ++ [example])]> (fs w))
                    (rng w) (stdout w ++ [progress (length filenames) k i])
                    (reads w ++ [f]))
  | Raise e =>
      (Raise e, World (fs w) (rng w) (stdout w ++ [progress (length filenames) k i])
                      (reads w ++ [f]))
  end.
Proof.
  intros Hf. unfold convert_image, example_of, read_data, records_at.
  unfold bind at 1. unfold stdout_write at 1.
  unfold bind at 1. unfold getitem at 1. rewrite Hf. unfold ret at 1.
  unfold bind at 1. unfold gfile_read at 1. simpl.
  assert (∀ data,
    bind (read_image_dims data) (λ x, let (height, width) := x in
      bind (getitem filenames i) (λ filename,
        bind (dict_getitem ids (posixpath.basename (posixpath.dirname filename)))
          (λ class_id, tfrecord_write out
             (image_to_tfexample data b_jpg height width class_id))))
      (World (fs w) (rng w) (stdout w ++ [progress (length filenames) k i])
             (reads w ++ [f])) =
    match checked_dims data with
    | Ok (height, width) =>
        match ids !! posixpath.basename (posixpath.dirname f) with
        | Some class_id =>
            (Ok (), World (<[out := RecordFile
                   (match fs w !! out with
                    | Some (RecordFile records) => records
                    | _ => []
                    end ++ [image_to_tfexample data b_jpg height width class_id])]> (fs w))
                 (rng w) (stdout w ++ [progress (length filenames) k i])
                 (reads w ++ [f]))
        | None => (Raise KeyError,
                   World (fs w) (rng w) (stdout w ++ [progress (length filenames) k i])
                         (reads w ++ [f]))
        end
    | Raise e => (Raise e,
                  World (fs w) (rng w) (stdout w ++ [progress (length filenames) k i])
                        (reads w ++ [f]))
    end) as Hrest.
  { intros data. unfold bind at 1. rewrite read_image_dims_run.
    destruct (checked_dims data) as [[h wd]|e]; [|done].
    unfold bind at 1. unfold getitem. rewrite Hf. unfold ret at 1.
    unfold bind, dict_getitem.
    destruct (ids !! _) as [class_id|]; [|done]. done. }
  unfold progress in *.
  destruct (fs w !! f) as [[entries|data|records|labels]|]; try done;
    rewrite Hrest; (destruct (checked_dims _) as [[? ?]|?]; [|done]);
    by destruct (ids !! _).
Qed.

(** The loop over the images of one shard, when every image is accepted. *)
Lemma shard_loop_ok filenames ids out k (g : string → tfexample) n :
  ∀ a w rs,
  (0 < n → a + n ≤ length filenames) →
  fs w !! out = Some (RecordFile rs) →
  (∀ f, f ∈ take n (drop a filenames) →
        f ≠ out ∧ example_of (fs w) ids f = Ok (g f)) →
  for_each (seq a n) (convert_image filenames ids out k) w =
  (Ok (), World (<[out := RecordFile (rs ++ (g <$> take n (drop a filenames)))]> (fs w))
                (rng w)
                (stdout w ++ (progress (length filenames) k <$> seq a n))
                (reads w ++ take n (drop a filenames))).
Proof.
  induction n as [|n IH]; intros a w rs Hlen Hout Hgood.
  - simpl. rewrite !app_nil_r, insert_id by done. by rewrite world_eta.
  - destruct (lookup_lt_is_Some_2 filenames a) as [f Hf]; [lia|].
    rewrite (drop_S _ _ _ Hf) in Hgood |- *. simpl in Hgood |- *.
    pose proof (Hgood f (list_elem_of_here _ _)) as [Hne Hex].
    erewrite bind_ok; last first.
    { rewrite (convert_image_run _ _ _ _ _ f) by done. by rewrite Hex. }
    unfold records_at. rewrite Hout.
    rewrite (IH (S a) _ (rs ++ [g f])); simpl.
    + rewrite insert_insert_eq. by rewrite <-!(assoc_L (++)).
    + lia.
    + by rewrite lookup_insert_eq.
    + intros f' Hf'. pose proof (Hgood f' (list_elem_of_further _ _ _ Hf')) as [Hne' Hex'].
      split; [done|]. rewrite <-Hex'. apply example_of_ext.
      by rewrite lookup_insert_ne.
Qed.

(** The same loop when image [i] is the first one that is rejected. *)
Lemma shard_loop_raise filenames ids out k (g : string → tfexample) n a i w rs f e :
  a + n ≤ length filenames →
  a ≤ i < a + n →
  fs w !! out = Some (RecordFile rs) →
  (∀ f', f' ∈ take (i - a) (drop a filenames) →
         f' ≠ out ∧ example_of (fs w) ids f' = Ok (g f')) →
  filenames !! i = Some f → f ≠ out →
  example_of (fs w) ids f = Raise e →
  for_each (seq a n) (convert_image filenames ids out k) w =
  (Raise e,
   World (<[out := RecordFile (rs ++ (g <$> take (i - a) (drop a filenames)))]> (fs w))
         (rng w)
         (stdout w ++ (progress (length filenames) k <$> seq a (i - a + 1)))
         (reads w ++ take (i - a + 1) (drop a filenames))).
Proof.
  intros Hlen Hi Hout Hgood Hf Hne Hex.
  replace n with ((i - a) + S (a + n - S i)) by lia.
  rewrite seq_app, for_each_app.
  erewrite bind_ok; last by apply (shard_loop_ok _ _ _ _ g); [lia|done|done].
  replace (a + (i - a)) with i by lia. simpl.
  apply bind_raise.
  rewrite (convert_image_run _ _ _ _ _ f) by done. simpl.
  rewrite (example_of_ext _ (fs w)), Hex by (by rewrite lookup_insert_ne).
  f_equal. f_equal.
  - rewrite seq_app, fmap_app, <-(assoc_L (++)). simpl.
    by replace (a + (i - a)) with i by lia.
  - rewrite <-(assoc_L (++)). f_equal.
    rewrite <-take_take_drop, drop_drop.
    replace (a + (i - a)) with i by lia.
    by rewrite (drop_S _ _ _ Hf).
Qed.

(** *** The shards of a split *)

Lemma ceil_div_shards n : n ≤ _NUM_SHARDS * ceil_div n _NUM_SHARDS.
Proof.
  unfold ceil_div, _NUM_SHARDS.
  pose proof (Nat.div_mod_eq (n + 5 - 1) 5).
  pose proof (Nat.mod_upper_bound (n + 5 - 1) 5). lia.
Qed.

Lemma shard_files_fmap {A B} (g : A → B) (l : list A) k :
  shard_files (g <$> l) k = g <$> shard_files l k.
Proof. unfold shard_files. by rewrite length_fmap, fmap_take, fmap_drop. Qed.

Lemma shard_files_subseteq {A} (l : list A) k x : x ∈ shard_files l k → x ∈ l.
Proof.
  unfold shard_files. intros (i & Hi & _)%elem_of_take.
  rewrite lookup_drop in Hi. by eapply list_elem_of_lookup_2.
Qed.

(** The first [m] shards hold the first [m * num_per_shard] files. *)
Lemma shard_files_prefix {A} (l : list A) m :
  seq 0 m ≫= shard_files l = take (shard_start (length l) m) l.
Proof.
  induction m as [|m IH]; [done|].
  rewrite seq_S, bind_app, IH, bind_singleton. simpl.
  unfold shard_files, shard_start, shard_end.
  generalize (ceil_div (length l) _NUM_SHARDS) as nps. intros nps.
  destruct (decide (m * nps ≤ length l)) as [Hle|Hgt].
  - rewrite take_take_drop. destruct (decide ((m + 1) * nps ≤ length l)).
    + f_equal. lia.
    + rewrite !take_ge; [done|lia|lia].
  - replace (((m + 1) * nps) `min` length l - m * nps) with 0 by lia.
    rewrite take_0, app_nil_r, !take_ge; [done|lia|lia].
Qed.

Lemma shard_files_partition {A} (l : list A) :
  range _NUM_SHARDS ≫= shard_files l = l.
Proof.
  unfold range, range2. rewrite Nat.sub_0_r, shard_files_prefix.
  apply take_ge. pose proof (ceil_div_shards (length l)).
  unfold shard_start. lia.
Qed.

Section Shards.
Variables (dataset_dir tfrecords_subdir split_name : string).
Variables (filenames : list string) (ids : gmap string nat).
Variable g : string → tfexample.

Let out := _get_dataset_filename dataset_dir tfrecords_subdir split_name.
Let n := length filenames.

Hypothesis out_ne_dirname : ∀ k k',
  k < _NUM_SHARDS → k' < _NUM_SHARDS → out k ≠ posixpath.dirname (out k').

(** The body of the loop over the shards, as written in [_convert_dataset]. *)
Let shard_body (shard_id : nat) : M unit :=
  bind (TFRecordWriter (out shard_id)) (λ _,
    for_each (range2 (shard_start n shard_id) (shard_end n shard_id))
             (convert_image filenames ids (out shard_id) shard_id)).

Lemma write_shards_lookup_ne records ks m p :
  (∀ k, k ∈ ks → p ≠ out k) →
  write_shards dataset_dir tfrecords_subdir split_name records ks m !! p = m !! p.
Proof.
  revert m. induction ks as [|k ks IH]; intros m Hp; [done|].
  unfold write_shards in *. simpl.
  rewrite IH by (intros; by apply Hp, list_elem_of_further).
  apply lookup_insert_ne. intros Heq. by apply (Hp k); [left|].
Qed.

Lemma open_error_write_shards records ks m p :
  (∀ k, k ∈ ks → out k ≠ posixpath.dirname p) →
  open_error m p = None →
  open_error (write_shards dataset_dir tfrecords_subdir split_name records ks m)
             p = None.
Proof.
  revert m. induction ks as [|k ks IH]; intros m Hks Hopen; [done|].
  unfold write_shards in *. simpl. apply IH.
  - intros k' Hk'. by apply Hks; right.
  - apply open_error_insert; [done|]. by apply Hks; left.
Qed.

Lemma shard_body_ok k w :
  open_error (fs w) (out k) = None →
  (∀ f, f ∈ shard_files filenames k →
        f ≠ out k ∧ example_of (fs w) ids f = Ok (g f)) →
  shard_body k w =
  (Ok (), World (<[out k := RecordFile (g <$> shard_files filenames k)]> (fs w))
                (rng w)
                (stdout w ++ (progress n k <$> range2 (shard_start n k) (shard_end n k)))
                (reads w ++ shard_files filenames k)).
Proof.
  intros Hopen Hgood. unfold shard_body, range2.
  erewrite bind_ok by (by apply TFRecordWriter_ok).
  rewrite (shard_loop_ok _ _ _ _ g _ _ _ []); simpl.
  - by rewrite insert_insert_eq.
  - unfold shard_end. subst n. lia.
  - by rewrite lookup_insert_eq.
  - intros f Hf. destruct (Hgood f Hf) as [Hne Hex]. split; [done|].
    rewrite <-Hex. apply example_of_ext. by rewrite lookup_insert_ne.
Qed.

(** The writer of shard [k] finds no directory for its file. *)
Lemma shard_body_raise k w e :
  open_error (fs w) (out k) = Some e → shard_body k w = (Raise e, w).
Proof. intros Hopen. by apply bind_raise, TFRecordWriter_raise. Qed.

Lemma shards_loop_ok ks : ∀ w,
  (∀ k, k ∈ ks → k < _NUM_SHARDS) →
  (∀ k, k ∈ ks → open_error (fs w) (out k) = None) →
  (∀ k f, k ∈ ks → f ∈ shard_files filenames k →
          (∀ k', k' ∈ ks → f ≠ out k') ∧ example_of (fs w) ids f = Ok (g f)) →
  for_each ks shard_body w =
  (Ok (), World (write_shards dataset_dir tfrecords_subdir split_name
                              (g <$> filenames) ks (fs w))
                (rng w)
                (stdout w ++ progress_lines n ks)
                (reads w ++ (ks ≫= shard_files filenames))).
Proof.
  induction ks as [|k ks IH]; intros w Hks Hopen Hgood.
  - simpl. rewrite !app_nil_r. by rewrite world_eta.
  - simpl. erewrite bind_ok; last first.
    { apply shard_body_ok; [by apply Hopen; left|]. intros f Hf.
      destruct (Hgood k f) as [Hne Hex]; [by left|done|].
      split; [by apply Hne; left|done]. }
    rewrite IH; simpl.
    + unfold write_shards, progress_lines. simpl.
      rewrite shard_files_fmap.
      by rewrite <-!(assoc_L (++)).
    + intros k' Hk'. by apply Hks; right.
    + intros k' Hk'. apply open_error_insert; [by apply Hopen; right|].
      apply out_ne_dirname; apply Hks; [by left|by right].
    + intros k' f Hk' Hf.
      destruct (Hgood k' f) as [Hne Hex]; [by right|done|].
      split; [intros; by apply Hne; right|].
      rewrite <-Hex. apply example_of_ext.
      apply lookup_insert_ne. intros Heq. by apply (Hne k); [left|].
Qed.

Lemma shard_files_index k f :
  f ∈ shard_files filenames k →
  ∃ j, filenames !! j = Some f ∧ shard_start n k ≤ j < shard_end n k.
Proof.
  unfold shard_files. intros (j & Hj & Hlt)%elem_of_take.
  rewrite lookup_drop in Hj. exists (shard_start n k + j).
  split; [done|]. subst n. lia.
Qed.

(** Image [i] of shard [s] is the first one that is rejected. *)
Lemma shards_loop_raise m s i f e w :
  s < m → m ≤ _NUM_SHARDS →
  shard_start n s ≤ i < shard_end n s →
  (∀ k, k ≤ s → open_error (fs w) (out k) = None) →
  (∀ j f', j < i → filenames !! j = Some f' →
           (∀ k, k ≤ s → f' ≠ out k) ∧ example_of (fs w) ids f' = Ok (g f')) →
  filenames !! i = Some f →
  (∀ k, k ≤ s → f ≠ out k) →
  example_of (fs w) ids f = Raise e →
  for_each (seq 0 m) shard_body w =
  (Raise e,
   World (<[out s := RecordFile (g <$> take (i - shard_start n s)
                                            (drop (shard_start n s) filenames))]>
            (write_shards dataset_dir tfrecords_subdir split_name
                          (g <$> filenames) (seq 0 s) (fs w)))
         (rng w)
         (stdout w ++ progress_lines n (seq 0 s) ++
            (progress n s <$> seq (shard_start n s) (i - shard_start n s + 1)))
         (reads w ++ take (i + 1) filenames)).
Proof.
  intros Hs Hm Hi Hopen Hgood Hf Hne Hex.
  assert (∀ k j, k < s → j < shard_end n k → j < i) as Hbefore.
  { intros k j Hk. unfold shard_end, shard_start in *.
    assert ((k + 1) * ceil_div n _NUM_SHARDS ≤ s * ceil_div n _NUM_SHARDS)
      by (apply Nat.mul_le_mono_r; lia). lia. }
  replace m with (s + S (m - S s)) by lia.
  rewrite seq_app, for_each_app. simpl.
  erewrite bind_ok; last first.
  { apply shards_loop_ok.
    - intros k Hk%elem_of_seq. lia.
    - intros k Hk%elem_of_seq. apply Hopen. lia.
    - intros k f' Hk Hf'.
      apply elem_of_seq in Hk.
      destruct (shard_files_index k f' Hf') as (j & Hj & Hjk).
      destruct (Hgood j f') as [Hne' Hex']; [apply (Hbefore k); lia|done|].
      split; [|done]. intros k' Hk'%elem_of_seq. apply Hne'. lia. }
  apply bind_raise. unfold shard_body, range2.
  erewrite bind_ok; last first.
  { apply TFRecordWriter_ok. cbn [fs]. apply open_error_write_shards.
    - intros k Hk%elem_of_seq. apply out_ne_dirname; lia.
    - by apply Hopen. }
  rewrite (shard_loop_raise _ _ _ _ g _ _ i _ [] f e); simpl.
  - f_equal. f_equal.
    + by rewrite insert_insert_eq.
    + by rewrite <-(assoc_L (++)).
    + rewrite <-(assoc_L (++)). f_equal.
      rewrite shard_files_prefix, take_take_drop. f_equal. subst n. lia.
  - unfold shard_end in *. subst n. lia.
  - lia.
  - by rewrite lookup_insert_eq.
  - intros f' (j & Hj & Hlt)%elem_of_take. rewrite lookup_drop in Hj.
    destruct (Hgood (shard_start n s + j) f') as [Hne' Hex']; [lia|done|].
    split; [by apply Hne'|]. rewrite <-Hex'. apply example_of_ext.
    rewrite lookup_insert_ne by (by apply not_eq_sym, Hne').
    apply write_shards_lookup_ne. intros k Hk%elem_of_seq. apply Hne'. lia.
  - done.
  - by apply Hne.
  - rewrite <-Hex. apply example_of_ext.
    rewrite lookup_insert_ne by (by apply not_eq_sym, Hne).
    apply write_shards_lookup_ne. intros k Hk%elem_of_seq. apply Hne. lia.
Qed.

(** The writer of shard [s] is the first step that fails. *)
Lemma shards_loop_blocked m s e w :
  s < m → m ≤ _NUM_SHARDS →
  (∀ k, k < s → open_error (fs w) (out k) = None) →
  (∀ k f, k < s → f ∈ shard_files filenames k →
          (∀ k', k' < s → f ≠ out k') ∧ example_of (fs w) ids f = Ok (g f)) →
  open_error (fs w) (out s) = Some e →
  (∀ k, k < s → out k ≠ out s) →
  for_each (seq 0 m) shard_body w =
  (Raise e,
   World (write_shards dataset_dir tfrecords_subdir split_name
                       (g <$> filenames) (seq 0 s) (fs w))
         (rng w)
         (stdout w ++ progress_lines n (seq 0 s))
         (reads w ++ (seq 0 s ≫= shard_files filenames))).
Proof.
  intros Hs Hm Hopen Hgood Hblocked Hdistinct.
  replace m with (s + S (m - S s)) by lia.
  rewrite seq_app, for_each_app. simpl.
  erewrite bind_ok; last first.
  { apply shards_loop_ok.
    - intros k Hk%elem_of_seq. lia.
    - intros k Hk%elem_of_seq. apply Hopen. lia.
    - intros k f Hk%elem_of_seq Hf.
      destruct (Hgood k f) as [Hne Hex]; [lia|done|].
      split; [|done]. intros k' Hk'%elem_of_seq. apply Hne. lia. }
  apply bind_raise, shard_body_raise. cbn [fs].
  revert Hblocked. unfold open_error.
  rewrite !write_shards_lookup_ne; [done| |].
  - intros k Hk%elem_of_seq. apply not_eq_sym, out_ne_dirname; lia.
  - intros k Hk%elem_of_seq. apply not_eq_sym, Hdistinct. lia.
Qed.

End Shards.

(** *** [_convert_dataset] *)

Lemma range_shards k : k ∈ range _NUM_SHARDS ↔ k < _NUM_SHARDS.
Proof. unfold range, range2. rewrite elem_of_seq. lia. Qed.

Lemma _convert_dataset_ok split_name filenames ids d t g w :
  split_name ∈ ["train"; "validation"] →
  writable (fs w) d t split_name →
  convertible (fs w) ids d t split_name g filenames →
  _convert_dataset split_name filenames ids d t w =
  (Ok (), World (write_shards d t split_name (g <$> filenames) (range _NUM_SHARDS) (fs w))
                (rng w)
                (stdout w ++ progress_lines (length filenames) (range _NUM_SHARDS)
                          ++ [newline])
                (reads w ++ filenames)).
Proof.
  intros Hsplit Hopen Hgood. unfold _convert_dataset.
  rewrite bool_decide_eq_true_2 by done.
  erewrite bind_ok by reflexivity.
  erewrite bind_ok; last first.
  { apply (shards_loop_ok d t split_name filenames ids g).
    - intros k k'. by apply dataset_filename_ne_dirname.
    - by intros k Hk%range_shards.
    - intros k Hk%range_shards. by apply Hopen.
    - intros k f Hk Hf. apply shard_files_subseteq in Hf.
      destruct (Hgood f Hf) as [Hne Hex].
      split; [|done]. intros k' Hk'%range_shards. by apply Hne. }
  unfold stdout_write. cbn [fs rng stdout reads].
  by rewrite shard_files_partition, <-(assoc_L (++)).
Qed.

Lemma _convert_dataset_raise split_name filenames ids d t g w i f e :
  split_name ∈ ["train"; "validation"] →
  writable (fs w) d t split_name →
  filenames !! i = Some f →
  (∀ k, k < _NUM_SHARDS → f ≠ _get_dataset_filename d t split_name k) →
  example_of (fs w) ids f = Raise e →
  convertible (fs w) ids d t split_name g (take i filenames) →
  let n := length filenames in
  let s := i `div` ceil_div n _NUM_SHARDS in
  s < _NUM_SHARDS ∧ shard_start n s ≤ i < shard_end n s ∧
  _convert_dataset split_name filenames ids d t w =
  (Raise e,
   World (<[_get_dataset_filename d t split_name s :=
             RecordFile (g <$> take (i - shard_start n s)
                                    (drop (shard_start n s) filenames))]>
            (write_shards d t split_name (g <$> filenames) (seq 0 s) (fs w)))
         (rng w)
         (stdout w ++ progress_lines n (seq 0 s) ++
            (progress n s <$> seq (shard_start n s) (i - shard_start n s + 1)))
         (reads w ++ take (i + 1) filenames)).
Proof.
  intros Hsplit Hopen Hf Hne Hex Hgood n s.
  assert (i < n) as Hi by (by eapply lookup_lt_Some).
  pose proof (ceil_div_shards n) as Hceil.
  assert (0 < ceil_div n _NUM_SHARDS) as Hpos by (unfold _NUM_SHARDS in *; lia).
  assert (s < _NUM_SHARDS) as Hs.
  { apply Nat.Div0.div_lt_upper_bound. unfold _NUM_SHARDS in *. lia. }
  assert (shard_start n s ≤ i < shard_end n s) as Hrange.
  { unfold shard_start, shard_end. subst s.
    pose proof (Nat.div_mod_eq i (ceil_div n _NUM_SHARDS)).
    pose proof (Nat.mod_upper_bound i (ceil_div n _NUM_SHARDS)). lia. }
  split; [done|]. split; [done|].
  unfold _convert_dataset.
  rewrite bool_decide_eq_true_2 by done.
  erewrite bind_ok by reflexivity.
  apply bind_raise.
  apply (shards_loop_raise d t split_name filenames ids g
           (λ k k', dataset_filename_ne_dirname d t split_name split_name k k'
                      Hsplit Hsplit) _ s i f e);
    try done.
  - intros k Hk. apply Hopen. lia.
  - intros j f' Hj Hf'.
    destruct (Hgood f') as [Hne' Hex'].
    { apply elem_of_take. eauto. }
    split; [|done]. intros k Hk. apply Hne'. lia.
  - intros k Hk. apply Hne. lia.
Qed.

(** The first record file cannot be opened: nothing is done. *)
Lemma _convert_dataset_blocked split_name filenames ids d t w e :
  split_name ∈ ["train"; "validation"] →
  open_error (fs w) (_get_dataset_filename d t split_name 0) = Some e →
  _convert_dataset split_name filenames ids d t w = (Raise e, w).
Proof.
  intros Hsplit Hopen. unfold _convert_dataset.
  rewrite bool_decide_eq_true_2 by done.
  erewrite bind_ok by reflexivity.
  apply bind_raise. unfold _NUM_SHARDS, range, range2. simpl.
  by apply bind_raise, bind_raise, TFRecordWriter_raise.
Qed.

Lemma write_shards_lookup d t split_name records k m :
  split_name ∈ ["train"; "validation"] → k < _NUM_SHARDS →
  write_shards d t split_name records (range _NUM_SHARDS) m
    !! _get_dataset_filename d t split_name k =
  Some (RecordFile (shard_files records k)).
Proof.
  intros Hsplit Hk.
  assert (∀ k1 k2, k1 < _NUM_SHARDS → k2 < _NUM_SHARDS → k1 ≠ k2 →
            _get_dataset_filename d t split_name k1 ≠
            _get_dataset_filename d t split_name k2) as Hinj.
  { intros k1 k2 ? ? Hne Heq.
    by apply posixpath_facts.dataset_filename_inj in Heq as [_ ?]. }
  unfold write_shards, range, range2, _NUM_SHARDS in *. simpl.
  destruct k as [|[|[|[|[|k]]]]]; [| | | | |lia];
    repeat (rewrite lookup_insert_ne by (apply Hinj; lia));
    by rewrite lookup_insert_eq.
Qed.

End Run.

(** ** The shard writer *)

Section ShardWriter.
Context `{!PyRandom} `{!TensorFlow}.

Lemma write_shards_unchanged d t split_name records m p :
  p ∉ _get_dataset_filename d t split_name <$> range _NUM_SHARDS →
  write_shards d t split_name records (range _NUM_SHARDS) m !! p = m !! p.
Proof.
  intros Hp. apply write_shards_lookup_ne. intros k Hk ->.
  apply Hp, list_elem_of_fmap. eauto.
Qed.

Lemma shard_paths_NoDup d t split_name :
  split_name ∈ ["train"; "validation"] →
  NoDup (_get_dataset_filename d t split_name <$> range _NUM_SHARDS).
Proof.
  intros Hsplit. apply NoDup_fmap_2_strong; [|apply NoDup_seq].
  intros k1 k2 Hk1%range_shards Hk2%range_shards Heq.
  by apply posixpath_facts.dataset_filename_inj in Heq as [_ ?].
Qed.

Lemma ceil_div_least n :
  0 < n → _NUM_SHARDS * (ceil_div n _NUM_SHARDS - 1) < n.
Proof.
  unfold ceil_div, _NUM_SHARDS. intros Hn.
  pose proof (Nat.div_mod_eq (n + 5 - 1) 5).
  pose proof (Nat.mod_upper_bound (n + 5 - 1) 5). lia.
Qed.

Lemma shard_files_length {A} (l : list A) k :
  length (shard_files l k) ≤ ceil_div (length l) _NUM_SHARDS.
Proof.
  unfold shard_files, shard_start, shard_end. rewrite length_take. lia.
Qed.

Lemma sum_list_length_bind {A B} (f : A → list B) (l : list A) :
  sum_list ((λ x, length (f x)) <$> l) = length (l ≫= f).
Proof.
  induction l as [|x l IH]; [done|].
  rewrite bind_cons, length_app, <-IH. done.
Qed.

(** The directories of the store are the same after a record file was
    written where there was none. *)
Lemma is_dir_write_shards d t split_name records ks m q :
  (∀ k, k ∈ ks → is_dir m (_get_dataset_filename d t split_name k) = false) →
  is_dir (write_shards d t split_name records ks m) q = is_dir m q.
Proof.
  revert m. induction ks as [|k ks IH]; intros m Hks; [done|].
  unfold write_shards in *. simpl.
  assert (∀ q', is_dir (<[_get_dataset_filename d t split_name k :=
                           RecordFile (shard_files records k)]> m) q' =
                is_dir m q') as Hstep.
  { intros q'. unfold is_dir.
    destruct (decide (_get_dataset_filename d t split_name k = q')) as [<-|Hne].
    - rewrite lookup_insert_eq. symmetry. apply (Hks k). by left.
    - by rewrite lookup_insert_ne. }
  rewrite IH, Hstep; [done|].
  intros k' Hk'. rewrite Hstep. apply Hks. by right.
Qed.

Lemma writable_not_dir m d t split_name k :
  writable m d t split_name → k < _NUM_SHARDS →
  is_dir m (_get_dataset_filename d t split_name k) = false.
Proof.
  intros Hopen Hk. specialize (Hopen k Hk). unfold open_error, is_dir in *.
  by destruct (m !! _get_dataset_filename d t split_name k)
    as [[entries|data|records|labels]|].
Qed.

(** Writing the record files of one split leaves those of a split as easy
    to open as they were. *)
Lemma writable_write_shards m d t s1 s2 records :
  s1 ∈ ["train"; "validation"] → s2 ∈ ["train"; "validation"] →
  writable m d t s2 →
  writable (write_shards d t s1 records (range _NUM_SHARDS) m) d t s2.
Proof.
  intros Hs1 Hs2 Hopen k Hk. apply open_error_write_shards; [|by apply Hopen].
  intros k' Hk'%range_shards. by apply dataset_filename_ne_dirname.
Qed.

(** C2: when the five record files of the split can be opened for writing
    (their directory is there) and every file of the split gives a record,
    [_convert_dataset] returns normally; shard [shard_id] then holds the
    records of the slice
    [filenames[shard_id * num_per_shard : min((shard_id + 1) * num_per_shard, n)]]
    with [num_per_shard] the ceiling of [n / 5]; the five slices in order
    make up the list, and the numbers of records of the five files add up
    to [n]. *)
Theorem convert_dataset_shards_partition split_name filenames ids d t g w :
  split_name ∈ ["train"; "validation"] →
  writable (fs w) d t split_name →
  convertible (fs w) ids d t split_name g filenames →
  let n := length filenames in
  let num_per_shard := ceil_div n _NUM_SHARDS in
  let slice shard_id :=
    take (((shard_id + 1) * num_per_shard) `min` n - shard_id * num_per_shard)
         (drop (shard_id * num_per_shard) filenames) in
  ∃ w',
    _convert_dataset split_name filenames ids d t w = (Ok (), w') ∧
    (∀ shard_id, shard_id < _NUM_SHARDS →
       fs w' !! _get_dataset_filename d t split_name shard_id =
       Some (RecordFile (g <$> slice shard_id))) ∧
    range _NUM_SHARDS ≫= slice = filenames ∧
    sum_list ((λ shard_id,
                 length (records_at (fs w')
                           (_get_dataset_filename d t split_name shard_id)))
              <$> range _NUM_SHARDS) = n ∧
    n ≤ _NUM_SHARDS * num_per_shard ∧
    (0 < n → _NUM_SHARDS * (num_per_shard - 1) < n).
Proof.
  intros Hsplit Hopen Hgood n num_per_shard slice.
  eexists. split; [by apply _convert_dataset_ok|]. cbn [fs].
  assert (∀ k, k < _NUM_SHARDS →
    write_shards d t split_name (g <$> filenames) (range _NUM_SHARDS) (fs w)
      !! _get_dataset_filename d t split_name k =
    Some (RecordFile (g <$> slice k))) as Hshard.
  { intros k Hk. rewrite write_shards_lookup, shard_files_fmap by done. done. }
  split; [done|]. split; [apply shard_files_partition|].
  split; [|split; [apply ceil_div_shards|apply ceil_div_least]].
  transitivity (length (range _NUM_SHARDS ≫= shard_files filenames));
    [|by rewrite shard_files_partition].
  rewrite <-sum_list_length_bind. f_equal.
  apply list_fmap_ext. intros i k Hk%list_elem_of_lookup_2%range_shards.
  unfold records_at. rewrite Hshard by done. by rewrite length_fmap.
Qed.

(** C7: when the five record files of the split can be opened for writing
    and every file of the split gives a record, [_convert_dataset] returns
    normally and has written exactly five files, whatever the number of
    images: shard [k] is the file [tumblr_<split>_<k:05d>-of-00005.tfrecord]
    joined to the dataset directory and the tfrecords subdirectory, the five
    paths are distinct and no shard holds more than [ceil(n / 5)] records.
    No other path is created, no directory is created or removed, and every
    other file of the store holds what it held. *)
Theorem convert_dataset_five_shards split_name filenames ids d t g w :
  split_name ∈ ["train"; "validation"] →
  writable (fs w) d t split_name →
  convertible (fs w) ids d t split_name g filenames →
  let path k :=
    posixpath.join d [t; "tumblr_" +:+ split_name +:+ "_" +:+ fmt_05d k +:+
                         "-of-" +:+ fmt_05d _NUM_SHARDS +:+ ".tfrecord"] in
  ∃ w',
    _convert_dataset split_name filenames ids d t w = (Ok (), w') ∧
    (∀ k, k < _NUM_SHARDS →
       _get_dataset_filename d t split_name k = path k ∧
       fs w' !! path k = Some (RecordFile (g <$> shard_files filenames k)) ∧
       length (shard_files filenames k) ≤ ceil_div (length filenames) _NUM_SHARDS) ∧
    NoDup (path <$> range _NUM_SHARDS) ∧
    (∀ q, fs w !! q = None → is_Some (fs w' !! q) →
          q ∈ path <$> range _NUM_SHARDS) ∧
    (∀ q, is_dir (fs w') q = is_dir (fs w) q) ∧
    (∀ q x, fs w !! q = Some x → q ∉ path <$> range _NUM_SHARDS →
            is_dir (fs w) q = false → fs w' !! q = Some x) ∧
    fmt_05d <$> range (S _NUM_SHARDS) =
      ["00000"; "00001"; "00002"; "00003"; "00004"; "00005"].
Proof.
  intros Hsplit Hopen Hgood path.
  eexists. split; [by apply _convert_dataset_ok|]. cbn [fs].
  split; [|split; [by apply shard_paths_NoDup|split; [|split; [|split]]]].
  - intros k Hk. split; [done|]. split; [|apply shard_files_length].
    by rewrite <-shard_files_fmap; apply write_shards_lookup.
  - intros q Hq Hnew.
    destruct (decide (q ∈ path <$> range _NUM_SHARDS)) as [|Hout]; [done|].
    rewrite (write_shards_unchanged _ _ _ _ _ _ Hout), Hq in Hnew.
    by destruct Hnew.
  - intros q. apply is_dir_write_shards.
    intros k Hk%range_shards. by apply writable_not_dir.
  - intros q x Hq Hout _. by rewrite (write_shards_unchanged _ _ _ _ _ _ Hout).
  - by vm_compute.
Qed.


End ShardWriter.

(** ** The scanner *)

Section Scanner.
Context `{!PyRandom} `{!TensorFlow}.

Lemma os_path_isdir_run p w : os_path_isdir p w = (Ok (is_dir (fs w) p), w).
Proof.
  unfold os_path_isdir, is_dir.
  by destruct (fs w !! p) as [[entries|data|records|labels]|].
Qed.

Lemma os_listdir_run p w entries :
  fs w !! p = Some (Dir entries) → os_listdir p w = (Ok entries, w).
Proof. unfold os_listdir. by intros ->. Qed.

Lemma is_dir_listing m p :
  is_dir m p = true → m !! p = Some (Dir (listing m p)).
Proof.
  unfold is_dir, listing.
  by destruct (m !! p) as [[entries|data|records|labels]|].
Qed.

(** The first loop: the class directories and their names. *)
Lemma scan_root_loop root entries : ∀ directories class_names w,
  for_fold entries (directories, class_names)
    (λ '(directories, class_names) filename,
       let path := posixpath.join root [filename] in
       bind (os_path_isdir path) (λ is_dir : bool,
         if is_dir
         then ret (directories ++ [path], class_names ++ [filename])
         else ret (directories, class_names))) w =
  (Ok (directories ++ ((λ c, posixpath.join root [c]) <$> class_dirs (fs w) root entries),
       class_names ++ class_dirs (fs w) root entries), w).
Proof.
  induction entries as [|c entries IH]; intros directories class_names w.
  - simpl. by rewrite !app_nil_r.
  - rewrite for_fold_cons. cbv beta iota zeta.
    unfold bind at 1. rewrite os_path_isdir_run.
    unfold class_dirs in *. rewrite filter_cons.
    destruct (is_dir (fs w) (posixpath.join root [c])) eqn:Hdir.
    + unfold ret at 1. rewrite IH, decide_True by done.
      by rewrite fmap_cons, <-!(assoc_L (++)).
    + unfold ret at 1. rewrite IH. by rewrite decide_False by done.
Qed.

(** The loop over the entries of one class directory. *)
Lemma scan_directory_loop directory entries : ∀ photo_filenames w,
  for_fold entries photo_filenames
    (λ photo_filenames filename,
       if bool_decide (filename ≠ ".DS_Store")
       then ret (photo_filenames ++ [posixpath.join directory [filename]])
       else ret photo_filenames) w =
  (Ok (photo_filenames ++
         ((λ f, posixpath.join directory [f]) <$> filter (λ f, f ≠ ".DS_Store") entries)),
   w).
Proof.
  induction entries as [|f entries IH]; intros photo_filenames w.
  - simpl. by rewrite app_nil_r.
  - rewrite for_fold_cons, filter_cons.
    case_bool_decide as Hf.
    + unfold ret at 1. rewrite IH, decide_True by done.
      by rewrite fmap_cons, <-(assoc_L (++)).
    + unfold ret at 1. rewrite IH.
      by rewrite decide_False by (intros Hn; apply Hn, Hf).
Qed.

(** The loop over the class directories. *)
Lemma scan_directories_loop directories : ∀ photo_filenames w,
  Forall (λ directory, is_dir (fs w) directory = true) directories →
  for_fold directories photo_filenames
    (λ photo_filenames directory,
       bind (os_listdir directory) (λ entries,
         for_fold entries photo_filenames
           (λ photo_filenames filename,
              if bool_decide (filename ≠ ".DS_Store")
              then ret (photo_filenames ++ [posixpath.join directory [filename]])
              else ret photo_filenames))) w =
  (Ok (photo_filenames ++ (directories ≫= photos_in (fs w))), w).
Proof.
  induction directories as [|directory directories IH];
    intros photo_filenames w Hdirs.
  - simpl. by rewrite app_nil_r.
  - apply Forall_cons in Hdirs as [Hdir Hdirs].
    rewrite for_fold_cons. unfold bind at 1.
    rewrite (os_listdir_run _ _ _ (is_dir_listing _ _ Hdir)).
    rewrite scan_directory_loop, IH by done.
    by rewrite bind_cons, <-(assoc_L (++)).
Qed.

Lemma _get_filenames_and_classes_run dataset_dir photos_subdir w entries :
  let root := posixpath.join dataset_dir [photos_subdir] in
  fs w !! root = Some (Dir entries) →
  _get_filenames_and_classes dataset_dir photos_subdir w =
  (Ok (scan (fs w) root entries, sorted (class_dirs (fs w) root entries)), w).
Proof.
  intros root Hroot. unfold _get_filenames_and_classes.
  erewrite bind_ok by (by apply os_listdir_run). cbv beta.
  erewrite bind_ok by apply scan_root_loop. cbv beta iota.
  erewrite bind_ok; last first.
  { apply scan_directories_loop. apply Forall_fmap, Forall_forall.
    by intros c [Hdir _]%list_elem_of_filter. }
  unfold ret, scan. simpl. by rewrite list_fmap_bind.
Qed.

Lemma _get_filenames_and_classes_raise dataset_dir photos_subdir w :
  (∀ entries, fs w !! posixpath.join dataset_dir [photos_subdir] ≠ Some (Dir entries)) →
  _get_filenames_and_classes dataset_dir photos_subdir w = (Raise OSError, w).
Proof.
  intros Hroot. unfold _get_filenames_and_classes.
  apply bind_raise. unfold os_listdir.
  destruct (fs w !! _) as [[entries|data|records|labels]|]; try done.
  by destruct (Hroot entries).
Qed.

Lemma elem_of_scan m root entries path :
  path ∈ scan m root entries ↔
  ∃ c f, c ∈ entries ∧ is_dir m (posixpath.join root [c]) = true ∧
         f ∈ listing m (posixpath.join root [c]) ∧ f ≠ ".DS_Store" ∧
         path = posixpath.join (posixpath.join root [c]) [f].
Proof.
  unfold scan, class_dirs, photos_in. rewrite list_elem_of_bind. split.
  - intros (c & (f & -> & [Hf Hin]%list_elem_of_filter)%list_elem_of_fmap
              & [Hdir Hc]%list_elem_of_filter).
    by exists c, f.
  - intros (c & f & Hc & Hdir & Hin & Hf & ->). exists c. split.
    + apply list_elem_of_fmap. exists f. split; [done|].
      by apply list_elem_of_filter.
    + by apply list_elem_of_filter.
Qed.

End Scanner.

(** ** Dicts, sorting, shuffling and slices *)

Section Data.
Context `{!PyRandom}.

Lemma dict_snoc `{Countable K} {V} (pairs : list (K * V)) k v :
  dict (pairs ++ [(k, v)]) = <[k := v]> (dict pairs).
Proof. unfold dict. by rewrite foldl_app. Qed.

(** With distinct keys a dict holds exactly the pairs it was built from. *)
Lemma dict_lookup `{Countable K} {V} (pairs : list (K * V)) k v :
  NoDup pairs.*1 → dict pairs !! k = Some v ↔ (k, v) ∈ pairs.
Proof.
  induction pairs as [|[k0 v0] pairs IH] using rev_ind; intros Hnodup.
  - unfold dict. simpl. rewrite lookup_empty, elem_of_nil. by split.
  - rewrite fmap_app in Hnodup. apply NoDup_app in Hnodup as (Hnodup & Hk0 & _).
    rewrite dict_snoc, elem_of_app, list_elem_of_singleton.
    destruct (decide (k = k0)) as [->|Hne].
    + rewrite lookup_insert_eq. split; [intros [= ->]; by right|].
      intros [Hin|[= ->]]; [|done]. exfalso.
      apply (Hk0 k0); [|simpl; left].
      apply list_elem_of_fmap. by exists (k0, v).
    + rewrite lookup_insert_ne, IH by done.
      split; [by left|]. by intros [?|[= -> ->]].
Qed.

Lemma dict_zip_range_r (keys : list string) c i :
  NoDup keys →
  dict (zip keys (range (length keys))) !! c = Some i ↔ keys !! i = Some c.
Proof.
  intros Hnodup. unfold range, range2. rewrite Nat.sub_0_r.
  rewrite dict_lookup by (by rewrite fst_zip by (by rewrite length_seq)).
  rewrite list_elem_of_lookup. setoid_rewrite lookup_zip_Some.
  setoid_rewrite lookup_seq. split.
  - by intros (j & Hj & -> & _).
  - intros Hi. exists i. split; [done|]. split; [done|]. by eapply lookup_lt_Some.
Qed.

Lemma dict_zip_range_l (vals : list string) i c :
  dict (zip (range (length vals)) vals) !! i = Some c ↔ vals !! i = Some c.
Proof.
  unfold range, range2. rewrite Nat.sub_0_r.
  rewrite dict_lookup
    by (rewrite fst_zip by (by rewrite length_seq); apply NoDup_seq).
  rewrite list_elem_of_lookup. setoid_rewrite lookup_zip_Some.
  setoid_rewrite lookup_seq. split.
  - by intros (j & (-> & _) & Hj).
  - intros Hi. exists i. split; [|done]. split; [done|]. by eapply lookup_lt_Some.
Qed.

Lemma sorted_Permutation l : sorted l ≡ₚ l.
Proof. apply merge_sort_Permutation. Qed.

Lemma sorted_StronglySorted l : StronglySorted String.le (sorted l).
Proof. apply (StronglySorted_merge_sort String.le). Qed.

Lemma swap_Permutation {A} i j (x : list A) : swap i j x ≡ₚ x.
Proof.
  unfold swap. destruct (x !! i) as [xi|] eqn:Hi; [|done].
  destruct (x !! j) as [xj|] eqn:Hj; [|done].
  by apply Permutation_insert_swap.
Qed.

Lemma shuffle_loop_Permutation {A} idx : ∀ s (x : list A),
  (shuffle_loop idx s x).1 ≡ₚ x.
Proof.
  induction idx as [|i idx IH]; intros s x; simpl; [done|].
  destruct (randbelow s (i + 1)) as [j s']. rewrite IH. apply swap_Permutation.
Qed.

Lemma shuffle_from_Permutation {A} s (x : list A) : (shuffle_from s x).1 ≡ₚ x.
Proof. apply shuffle_loop_Permutation. Qed.

(** Every exchange of [random.shuffle] on a list of length [n] is inside
    the list, so that [swap] never meets an index out of range. *)
Lemma shuffle_draws_in_range n s :
  Forall (λ ij, ij.2 ≤ ij.1 ∧ ij.1 < n) (shuffle_draws (reverse (range2 1 n)) s).
Proof.
  assert (Forall (λ i, i < n) (reverse (range2 1 n))) as Hidx.
  { apply Forall_forall. unfold range2.
    intros i Hi%elem_of_reverse%elem_of_seq. lia. }
  revert s Hidx. generalize (reverse (range2 1 n)) as idx.
  induction idx as [|i idx IH]; intros s Hidx; simpl; [done|].
  apply Forall_cons in Hidx as [Hi Hidx].
  assert (0 < i + 1) as Hpos by lia.
  pose proof (randbelow_lt s (i + 1) Hpos).
  destruct (randbelow s (i + 1)) as [j s']. simpl in *.
  apply Forall_cons. split; [simpl; lia|by apply IH].
Qed.

Lemma slice_index_count len n :
  (0 ≤ n ≤ Z.of_nat len)%Z → slice_index len n = Z.to_nat n.
Proof. unfold slice_index. intros Hn. case_match; lia. Qed.

Lemma slice_index_beyond len n :
  (Z.of_nat len < n)%Z → slice_index len n = len.
Proof. unfold slice_index. intros Hn. case_match; lia. Qed.

Lemma slice_to_from {A} (l : list A) n : slice_to l n ++ slice_from l n = l.
Proof. apply take_drop. Qed.

Lemma slice_to_subseteq {A} (l : list A) n x : x ∈ slice_to l n → x ∈ l.
Proof. unfold slice_to. intros (i & Hi & _)%elem_of_take. by eapply list_elem_of_lookup_2. Qed.

Lemma slice_from_subseteq {A} (l : list A) n x : x ∈ slice_from l n → x ∈ l.
Proof.
  unfold slice_from. intros (i & Hi)%list_elem_of_lookup_1.
  rewrite lookup_drop in Hi. by eapply list_elem_of_lookup_2.
Qed.

End Data.

(** ** [convert_images] *)

Section ConvertImages.
Context `{!PyRandom} `{!TensorFlow}.

(** The first statements create the output directory when it is missing. *)
Lemma convert_images_prelude {A} tfdir (k : M A) w :
  bind (gfile_Exists tfdir) (λ tfrecords_exists,
    bind (if negb tfrecords_exists then gfile_MakeDirs tfdir else ret ())
         (λ _, k)) w =
  k (World (ensure_dir (fs w) tfdir) (rng w) (stdout w) (reads w)).
Proof.
  unfold bind, gfile_Exists, gfile_MakeDirs, ensure_dir, ret.
  destruct (fs w !! tfdir) as [x|] eqn:Hdir.
  - rewrite bool_decide_eq_true_2 by eauto. simpl. by rewrite world_eta.
  - rewrite bool_decide_eq_false_2 by (by intros [? ?]). simpl. by rewrite Hdir.
Qed.

Lemma _dataset_exists_run d p w :
  _dataset_exists d p w = (Ok (shards_exist (fs w) d p), w).
Proof. reflexivity. Qed.

Lemma shards_exist_true m d sub :
  shards_exist m d sub = true ↔
  ∀ split_name k, split_name ∈ ["train"; "validation"] → k < _NUM_SHARDS →
    is_Some (m !! _get_dataset_filename d sub split_name k).
Proof.
  unfold shards_exist. rewrite forallb_forall. split.
  - intros Hall split_name k Hsplit%list_elem_of_In Hk.
    specialize (Hall _ Hsplit). rewrite forallb_forall in Hall.
    eapply bool_decide_eq_true, Hall, list_elem_of_In, range_shards, Hk.
  - intros Hall split_name Hsplit%list_elem_of_In. apply forallb_forall.
    intros k Hk%list_elem_of_In%range_shards.
    by apply bool_decide_eq_true, Hall.
Qed.

(** The run that finds the record files below [photos_subdir]. *)
Lemma convert_images_exists d num_valid p t w :
  let fs1 := ensure_dir (fs w) (posixpath.join d [t]) in
  shards_exist fs1 d p = true →
  convert_images d num_valid p t w =
  (Ok (), World fs1 (rng w) (stdout w ++ [exists_message]) (reads w)).
Proof.
  intros fs1 Hexist. unfold convert_images.
  rewrite convert_images_prelude.
  unfold bind at 1. rewrite _dataset_exists_run. cbn [fs]. fold fs1.
  by rewrite Hexist.
Qed.

Lemma convertible_ext m1 m2 ids d t split_name g filenames :
  (∀ f, f ∈ filenames → m1 !! f = m2 !! f) →
  convertible m1 ids d t split_name g filenames →
  convertible m2 ids d t split_name g filenames.
Proof.
  intros Hext Hgood f Hf. destruct (Hgood f Hf) as [Hne Hex].
  split; [done|]. rewrite <-Hex. symmetry. by apply example_of_ext, Hext.
Qed.

Lemma convertible_subseteq m ids d t split_name g l1 l2 :
  (∀ f, f ∈ l1 → f ∈ l2) →
  convertible m ids d t split_name g l2 →
  convertible m ids d t split_name g l1.
Proof. intros Hsub Hgood f Hf. by apply Hgood, Hsub. Qed.

(** The run that converts: every scanned photo gives a record. *)
Lemma convert_images_ok d num_valid p t g w entries training validation :
  let root := posixpath.join d [p] in
  let fs1 := ensure_dir (fs w) (posixpath.join d [t]) in
  let photo_filenames := scan fs1 root entries in
  let class_names := sorted (class_dirs fs1 root entries) in
  let ids := dict (zip class_names (range (length class_names))) in
  let shuffled := shuffle_from (random_seed _RANDOM_SEED) photo_filenames in
  shards_exist fs1 d p = false →
  fs1 !! root = Some (Dir entries) →
  writable fs1 d t "train" →
  writable fs1 d t "validation" →
  convertible fs1 ids d t "train" g photo_filenames →
  convertible fs1 ids d t "validation" g photo_filenames →
  slice_from shuffled.1 num_valid = training →
  slice_to shuffled.1 num_valid = validation →
  convert_images d num_valid p t w =
  (Ok (),
   World (<[posixpath.join d [p; "labels.txt"] :=
             LabelFile (dict (zip (range (length class_names)) class_names))]>
            (write_shards d t "validation" (g <$> validation) (range _NUM_SHARDS)
               (write_shards d t "train" (g <$> training) (range _NUM_SHARDS) fs1)))
         shuffled.2
         (stdout w ++ (progress_lines (length training) (range _NUM_SHARDS) ++ [newline])
                   ++ (progress_lines (length validation) (range _NUM_SHARDS) ++ [newline])
                   ++ [finished_message])
         (reads w ++ training ++ validation)).
Proof.
  intros root fs1 photo_filenames class_names ids shuffled
    Hexist Hroot Hopen_train Hopen_valid Htrain Hvalid Htraining Hvalidation.
  assert (∀ f, f ∈ shuffled.1 → f ∈ photo_filenames) as Hshuffled.
  { intros f. unfold shuffled. by rewrite shuffle_from_Permutation. }
  unfold convert_images. rewrite convert_images_prelude.
  unfold bind at 1. rewrite _dataset_exists_run. cbn [fs]. fold fs1.
  rewrite Hexist.
  erewrite bind_ok by (by apply _get_filenames_and_classes_run).
  cbv beta iota. cbn [fs]. fold root photo_filenames class_names ids.
  erewrite bind_ok by reflexivity.
  erewrite bind_ok; last first.
  { unfold shuffle. cbn [rng]. fold shuffled.
    by rewrite (surjective_pairing shuffled). }
  cbv beta. fold shuffled. rewrite Htraining, Hvalidation.
  erewrite bind_ok; last first.
  { apply (_convert_dataset_ok _ _ _ _ _ g); [by left|done|]. cbn [fs].
    eapply convertible_subseteq; [|exact Htrain].
    intros f Hf. apply Hshuffled. eapply slice_from_subseteq.
    by rewrite Htraining. }
  erewrite bind_ok; last first.
  { apply (_convert_dataset_ok _ _ _ _ _ g); [by right; left| |].
    { cbn [fs]. apply writable_write_shards; [by left|by right; left|done]. }
    cbn [fs]. eapply convertible_subseteq.
    { intros f Hf. apply Hshuffled. eapply slice_to_subseteq.
      rewrite Hvalidation. exact Hf. }
    eapply convertible_ext; [|exact Hvalid].
    intros f Hf. symmetry. apply write_shards_lookup_ne.
    intros k Hk%range_shards. by apply (Htrain f Hf). }
  unfold bind, write_label_file, print, stdout_write. cbn [fs rng stdout reads].
  by rewrite <-!(assoc_L (++)).
Qed.

End ConvertImages.

(** ** What no run does *)

Section Invariants.
Context `{!PyRandom} `{!TensorFlow}.

Section Preserves.
Variable R : world → world → Prop.
Context `{!PreOrder R}.

Lemma preserves_ret {A} (a : A) : preserves R (ret a).
Proof. intros w. simpl. reflexivity. Qed.

Lemma preserves_raise {A} e : preserves R (raise (A := A) e).
Proof. intros w. simpl. reflexivity. Qed.

Lemma preserves_bind {A B} (m : M A) (k : A → M B) :
  preserves R m → (∀ a, preserves R (k a)) → preserves R (bind m k).
Proof.
  intros Hm Hk w. unfold bind. specialize (Hm w).
  destruct (m w) as [[a|e] w1]; simpl in *; [|done].
  etrans; [done|]. apply Hk.
Qed.

Lemma preserves_bind_ret {A B} (a : A) (k : A → M B) :
  preserves R (k a) → preserves R (bind (ret a) k).
Proof. intros Hk w. apply Hk. Qed.

Lemma preserves_for_each {A} (l : list A) (body : A → M unit) :
  (∀ x, x ∈ l → preserves R (body x)) → preserves R (for_each l body).
Proof.
  induction l as [|x l IH]; intros Hbody; simpl; [apply preserves_ret|].
  apply preserves_bind; [by apply Hbody; left|].
  intros _. apply IH. intros y Hy. by apply Hbody; right.
Qed.

Lemma preserves_pure {A} (m : M A) :
  (∀ w, (m w).2 = w) → preserves R m.
Proof. intros Hm w. rewrite Hm. reflexivity. Qed.

End Preserves.

Lemma grows_preorder allowed : PreOrder (grows allowed).
Proof.
  split.
  - intros w. split; [done|]. exists []. split; [by rewrite app_nil_r|].
    by intros x ?%elem_of_nil.
  - intros w1 w2 w3 [Hfs1 (l1 & Hr1 & Hl1)] [Hfs2 (l2 & Hr2 & Hl2)]. split.
    + intros q Hq. by apply Hfs2, Hfs1.
    + exists (l1 ++ l2). split; [by rewrite Hr2, Hr1, (assoc_L (++))|].
      intros x [?|?]%elem_of_app; auto.
Qed.

#[local] Existing Instance grows_preorder.

(** A step that only adds or replaces entries of the store. *)
Lemma grows_insert allowed w p x out rs :
  grows allowed w (World (<[p := x]> (fs w)) rs out (reads w)).
Proof.
  split; cbn [fs reads].
  - intros q Hq. rewrite lookup_insert_is_Some. destruct (decide (p = q)); auto.
  - exists []. split; [by rewrite app_nil_r|]. by intros ? ?%elem_of_nil.
Qed.

Lemma grows_same_store allowed w out rs :
  grows allowed w (World (fs w) rs out (reads w)).
Proof.
  split; cbn [fs reads]; [done|].
  exists []. split; [by rewrite app_nil_r|]. by intros ? ?%elem_of_nil.
Qed.

Lemma grows_read allowed w p :
  p ∈ allowed → grows allowed w (World (fs w) (rng w) (stdout w) (reads w ++ [p])).
Proof.
  intros Hp. split; cbn [fs reads]; [done|].
  exists [p]. split; [done|]. by intros ? ->%list_elem_of_singleton.
Qed.

Lemma preserves_gfile_read allowed p :
  p ∈ allowed → preserves (grows allowed) (gfile_read p).
Proof.
  intros Hp w. unfold gfile_read.
  destruct (fs w !! p) as [[entries|data|records|labels]|];
    by apply grows_read.
Qed.

Lemma preserves_read_image_dims allowed image_data :
  preserves (grows allowed) (read_image_dims image_data).
Proof.
  apply (preserves_pure (grows allowed)). intros w.
  by rewrite read_image_dims_run.
Qed.

Lemma preserves_convert_image allowed filenames ids out k i :
  (∀ f, f ∈ filenames → f ∈ allowed) →
  preserves (grows allowed) (convert_image filenames ids out k i).
Proof.
  intros Hsub. unfold convert_image.
  apply (preserves_bind (grows allowed));
    [intros w; apply grows_same_store|intros _].
  unfold getitem at 1. destruct (filenames !! i) as [f|] eqn:Hf;
    [|intros w; unfold bind, raise; simpl; reflexivity].
  apply (preserves_bind_ret (grows allowed)).
  apply (preserves_bind (grows allowed)); [|intros image_data].
  { apply preserves_gfile_read, Hsub. by eapply list_elem_of_lookup_2. }
  apply (preserves_bind (grows allowed));
    [apply preserves_read_image_dims|intros [h wd]].
  unfold getitem. rewrite Hf. apply (preserves_bind_ret (grows allowed)).
  apply (preserves_bind (grows allowed)); [|intros class_id].
  { unfold dict_getitem. destruct (ids !! _);
      [apply (preserves_ret (grows allowed))
      |apply (preserves_raise (grows allowed))]. }
  intros w. apply grows_insert.
Qed.

Lemma preserves_TFRecordWriter allowed p :
  preserves (grows allowed) (TFRecordWriter p).
Proof.
  intros w. unfold TFRecordWriter. destruct (open_error (fs w) p); simpl.
  - reflexivity.
  - apply grows_insert.
Qed.

Lemma preserves__convert_dataset allowed split_name filenames ids d t :
  (∀ f, f ∈ filenames → f ∈ allowed) →
  preserves (grows allowed) (_convert_dataset split_name filenames ids d t).
Proof.
  intros Hsub. unfold _convert_dataset.
  apply (preserves_bind (grows allowed)); [|intros _].
  { unfold assert. case_bool_decide;
      [apply (preserves_ret (grows allowed))
      |apply (preserves_raise (grows allowed))]. }
  apply (preserves_bind (grows allowed));
    [|intros _; intros w; apply grows_same_store].
  apply (preserves_for_each (grows allowed)). intros k _.
  apply (preserves_bind (grows allowed));
    [apply preserves_TFRecordWriter|intros _].
  apply (preserves_for_each (grows allowed)). intros i _.
  by apply preserves_convert_image.
Qed.


Lemma ensure_dir_present m q p x : m !! p = Some x → ensure_dir m q !! p = Some x.
Proof.
  unfold ensure_dir. intros Hp. destruct (m !! q) as [y|] eqn:Hq; [done|].
  rewrite lookup_insert_ne; [done|]. by intros ->; rewrite Hp in Hq.
Qed.

(** A directory that is created empty adds no photo to the scan. *)
Lemma scan_ensure_dir m q root entries path :
  path ∈ scan (ensure_dir m q) root entries → path ∈ scan m root entries.
Proof.
  rewrite !elem_of_scan. intros (c & f & Hc & Hdir & Hf & Hne & ->).
  exists c, f. unfold ensure_dir in *.
  destruct (m !! q) as [y|] eqn:Hq; [done|].
  destruct (decide (q = posixpath.join root [c])) as [->|Hneq].
  - unfold listing in Hf. rewrite lookup_insert_eq in Hf. by apply elem_of_nil in Hf.
  - unfold is_dir, listing in *. by rewrite lookup_insert_ne in Hdir, Hf.
Qed.

(** Whatever the outcome of [convert_images]: once the output directory is
    there no path is removed, and only scanned photos are read. *)
Lemma convert_images_grows d num_valid p t w :
  let root := posixpath.join d [p] in
  let fs1 := ensure_dir (fs w) (posixpath.join d [t]) in
  let w' := (convert_images d num_valid p t w).2 in
  grows (scan fs1 root (listing fs1 root))
        (World fs1 (rng w) (stdout w) (reads w)) w'.
Proof.
  intros root fs1 w'. subst w'. unfold convert_images.
  rewrite convert_images_prelude. fold fs1.
  set (w1 := World fs1 (rng w) (stdout w) (reads w)).
  set (allowed := scan fs1 root (listing fs1 root)).
  unfold bind at 1. rewrite _dataset_exists_run.
  destruct (shards_exist (fs w1) d p); [apply grows_same_store|].
  unfold bind at 1.
  destruct (fs1 !! root) as [[entries|data|records|labels]|] eqn:Hroot;
    [|rewrite _get_filenames_and_classes_raise
        by (by intros ?; unfold w1; cbn [fs]; fold root; rewrite Hroot);
      reflexivity..].
  rewrite (_get_filenames_and_classes_run _ _ w1 entries) by done.
  cbv beta iota. change (fs w1) with fs1. fold root.
  assert (allowed = scan fs1 root entries) as <-.
  { unfold allowed, listing. by rewrite Hroot. }
  assert (∀ s f, f ∈ (shuffle_from s allowed).1 → f ∈ allowed) as Hshuffled.
  { intros s f. by rewrite shuffle_from_Permutation. }
  unfold bind at 1. unfold seed at 1.
  unfold bind at 1. unfold shuffle at 1. cbn [fs rng stdout reads].
  destruct (shuffle_from (random_seed _RANDOM_SEED) allowed) as [shuffled s'] eqn:Hsh.
  etrans; [apply (grows_same_store allowed w1 (stdout w1) s')|].
  assert (∀ f, f ∈ shuffled → f ∈ allowed) as Hsub.
  { intros f Hf. apply (Hshuffled (random_seed _RANDOM_SEED)). by rewrite Hsh. }
  apply (preserves_bind (grows allowed)).
  { apply preserves__convert_dataset. intros f Hf%slice_from_subseteq. auto. }
  intros _. apply (preserves_bind (grows allowed)).
  { apply preserves__convert_dataset. intros f Hf%slice_to_subseteq. auto. }
  intros _. apply (preserves_bind (grows allowed)).
  { intros w2. apply grows_insert. }
  intros _ w2. apply grows_same_store.
Qed.

End Invariants.

(** ** The whole conversion *)

Section Conversion.
Context `{!PyRandom} `{!TensorFlow}.

(** The label file is none of the record files. *)
Lemma labels_path_ne d p t split_name k :
  split_name ∈ ["train"; "validation"] → k < _NUM_SHARDS →
  posixpath.join d [p; "labels.txt"] ≠ _get_dataset_filename d t split_name k.
Proof.
  intros Hsplit Hk Heq. apply (f_equal posixpath.basename) in Heq.
  change (posixpath.join d [p; "labels.txt"])
    with (posixpath.join (posixpath.join d [p]) ["labels.txt"]) in Heq.
  change (_get_dataset_filename d t split_name k)
    with (posixpath.join (posixpath.join d [t]) [shard_name split_name k]) in Heq.
  rewrite (posixpath_facts.basename_join _ "labels.txt") in Heq by done.
  rewrite (posixpath_facts.basename_join _ (shard_name split_name k)) in Heq
    by (by apply shard_name_no_sep).
  assert (split_name = "train" ∨ split_name = "validation") as [-> | ->]
    by (rewrite !elem_of_cons, elem_of_nil in Hsplit; tauto);
    unfold _NUM_SHARDS in Hk;
    destruct k as [|[|[|[|[|k]]]]]; try lia; by vm_compute in Heq.
Qed.

(** The record files in the store that a completed conversion leaves. *)
Lemma converted_shards d p t labels training validation m k :
  k < _NUM_SHARDS →
  let final :=
    <[posixpath.join d [p; "labels.txt"] := LabelFile labels]>
      (write_shards d t "validation" validation (range _NUM_SHARDS)
         (write_shards d t "train" training (range _NUM_SHARDS) m)) in
  final !! _get_dataset_filename d t "validation" k =
    Some (RecordFile (shard_files validation k)) ∧
  final !! _get_dataset_filename d t "train" k =
    Some (RecordFile (shard_files training k)).
Proof.
  intros Hk final. subst final. split.
  - rewrite lookup_insert_ne by (apply labels_path_ne; [by right; left|done]).
    apply write_shards_lookup; [by right; left|done].
  - rewrite lookup_insert_ne by (apply labels_path_ne; [by left|done]).
    rewrite write_shards_lookup_ne; [apply write_shards_lookup; [by left|done]|].
    intros k' Hk'%range_shards Heq.
    by apply posixpath_facts.dataset_filename_inj in Heq as [? _];
      [|by left|by right; left|..].
Qed.

Lemma records_at_lookup m q records (record : tfexample) :
  m !! q = Some (RecordFile records) → record ∈ records_at m q → record ∈ records.
Proof. unfold records_at. by intros ->. Qed.

Lemma shard_files_nil {A} k : shard_files (@nil A) k = [].
Proof. unfold shard_files. by rewrite drop_nil, take_nil. Qed.

(** C3: the two subdirectories are plain names. When the record files are
    not found, the photos directory is read, the ten record files can be
    opened for writing below the output directory (a directory, as it was
    found or as it was created), no directory has the name of the label
    file and every scanned photo gives a record, a run with [0 <= num_valid <= len(photo_filenames)] returns normally; the
    list is shuffled from the state [random.seed(_RANDOM_SEED)], the
    validation shards hold the records of the first [num_valid] shuffled
    files, the training shards those of all the others, and the files are
    read in that order: training first, then validation. *)
Theorem validation_takes_first_num_valid d num_valid p t g w entries :
  let root := posixpath.join d [p] in
  let fs1 := ensure_dir (fs w) (posixpath.join d [t]) in
  let photo_filenames := scan fs1 root entries in
  let class_names := sorted (class_dirs fs1 root entries) in
  let ids := dict (zip class_names (range (length class_names))) in
  let shuffled := (shuffle_from (random_seed _RANDOM_SEED) photo_filenames).1 in
  let validation := take (Z.to_nat num_valid) shuffled in
  let training := drop (Z.to_nat num_valid) shuffled in
  plain_name p = true → plain_name t = true →
  shards_exist fs1 d p = false →
  fs1 !! root = Some (Dir entries) →
  writable fs1 d t "train" →
  writable fs1 d t "validation" →
  is_dir fs1 (posixpath.join d [p; "labels.txt"]) = false →
  convertible fs1 ids d t "train" g photo_filenames →
  convertible fs1 ids d t "validation" g photo_filenames →
  (0 ≤ num_valid ≤ Z.of_nat (length photo_filenames))%Z →
  ∃ w',
    convert_images d num_valid p t w = (Ok (), w') ∧
    shuffled ≡ₚ photo_filenames ∧
    length validation = Z.to_nat num_valid ∧
    validation ++ training = shuffled ∧
    (∀ k, k < _NUM_SHARDS →
       fs w' !! _get_dataset_filename d t "validation" k =
         Some (RecordFile (g <$> shard_files validation k)) ∧
       fs w' !! _get_dataset_filename d t "train" k =
         Some (RecordFile (g <$> shard_files training k))) ∧
    reads w' = reads w ++ training ++ validation.
Proof.
  intros root fs1 photo_filenames class_names ids shuffled validation training
    _ _ Hexist Hroot Hopen_train Hopen_valid _ Htrain Hvalid Hcount.
  assert (shuffled ≡ₚ photo_filenames) as Hperm
    by apply shuffle_from_Permutation.
  assert (slice_index (length shuffled) num_valid = Z.to_nat num_valid) as Hidx.
  { apply slice_index_count. by rewrite Hperm. }
  eexists. split.
  { apply (convert_images_ok d num_valid p t g w entries training validation);
      try done.
    - change (slice_from shuffled num_valid = training).
      unfold slice_from. by rewrite Hidx.
    - change (slice_to shuffled num_valid = validation).
      unfold slice_to. by rewrite Hidx. }
  cbn [fs reads].
  split; [done|]. split; [|split; [apply take_drop|split; [|done]]].
  - unfold validation. rewrite length_take, Hperm. lia.
  - intros k Hk. rewrite <-!shard_files_fmap. by apply converted_shards.
Qed.

(** C9: with [num_valid] greater than the number of scanned photos the run
    raises nothing of its own: under the conditions of C3 (plain
    subdirectory names, record files not found, the photos directory read,
    the ten record files open for writing, no directory with the name of
    the label file, every scanned photo gives a record) it returns normally, the validation split is the whole shuffled
    list and the training split is empty, so that the five training shards
    are written without a record. *)
Theorem num_valid_beyond_total d num_valid p t g w entries :
  let root := posixpath.join d [p] in
  let fs1 := ensure_dir (fs w) (posixpath.join d [t]) in
  let photo_filenames := scan fs1 root entries in
  let class_names := sorted (class_dirs fs1 root entries) in
  let ids := dict (zip class_names (range (length class_names))) in
  let shuffled := (shuffle_from (random_seed _RANDOM_SEED) photo_filenames).1 in
  plain_name p = true → plain_name t = true →
  shards_exist fs1 d p = false →
  fs1 !! root = Some (Dir entries) →
  writable fs1 d t "train" →
  writable fs1 d t "validation" →
  is_dir fs1 (posixpath.join d [p; "labels.txt"]) = false →
  convertible fs1 ids d t "train" g photo_filenames →
  convertible fs1 ids d t "validation" g photo_filenames →
  (Z.of_nat (length photo_filenames) < num_valid)%Z →
  ∃ w',
    convert_images d num_valid p t w = (Ok (), w') ∧
    slice_to shuffled num_valid = shuffled ∧
    slice_from shuffled num_valid = [] ∧
    (∀ k, k < _NUM_SHARDS →
       fs w' !! _get_dataset_filename d t "validation" k =
         Some (RecordFile (g <$> shard_files shuffled k)) ∧
       fs w' !! _get_dataset_filename d t "train" k = Some (RecordFile [])) ∧
    reads w' = reads w ++ shuffled.
Proof.
  intros root fs1 photo_filenames class_names ids shuffled
    _ _ Hexist Hroot Hopen_train Hopen_valid _ Htrain Hvalid Hcount.
  assert (shuffled ≡ₚ photo_filenames) as Hperm
    by apply shuffle_from_Permutation.
  assert (slice_index (length shuffled) num_valid = length shuffled) as Hidx.
  { apply slice_index_beyond. by rewrite Hperm. }
  assert (slice_to shuffled num_valid = shuffled) as Hto.
  { unfold slice_to. rewrite Hidx. by apply take_ge. }
  assert (slice_from shuffled num_valid = []) as Hfrom.
  { unfold slice_from. rewrite Hidx. by apply drop_ge. }
  eexists. split.
  { by apply (convert_images_ok d num_valid p t g w entries [] shuffled). }
  cbn [fs reads].
  split; [done|]. split; [done|]. split; [|done].
  intros k Hk.
  rewrite <-shard_files_fmap, <-(shard_files_nil (A := tfexample) k).
  by apply converted_shards.
Qed.

(** C6: the split does not depend on the state of the generator at the
    time of the call. The statements that seed, shuffle and slice give the
    same two lists in any two worlds, and two runs of [convert_images] on
    the same store give the same result, the same store and the same reads
    whatever the generator held before. *)
Theorem split_is_deterministic d num_valid p t (l : list string) w1 w2 w s :
  let split_step : M (list string * list string) :=
    bind (seed _RANDOM_SEED) (λ _,
      bind (shuffle l) (λ photo_filenames,
        ret (slice_from photo_filenames num_valid,
             slice_to photo_filenames num_valid))) in
  let shuffled := (shuffle_from (random_seed _RANDOM_SEED) l).1 in
  let run := convert_images d num_valid p t in
  let reseeded := World (fs w) s (stdout w) (reads w) in
  (split_step w1).1 = Ok (slice_from shuffled num_valid, slice_to shuffled num_valid) ∧
  (split_step w1).1 = (split_step w2).1 ∧
  (run reseeded).1 = (run w).1 ∧
  fs (run reseeded).2 = fs (run w).2 ∧
  reads (run reseeded).2 = reads (run w).2 ∧
  stdout (run reseeded).2 = stdout (run w).2.
Proof.
  intros split_step shuffled run reseeded.
  assert (∀ w0, (split_step w0).1 =
            Ok (slice_from shuffled num_valid, slice_to shuffled num_valid)) as Hstep.
  { intros w0. unfold split_step, bind, seed, shuffle, ret, shuffled. cbn [rng].
    by destruct (shuffle_from (random_seed _RANDOM_SEED) l). }
  split; [apply Hstep|]. split; [by rewrite !Hstep|].
  subst run reseeded. destruct w as [m r out rs]. cbn [fs stdout reads].
  set (fs1 := ensure_dir m (posixpath.join d [t])).
  assert (∃ rest : list string → result () * world, ∀ r0,
    convert_images d num_valid p t (World m r0 out rs) =
    if shards_exist fs1 d p
    then (Ok (), World fs1 r0 (out ++ [exists_message]) rs)
    else match fs1 !! posixpath.join d [p] with
         | Some (Dir entries) => rest entries
         | _ => (Raise OSError, World fs1 r0 out rs)
         end) as [rest Hrun].
  { eexists. intros r0. unfold convert_images.
    rewrite convert_images_prelude. cbn [fs rng stdout reads]. fold fs1.
    unfold bind at 1. rewrite _dataset_exists_run. cbn [fs].
    destruct (shards_exist fs1 d p); [reflexivity|].
    unfold bind at 1.
    destruct (fs1 !! posixpath.join d [p])
      as [[entries|data|records|labels]|] eqn:Hroot;
      [|by rewrite _get_filenames_and_classes_raise
             by (by intros ?; cbn [fs]; rewrite Hroot)..].
    rewrite (_get_filenames_and_classes_run _ _ _ entries) by done.
    cbv beta iota. unfold bind at 1. unfold seed at 1.
    cbn [fs rng stdout reads]. reflexivity. }
  rewrite !Hrun.
  destruct (shards_exist fs1 d p); [done|].
  by destruct (fs1 !! posixpath.join d [p]) as [[entries|data|records|labels]|].
Qed.


(** C8: the scanner returns every entry of every class directory except
    the entries named [.DS_Store] (directory entries hold no [/]); and
    whatever the outcome of [convert_images], only scanned photos are
    opened for reading, so that the [.DS_Store] of a class directory is
    never read or decoded. *)
Theorem scanner_skips_ds_store d p w entries :
  let root := posixpath.join d [p] in
  fs w !! root = Some (Dir entries) →
  (∀ c f, c ∈ entries → f ∈ listing (fs w) (posixpath.join root [c]) →
          contains_char posixpath.sep f = false) →
  ∃ photo_filenames class_names,
    _get_filenames_and_classes d p w = (Ok (photo_filenames, class_names), w) ∧
    (∀ c f, c ∈ entries → is_dir (fs w) (posixpath.join root [c]) = true →
            f ∈ listing (fs w) (posixpath.join root [c]) →
            posixpath.join (posixpath.join root [c]) [f] ∈ photo_filenames
            ↔ f ≠ ".DS_Store") ∧
    ∀ num_valid t, ∃ l,
      reads (convert_images d num_valid p t w).2 = reads w ++ l ∧
      (∀ x, x ∈ l → x ∈ photo_filenames) ∧
      ∀ c, c ∈ entries → is_dir (fs w) (posixpath.join root [c]) = true →
           ".DS_Store" ∈ listing (fs w) (posixpath.join root [c]) →
           posixpath.join (posixpath.join root [c]) [".DS_Store"] ∉ l.
Proof.
  intros root Hroot Hnames.
  assert (∀ c f, c ∈ entries → is_dir (fs w) (posixpath.join root [c]) = true →
            f ∈ listing (fs w) (posixpath.join root [c]) →
            posixpath.join (posixpath.join root [c]) [f] ∈ scan (fs w) root entries
            ↔ f ≠ ".DS_Store") as Hscan.
  { intros c f Hc Hdir Hf. rewrite elem_of_scan. split.
    - intros (c' & f' & Hc' & Hdir' & Hf' & Hne & Heq).
      apply (f_equal posixpath.basename) in Heq.
      rewrite !posixpath_facts.basename_join in Heq by eauto. by subst f'.
    - intros Hne. by exists c, f. }
  eexists _, _. split; [by apply _get_filenames_and_classes_run|].
  split; [exact Hscan|].
  intros num_valid t.
  destruct (convert_images_grows d num_valid p t w) as [_ (l & Hreads & Hl)].
  cbn [reads] in Hreads. exists l. split; [done|].
  assert (∀ x, x ∈ l → x ∈ scan (fs w) root entries) as Hsub.
  { intros x Hx%Hl. fold root in Hx. apply scan_ensure_dir in Hx.
    unfold listing in Hx.
    by rewrite (ensure_dir_present _ _ _ _ Hroot) in Hx. }
  split; [done|].
  intros c Hc Hdir Hds Hin%Hsub. by apply Hscan in Hin.
Qed.

(** C4: under the conditions of C3 (plain subdirectory names, record files
    not found, the photos directory read, the ten record files open for
    writing, no directory with the name of the label file, every scanned
    photo gives a record) and with distinct entries
    in the photos directory, the class names are the names of the class
    directories in sorted order; every record that the run leaves in one of
    its ten record files is the record of a scanned photo and carries as
    class id the index of the name of the parent directory of that photo in
    the sorted list; and the label mapping written at the end sends exactly
    the ids [0..num_classes-1] to the class names, each id to the name at
    that index and no two ids to the same name. *)
Theorem class_ids_by_sorted_index d num_valid p t g w entries :
  let root := posixpath.join d [p] in
  let fs1 := ensure_dir (fs w) (posixpath.join d [t]) in
  let photo_filenames := scan fs1 root entries in
  let class_names := sorted (class_dirs fs1 root entries) in
  let class_names_to_ids := dict (zip class_names (range (length class_names))) in
  plain_name p = true → plain_name t = true →
  shards_exist fs1 d p = false →
  fs1 !! root = Some (Dir entries) →
  NoDup entries →
  writable fs1 d t "train" →
  writable fs1 d t "validation" →
  is_dir fs1 (posixpath.join d [p; "labels.txt"]) = false →
  convertible fs1 class_names_to_ids d t "train" g photo_filenames →
  convertible fs1 class_names_to_ids d t "validation" g photo_filenames →
  ∃ w' labels_to_class_names,
    convert_images d num_valid p t w = (Ok (), w') ∧
    fs w' !! posixpath.join d [p; "labels.txt"] =
      Some (LabelFile labels_to_class_names) ∧
    StronglySorted String.le class_names ∧
    (∀ c, c ∈ class_names ↔
          c ∈ entries ∧ is_dir fs1 (posixpath.join root [c]) = true) ∧
    (∀ c i, class_names_to_ids !! c = Some i ↔ class_names !! i = Some c) ∧
    (∀ split_name k record,
       split_name ∈ ["train"; "validation"] → k < _NUM_SHARDS →
       record ∈ records_at (fs w') (_get_dataset_filename d t split_name k) →
       ∃ f class_name,
         f ∈ photo_filenames ∧
         example_of fs1 class_names_to_ids f = Ok record ∧
         class_name = posixpath.basename (posixpath.dirname f) ∧
         class_names !! image_class record = Some class_name ∧
         labels_to_class_names !! image_class record = Some class_name) ∧
    (∀ i c, labels_to_class_names !! i = Some c ↔ class_names !! i = Some c) ∧
    (∀ i, is_Some (labels_to_class_names !! i) ↔ i < length class_names) ∧
    (∀ i j c, labels_to_class_names !! i = Some c →
              labels_to_class_names !! j = Some c → i = j).
Proof.
  intros root fs1 photo_filenames class_names class_names_to_ids
    _ _ Hexist Hroot Hnodup Hopen_train Hopen_valid _ Htrain Hvalid.
  assert (NoDup class_names) as Hnames.
  { unfold class_names. rewrite sorted_Permutation. by apply NoDup_filter. }
  set (shuffled := (shuffle_from (random_seed _RANDOM_SEED) photo_filenames).1).
  assert (∀ f, f ∈ shuffled → f ∈ photo_filenames) as Hshuffled.
  { intros f. unfold shuffled. by rewrite shuffle_from_Permutation. }
  assert (∀ f, f ∈ photo_filenames →
            class_names !! image_class (g f) =
            Some (posixpath.basename (posixpath.dirname f))) as Hclass.
  { intros f Hf. destruct (Htrain f Hf) as [_ Hex].
    unfold example_of in Hex.
    destruct (read_data fs1 f) as [data|]; [|done].
    destruct (checked_dims data) as [[h wd]|]; [|done].
    destruct (class_names_to_ids !! _) as [class_id|] eqn:Hid; [|done].
    injection Hex as <-. by apply dict_zip_range_r. }
  eexists _, _. split.
  { eapply (convert_images_ok d num_valid p t g w entries);
      [exact Hexist|exact Hroot|exact Hopen_train|exact Hopen_valid
      |exact Htrain|exact Hvalid|reflexivity|reflexivity]. }
  cbn [fs]. split; [by rewrite lookup_insert_eq|].
  split; [apply sorted_StronglySorted|]. split.
  { intros c. unfold class_names, class_dirs.
    rewrite sorted_Permutation, list_elem_of_filter. tauto. }
  split; [intros c i; by apply dict_zip_range_r|]. split.
  { intros split_name k record Hsplit Hk Hrecord.
    assert (∃ f, f ∈ photo_filenames ∧ record = g f) as (f & Hf & ->).
    { pose proof (converted_shards d p t
        (dict (zip (range (length class_names)) class_names))
        (g <$> slice_from shuffled num_valid) (g <$> slice_to shuffled num_valid)
        fs1 k Hk) as [Hv Ht].
      cbv zeta in Hv, Ht.
      assert (split_name = "train" ∨ split_name = "validation") as [-> | ->]
        by (rewrite !elem_of_cons, elem_of_nil in Hsplit; tauto).
      - apply (records_at_lookup _ _ _ _ Ht) in Hrecord.
        apply shard_files_subseteq, list_elem_of_fmap in Hrecord as (f & -> & Hf).
        exists f. split; [|done]. by apply slice_from_subseteq, Hshuffled in Hf.
      - apply (records_at_lookup _ _ _ _ Hv) in Hrecord.
        apply shard_files_subseteq, list_elem_of_fmap in Hrecord as (f & -> & Hf).
        exists f. split; [|done]. by apply slice_to_subseteq, Hshuffled in Hf. }
    exists f, (posixpath.basename (posixpath.dirname f)).
    split; [done|]. split; [by apply Htrain|]. split; [done|].
    split; [by apply Hclass|]. apply dict_zip_range_l. by apply Hclass. }
  fold class_names.
  split; [intros i c; apply dict_zip_range_l|]. split.
  - intros i. rewrite <-lookup_lt_is_Some. unfold is_Some.
    by setoid_rewrite dict_zip_range_l.
  - intros i j c Hi%dict_zip_range_l Hj%dict_zip_range_l.
    by eapply NoDup_lookup.
Qed.

End Conversion.

(** * Further properties of the module *)

(** ** class ImageReader *)

Section ImageReader.
Context `{!PyRandom} `{!TensorFlow}.



(** X2: [read_image_dims] returns [(h, w)] exactly when the decoded tensor
    has the shape [(h, w, 3)], and then leaves the world as it is. *)
Theorem read_image_dims_returns_shape image_data w h wd w' :
  read_image_dims image_data w = (Ok (h, wd), w') ↔
  run_decode_jpeg image_data = Some [h; wd; 3] ∧ w' = w.
Proof.
  rewrite read_image_dims_run. unfold checked_dims.
  destruct (run_decode_jpeg image_data) as [shape|]; [|by split; [|intros [? _]]].
  destruct shape as [|h' [|wd' [|c [|x shape]]]];
    try (by split; [|intros [? _]]).
  case_bool_decide as Hc.
  - subst c. split; [by intros [= -> -> ->]|by intros [[= -> ->] ->]].
  - split; [done|]. intros [[= _ _ ->] _]. done.
Qed.

End ImageReader.

(** ** One split *)

Section OneSplit.
Context `{!PyRandom} `{!TensorFlow}.

(** X3: a split name other than [train] and [validation] is refused with
    [AssertionError] before anything is done: no file is opened, nothing is
    printed. *)
Theorem convert_dataset_refuses_split split_name filenames ids d t w :
  split_name ∉ ["train"; "validation"] →
  _convert_dataset split_name filenames ids d t w = (Raise AssertionError, w).
Proof.
  intros Hsplit. unfold _convert_dataset.
  by rewrite bool_decide_eq_false_2 by done.
Qed.

(** X4: with no filename at all [_convert_dataset] still opens its five
    files, when they can be opened: each one is left without a record,
    nothing is read, and the console only gets the final line break. No
    other path is created, and every other file of the store holds what it
    held. *)
Theorem convert_dataset_of_nothing split_name ids d t w :
  split_name ∈ ["train"; "validation"] →
  writable (fs w) d t split_name →
  ∃ w',
    _convert_dataset split_name [] ids d t w = (Ok (), w') ∧
    (∀ k, k < _NUM_SHARDS →
       fs w' !! _get_dataset_filename d t split_name k = Some (RecordFile [])) ∧
    (∀ q, fs w !! q = None → is_Some (fs w' !! q) →
          q ∈ _get_dataset_filename d t split_name <$> range _NUM_SHARDS) ∧
    (∀ q x, fs w !! q = Some x →
            q ∉ _get_dataset_filename d t split_name <$> range _NUM_SHARDS →
            is_dir (fs w) q = false → fs w' !! q = Some x) ∧
    reads w' = reads w ∧
    stdout w' = stdout w ++ [newline] ∧
    rng w' = rng w.
Proof.
  intros Hsplit Hopen. eexists. split.
  { apply (_convert_dataset_ok _ _ _ _ _ (λ _, TFExample [] [] 0 0 0));
      [done|done|]. by intros f ?%elem_of_nil. }
  cbn [fs rng stdout reads]. split; [|split; [|split]].
  - intros k Hk. rewrite write_shards_lookup by done.
    by rewrite shard_files_fmap, shard_files_nil.
  - intros q Hq Hnew.
    destruct (decide (q ∈ _get_dataset_filename d t split_name
                            <$> range _NUM_SHARDS)) as [|Hout]; [done|].
    rewrite (write_shards_unchanged _ _ _ _ _ _ Hout), Hq in Hnew.
    by destruct Hnew.
  - intros q x Hq Hout _. by rewrite (write_shards_unchanged _ _ _ _ _ _ Hout).
  - split; [by rewrite app_nil_r|]. split; [|done]. by vm_compute.
Qed.

(** X5: one pass of the loop over the images, on a file that decodes to
    three channels and whose parent directory has a class id: the progress
    line is printed, the file is read, and the record appended to the shard
    holds the bytes as they were read, the tag [b'jpg'], the height and
    width of the decoded tensor and the class id. *)
Theorem convert_image_appends_record filenames ids out k i f data h wd class_id w :
  filenames !! i = Some f →
  fs w !! f = Some (File data) →
  run_decode_jpeg data = Some [h; wd; 3] →
  ids !! posixpath.basename (posixpath.dirname f) = Some class_id →
  convert_image filenames ids out k i w =
  (Ok (),
   World (<[out := RecordFile (records_at (fs w) out ++
                                 [TFExample data b_jpg h wd class_id])]> (fs w))
         (rng w)
         (stdout w ++ [carriage_return +:+ ">> Converting image " +:+
                       fmt_d (i + 1) +:+ "/" +:+ fmt_d (length filenames) +:+
                       " shard " +:+ fmt_d k])
         (reads w ++ [f])).
Proof.
  intros Hf Hfile Hshape Hid.
  rewrite (convert_image_run _ _ _ _ _ f) by done.
  unfold example_of, read_data, checked_dims.
  by rewrite Hfile, Hshape, Hid.
Qed.

Lemma write_shards_lookup_seq d t split_name records m k mm :
  split_name ∈ ["train"; "validation"] → k < m → m ≤ _NUM_SHARDS →
  write_shards d t split_name records (seq 0 m) mm
    !! _get_dataset_filename d t split_name k =
  Some (RecordFile (shard_files records k)).
Proof.
  intros Hsplit. induction m as [|m IH]; intros Hk Hm; [lia|].
  unfold write_shards in *. rewrite seq_S, foldl_app. simpl.
  destruct (decide (k = m)) as [->|Hne]; [by rewrite lookup_insert_eq|].
  rewrite lookup_insert_ne; [apply IH; lia|].
  intros Heq. apply posixpath_facts.dataset_filename_inj in Heq as [_ ?];
    [done|done|done|lia|lia].
Qed.

(** The store and the reads that a run of [_convert_dataset] leaves when
    image [i] is the first one that raises. *)
Lemma convert_dataset_stops split_name filenames ids d t g w i f e :
  split_name ∈ ["train"; "validation"] →
  writable (fs w) d t split_name →
  filenames !! i = Some f →
  (∀ k, k < _NUM_SHARDS → f ≠ _get_dataset_filename d t split_name k) →
  example_of (fs w) ids f = Raise e →
  convertible (fs w) ids d t split_name g (take i filenames) →
  let n := length filenames in
  let s := i `div` ceil_div n _NUM_SHARDS in
  ∃ w',
    _convert_dataset split_name filenames ids d t w = (Raise e, w') ∧
    reads w' = reads w ++ take (i + 1) filenames ∧
    (∀ k, k < s →
       fs w' !! _get_dataset_filename d t split_name k =
       Some (RecordFile (g <$> shard_files filenames k))) ∧
    fs w' !! _get_dataset_filename d t split_name s =
      Some (RecordFile (g <$> take (i - shard_start n s)
                                   (drop (shard_start n s) filenames))) ∧
    (∀ k, s < k < _NUM_SHARDS →
       fs w' !! _get_dataset_filename d t split_name k =
       fs w !! _get_dataset_filename d t split_name k).
Proof.
  intros Hsplit Hopen Hf Hne Hex Hgood n s.
  destruct (_convert_dataset_raise split_name filenames ids d t g w i f e
              Hsplit Hopen Hf Hne Hex Hgood) as (Hs & Hrange & Hrun).
  fold n s in Hs, Hrange, Hrun.
  assert (∀ k k', k < _NUM_SHARDS → k' < _NUM_SHARDS → k ≠ k' →
            _get_dataset_filename d t split_name k ≠
            _get_dataset_filename d t split_name k') as Hinj.
  { intros k k' ? ? ? Heq.
    by apply posixpath_facts.dataset_filename_inj in Heq as [_ ?]. }
  eexists. split; [exact Hrun|]. cbn [fs reads]. split; [done|].
  split; [|split; [by rewrite lookup_insert_eq|]].
  - intros k Hk. rewrite lookup_insert_ne by (apply Hinj; lia).
    rewrite <-shard_files_fmap. apply write_shards_lookup_seq; [done|lia|lia].
  - intros k [Hk1 Hk2]. rewrite lookup_insert_ne by (apply Hinj; lia).
    apply write_shards_lookup_ne. intros k' Hk'%elem_of_seq. apply Hinj; lia.
Qed.

(** X6: with the five record files open for writing, a file whose parent
    directory has no class id ends the run with [KeyError], after the file
    was read and decoded. The shards before the one of that image are
    complete and stay on disk, its own shard holds the records of the images
    before it, and the later shards are not opened. *)
Theorem missing_class_raises_KeyError
    split_name filenames ids d t g w i f image_data h wd :
  split_name ∈ ["train"; "validation"] →
  writable (fs w) d t split_name →
  filenames !! i = Some f →
  (∀ k, k < _NUM_SHARDS → f ≠ _get_dataset_filename d t split_name k) →
  read_data (fs w) f = Ok image_data →
  run_decode_jpeg image_data = Some [h; wd; 3] →
  ids !! posixpath.basename (posixpath.dirname f) = None →
  convertible (fs w) ids d t split_name g (take i filenames) →
  let n := length filenames in
  let s := i `div` ceil_div n _NUM_SHARDS in
  ∃ w',
    _convert_dataset split_name filenames ids d t w = (Raise KeyError, w') ∧
    reads w' = reads w ++ take (i + 1) filenames ∧
    (∀ k, k < s →
       fs w' !! _get_dataset_filename d t split_name k =
       Some (RecordFile (g <$> shard_files filenames k))) ∧
    fs w' !! _get_dataset_filename d t split_name s =
      Some (RecordFile (g <$> take (i - shard_start n s)
                                   (drop (shard_start n s) filenames))) ∧
    (∀ k, s < k < _NUM_SHARDS →
       fs w' !! _get_dataset_filename d t split_name k =
       fs w !! _get_dataset_filename d t split_name k).
Proof.
  intros Hsplit Hopen Hf Hne Hread Hshape Hid Hgood.
  apply (convert_dataset_stops split_name filenames ids d t g w i f KeyError);
    try done.
  unfold example_of, checked_dims. by rewrite Hread, Hshape, Hid.
Qed.

(** X7: with the five record files open for writing, a filename that is
    missing from its directory ends the run with [NotFoundError] at its
    turn, whatever the class ids are: the read comes first. The images
    before it are in the shards, nothing after it is read. *)
Theorem missing_file_raises_NotFoundError split_name filenames ids d t g w i f :
  split_name ∈ ["train"; "validation"] →
  writable (fs w) d t split_name →
  filenames !! i = Some f →
  (∀ k, k < _NUM_SHARDS → f ≠ _get_dataset_filename d t split_name k) →
  is_dir (fs w) (posixpath.dirname f) = true →
  fs w !! f = None →
  convertible (fs w) ids d t split_name g (take i filenames) →
  let n := length filenames in
  let s := i `div` ceil_div n _NUM_SHARDS in
  ∃ w',
    _convert_dataset split_name filenames ids d t w = (Raise NotFoundError, w') ∧
    reads w' = reads w ++ take (i + 1) filenames ∧
    (∀ k, k < s →
       fs w' !! _get_dataset_filename d t split_name k =
       Some (RecordFile (g <$> shard_files filenames k))) ∧
    fs w' !! _get_dataset_filename d t split_name s =
      Some (RecordFile (g <$> take (i - shard_start n s)
                                   (drop (shard_start n s) filenames))).
Proof.
  intros Hsplit Hopen Hf Hne _ Hmissing Hgood n s.
  destruct (convert_dataset_stops split_name filenames ids d t g w i f NotFoundError)
    as (w' & Hrun & Hreads & Hbefore & Hshard & _); try done.
  { unfold example_of, read_data. by rewrite Hmissing. }
  by exists w'.
Qed.

End OneSplit.

(** ** The record files of a split *)

Section RecordFiles.
Context `{!PyRandom} `{!TensorFlow}.

(** X8: the sizes of the shards of a completed split, when the five
    record files can be opened for writing and every file gives a record.
    Shard [k] holds [min(c, n - k * c)] records for [c = ceil(n / 5)]: every
    shard is full as long as the list lasts, and every shard that starts
    beyond the end of the list is empty, so that more than one trailing
    shard can be empty. *)
Theorem shard_sizes split_name filenames ids d t g w :
  split_name ∈ ["train"; "validation"] →
  writable (fs w) d t split_name →
  convertible (fs w) ids d t split_name g filenames →
  let n := length filenames in
  let c := ceil_div n _NUM_SHARDS in
  ∃ w',
    _convert_dataset split_name filenames ids d t w = (Ok (), w') ∧
    ∀ k, k < _NUM_SHARDS →
      let size :=
        length (records_at (fs w') (_get_dataset_filename d t split_name k)) in
      size = c `min` (n - k * c) ∧
      ((k + 1) * c ≤ n → size = c) ∧
      (n ≤ k * c → size = 0).
Proof.
  intros Hsplit Hopen Hgood n c.
  eexists. split; [by apply _convert_dataset_ok|]. cbn [fs].
  intros k Hk. cbv zeta. unfold records_at.
  rewrite write_shards_lookup by done.
  unfold shard_files, shard_start, shard_end.
  rewrite length_take, length_drop, length_fmap. fold n c. lia.
Qed.

(** X9: opening a shard discards what the file held. When the five record
    files can be opened for writing and every file gives a record, a second
    run of [_convert_dataset] on the store that the first one left reads
    every file again and leaves the same store: records are not appended to
    the shards that exist. *)
Theorem convert_dataset_twice split_name filenames ids d t g w :
  split_name ∈ ["train"; "validation"] →
  writable (fs w) d t split_name →
  convertible (fs w) ids d t split_name g filenames →
  ∃ w1 w2,
    _convert_dataset split_name filenames ids d t w = (Ok (), w1) ∧
    _convert_dataset split_name filenames ids d t w1 = (Ok (), w2) ∧
    fs w2 = fs w1 ∧
    reads w2 = reads w ++ filenames ++ filenames.
Proof.
  intros Hsplit Hopen Hgood.
  eexists _, _. split; [by apply _convert_dataset_ok|].
  split.
  { apply (_convert_dataset_ok _ _ _ _ _ g); [done| |].
    { cbn [fs]. by apply writable_write_shards. }
    cbn [fs]. eapply convertible_ext; [|exact Hgood].
    intros f Hf. symmetry. apply write_shards_lookup_ne.
    intros k Hk%range_shards. by apply (Hgood f Hf). }
  cbn [fs reads]. split; [|by rewrite <-(assoc_L (++))].
  apply map_eq. intros p.
  destruct (decide (p ∈ _get_dataset_filename d t split_name <$> range _NUM_SHARDS))
    as [(k & -> & Hk%range_shards)%list_elem_of_fmap|Hp].
  - by rewrite !write_shards_lookup.
  - by rewrite !write_shards_unchanged.
Qed.

End RecordFiles.

(** ** The names of the record files *)

Section RecordFileNames.

(** X10: the ten paths of a dataset, five for each split, are pairwise
    distinct, whatever the directories are: no shard of one split replaces a
    shard of the other. *)
Theorem shard_paths_distinct d t :
  NoDup ((_get_dataset_filename d t "train" <$> range _NUM_SHARDS) ++
         (_get_dataset_filename d t "validation" <$> range _NUM_SHARDS)).
Proof.
  apply NoDup_app. split; [apply shard_paths_NoDup; by left|].
  split; [|apply shard_paths_NoDup; by right; left].
  intros p (k & -> & Hk%range_shards)%list_elem_of_fmap
           (k' & Heq & Hk'%range_shards)%list_elem_of_fmap.
  by apply posixpath_facts.dataset_filename_inj in Heq as [? _];
    [|by left|by right; left|..].
Qed.

(** X11: the path of a shard is the output directory, a [/] and the file
    name; [os.path.dirname] gives back the directory that [convert_images]
    creates and [os.path.basename] the file name, as soon as the joined
    directory is not empty and does not end with [/]. *)
Theorem shard_path_round_trip d t split_name k :
  let out_dir := posixpath.join d [t] in
  let name := "tumblr_" +:+ split_name +:+ "_" +:+ fmt_05d k +:+ "-of-" +:+
              fmt_05d _NUM_SHARDS +:+ ".tfrecord" in
  let path := _get_dataset_filename d t split_name k in
  out_dir ≠ "" →
  posixpath.endswith_sep out_dir = false →
  split_name ∈ ["train"; "validation"] →
  k < _NUM_SHARDS →
  path = out_dir +:+ "/" +:+ name ∧
  posixpath.dirname path = out_dir ∧
  posixpath.basename path = name.
Proof.
  intros out_dir name path Hdir Hend Hsplit Hk.
  assert (contains_char posixpath.sep name = false) as Hname
    by (by apply shard_name_no_sep).
  change path with (posixpath.join out_dir [name]).
  split; [|split].
  - rewrite posixpath_facts.join_relative by done.
    unfold posixpath.with_sep. rewrite Hend, orb_false_r.
    rewrite bool_decide_eq_false_2 by done.
    apply posixpath_facts.append_assoc.
  - by apply posixpath_facts.dirname_join.
  - by apply posixpath_facts.basename_join.
Qed.

(** X12: a subdirectory that starts with [/] makes [os.path.join] drop the
    dataset directory: the shard paths are then the same for every dataset
    directory. *)
Theorem absolute_subdir_drops_dataset_dir d d' t split_name k :
  posixpath.startswith_sep t = true →
  _get_dataset_filename d t split_name k = _get_dataset_filename d' t split_name k ∧
  posixpath.join d [t] = t.
Proof.
  intros Ht. unfold _get_dataset_filename, posixpath.join. simpl.
  unfold posixpath.join_step at 2 4 5. by rewrite Ht.
Qed.

End RecordFileNames.

(** ** The scanner and the class ids *)

Section ScannedPhotos.
Context `{!PyRandom} `{!TensorFlow}.

(** X13: what the two loops of the scanner return. The class directories
    are the entries of the photos directory that are directories, in the
    order of the listing; the photo paths follow that order, class after
    class and entry after entry, and are not sorted; the class names are the
    same directories sorted. Entries that are no directories give no class,
    a class directory without a photo gives a class and no path, and the
    world is left as it is. *)
Theorem scanner_follows_listing_order d p w entries :
  let root := posixpath.join d [p] in
  let classes :=
    filter (λ c, is_dir (fs w) (posixpath.join root [c]) = true) entries in
  let photos_of c :=
    (λ f, posixpath.join (posixpath.join root [c]) [f]) <$>
      filter (λ f, f ≠ ".DS_Store") (listing (fs w) (posixpath.join root [c])) in
  fs w !! root = Some (Dir entries) →
  _get_filenames_and_classes d p w =
    (Ok (classes ≫= photos_of, sorted classes), w) ∧
  StronglySorted String.le (sorted classes) ∧
  sorted classes ≡ₚ classes.
Proof.
  intros root classes photos_of Hroot.
  split; [by apply _get_filenames_and_classes_run|].
  split; [apply sorted_StronglySorted|apply sorted_Permutation].
Qed.

Lemma dict_lookup_elem `{Countable K} {V} (pairs : list (K * V)) k v :
  dict pairs !! k = Some v → (k, v) ∈ pairs.
Proof.
  induction pairs as [|[k0 v0] pairs IH] using rev_ind.
  - unfold dict. simpl. by rewrite lookup_empty.
  - rewrite dict_snoc, elem_of_app, list_elem_of_singleton.
    destruct (decide (k = k0)) as [->|Hne].
    + rewrite lookup_insert_eq. intros [= ->]. by right.
    + rewrite lookup_insert_ne by done. intros Hk. left. by apply IH.
Qed.

Lemma dict_lookup_is_Some `{Countable K} {V} (pairs : list (K * V)) k :
  k ∈ pairs.*1 → is_Some (dict pairs !! k).
Proof.
  induction pairs as [|[k0 v0] pairs IH] using rev_ind.
  - by intros ?%elem_of_nil.
  - rewrite fmap_app, elem_of_app, dict_snoc. simpl.
    destruct (decide (k = k0)) as [->|Hne]; [by rewrite lookup_insert_eq|].
    rewrite lookup_insert_ne by done.
    intros [Hk|Hk%list_elem_of_singleton]; [by apply IH|done].
Qed.

(** The class id of a name of the list, also when a name is repeated. *)
Lemma class_id_of_name (class_names : list string) c :
  c ∈ class_names →
  ∃ i, dict (zip class_names (range (length class_names))) !! c = Some i ∧
       class_names !! i = Some c.
Proof.
  intros Hc.
  destruct (dict_lookup_is_Some (zip class_names (range (length class_names))) c)
    as [i Hi].
  { rewrite fst_zip; [done|]. unfold range, range2. rewrite length_seq. lia. }
  exists i. split; [done|].
  apply dict_lookup_elem, list_elem_of_lookup in Hi as [j Hj].
  apply lookup_zip_Some in Hj as [Hc' Hj]. unfold range, range2 in Hj.
  apply lookup_seq in Hj as [-> _]. done.
Qed.

(** X14: the class lookup cannot fail on a scanned photo. When the entries
    of the photos directory and of the class directories are non-empty names
    without [/], the parent directory name of every scanned path is a class
    name, and the dict built from the class names sends it to an index at
    which the sorted list holds that name. *)
Theorem scanned_photo_has_class_id d p w entries :
  let root := posixpath.join d [p] in
  fs w !! root = Some (Dir entries) →
  (∀ c, c ∈ entries → c ≠ "" ∧ contains_char posixpath.sep c = false) →
  (∀ c f, c ∈ entries → f ∈ listing (fs w) (posixpath.join root [c]) →
          contains_char posixpath.sep f = false) →
  ∃ photo_filenames class_names,
    _get_filenames_and_classes d p w = (Ok (photo_filenames, class_names), w) ∧
    ∀ path, path ∈ photo_filenames →
      let class_name := posixpath.basename (posixpath.dirname path) in
      class_name ∈ entries ∧
      is_dir (fs w) (posixpath.join root [class_name]) = true ∧
      ∃ i, dict (zip class_names (range (length class_names))) !! class_name = Some i ∧
           class_names !! i = Some class_name.
Proof.
  intros root Hroot Hclasses Hfiles.
  eexists _, _. split; [by apply _get_filenames_and_classes_run|].
  intros path (c & f & Hc & Hdir & Hf & _ & ->)%elem_of_scan. cbv zeta.
  destruct (Hclasses c Hc) as [Hne Hsep].
  rewrite posixpath_facts.basename_dirname_join by eauto.
  split; [done|]. split; [done|].
  apply class_id_of_name. rewrite sorted_Permutation.
  by apply list_elem_of_filter.
Qed.

End ScannedPhotos.

(** ** Runs of [convert_images] *)

Section Runs.
Context `{!PyRandom} `{!TensorFlow}.


Lemma filter_none {A} (P : A → Prop) `{∀ x, Decision (P x)} (l : list A) :
  (∀ x, x ∈ l → ¬ P x) → filter P l = [].
Proof.
  induction l as [|x l IH]; intros Hl; [done|].
  rewrite filter_cons, decide_False by (apply Hl; by left).
  apply IH. intros y Hy. apply Hl. by right.
Qed.

(** X16: the two subdirectories are plain names, the ten record files can
    be opened for writing below the output directory and no directory has
    the name of the label file. A photos directory without a class
    directory is then converted to an empty
    dataset, for every [num_valid]: the run returns normally, the ten record
    files are written without a record, the label mapping is empty and
    nothing is read. *)
Theorem convert_images_without_classes d num_valid p t w entries :
  let root := posixpath.join d [p] in
  let fs1 := ensure_dir (fs w) (posixpath.join d [t]) in
  plain_name p = true → plain_name t = true →
  shards_exist fs1 d p = false →
  fs1 !! root = Some (Dir entries) →
  writable fs1 d t "train" →
  writable fs1 d t "validation" →
  is_dir fs1 (posixpath.join d [p; "labels.txt"]) = false →
  (∀ c, c ∈ entries → is_dir fs1 (posixpath.join root [c]) = false) →
  ∃ w',
    convert_images d num_valid p t w = (Ok (), w') ∧
    (∀ k, k < _NUM_SHARDS →
       fs w' !! _get_dataset_filename d t "validation" k = Some (RecordFile []) ∧
       fs w' !! _get_dataset_filename d t "train" k = Some (RecordFile [])) ∧
    fs w' !! posixpath.join d [p; "labels.txt"] = Some (LabelFile ∅) ∧
    reads w' = reads w.
Proof.
  intros root fs1 _ _ Hexist Hroot Hopen_train Hopen_valid _ Hnone.
  assert (class_dirs fs1 root entries = []) as Hclasses.
  { unfold class_dirs. apply filter_none. intros c Hc. by rewrite (Hnone c Hc). }
  assert (scan fs1 root entries = []) as Hscan
    by (unfold scan; by rewrite Hclasses).
  pose proof (convert_images_ok d num_valid p t (λ _, TFExample [] [] 0 0 0)
                w entries [] [] Hexist Hroot Hopen_train Hopen_valid) as Hrun.
  cbv zeta in Hrun. fold root fs1 in Hrun. rewrite Hscan, Hclasses in Hrun.
  eexists. split; [|split; [|split]].
  - apply Hrun; try (by intros ? ?%elem_of_nil).
    + unfold slice_from. apply drop_nil.
    + unfold slice_to. apply take_nil.
  - intros k Hk. cbn [fs].
    destruct (converted_shards d p t
                (dict (zip (range (length (sorted []))) (sorted [])))
                [] [] fs1 k Hk) as [Hv Ht].
    rewrite shard_files_nil in Hv, Ht. split; [exact Hv|exact Ht].
  - cbn [fs]. by rewrite lookup_insert_eq.
  - cbn [reads]. by rewrite !app_nil_r.
Qed.

(** The class id and the record of every scanned photo that is a regular
    file with three colour channels. *)
Lemma scanned_photo_example m root entries path data h wd :
  let class_names := sorted (class_dirs m root entries) in
  let ids := dict (zip class_names (range (length class_names))) in
  (∀ c, c ∈ entries → c ≠ "" ∧ contains_char posixpath.sep c = false) →
  (∀ c f, c ∈ entries → f ∈ listing m (posixpath.join root [c]) →
          contains_char posixpath.sep f = false) →
  path ∈ scan m root entries →
  m !! path = Some (File data) →
  run_decode_jpeg data = Some [h; wd; 3] →
  ∃ i, class_names !! i = Some (posixpath.basename (posixpath.dirname path)) ∧
       example_of m ids path = Ok (TFExample data b_jpg h wd i).
Proof.
  intros class_names ids Hclasses Hfiles
    (c & f & Hc & Hdir & Hf & _ & ->)%elem_of_scan Hdata Hdec.
  destruct (Hclasses c Hc) as [Hne Hsep].
  destruct (class_id_of_name class_names c) as (i & Hi & Hname).
  { unfold class_names. rewrite sorted_Permutation.
    by apply list_elem_of_filter. }
  exists i. rewrite posixpath_facts.basename_dirname_join by eauto.
  split; [done|]. unfold example_of, read_data, checked_dims.
  rewrite Hdata, Hdec. cbv beta iota.
  rewrite posixpath_facts.basename_dirname_join by eauto.
  change (ids !! c = Some i) in Hi. by rewrite Hi.
Qed.

(** The records of the five files of a split add up to the split. *)
Lemma converted_shards_count d p t labels training validation m :
  let final :=
    <[posixpath.join d [p; "labels.txt"] := LabelFile labels]>
      (write_shards d t "validation" validation (range _NUM_SHARDS)
         (write_shards d t "train" training (range _NUM_SHARDS) m)) in
  sum_list ((λ k, length (records_at final (_get_dataset_filename d t "train" k)))
            <$> range _NUM_SHARDS) = length training ∧
  sum_list ((λ k, length (records_at final
                            (_get_dataset_filename d t "validation" k)))
            <$> range _NUM_SHARDS) = length validation.
Proof.
  intros final.
  assert (∀ l : list tfexample,
            sum_list ((λ k, length (shard_files l k)) <$> range _NUM_SHARDS) =
            length l) as Hsum.
  { intros l. by rewrite sum_list_length_bind, shard_files_partition. }
  split.
  - rewrite <-(Hsum training). f_equal. apply list_fmap_ext.
    intros i k Hk%list_elem_of_lookup_2%range_shards. unfold records_at, final.
    by rewrite (proj2 (converted_shards d p t labels training validation m k Hk)).
  - rewrite <-(Hsum validation). f_equal. apply list_fmap_ext.
    intros i k Hk%list_elem_of_lookup_2%range_shards. unfold records_at, final.
    by rewrite (proj1 (converted_shards d p t labels training validation m k Hk)).
Qed.

(** X17: the whole converter on a well-formed photos directory, for every
    integer [num_valid]. When the two subdirectories are plain names, the
    ten record files can be opened for writing below the output directory,
    no directory has the name of the label file, the entries are non-empty
    names without [/], and every scanned photo is
    a regular file that decodes to three channels, the run returns normally;
    every scanned photo is read exactly once, the files read are a
    rearrangement of the scanned list, and the records of the ten record
    files add up to the number of photos: the split loses and repeats
    nothing. *)
Theorem every_photo_converted_once d num_valid p t w entries :
  let root := posixpath.join d [p] in
  let fs1 := ensure_dir (fs w) (posixpath.join d [t]) in
  let photo_filenames := scan fs1 root entries in
  plain_name p = true → plain_name t = true →
  shards_exist fs1 d p = false →
  fs1 !! root = Some (Dir entries) →
  writable fs1 d t "train" →
  writable fs1 d t "validation" →
  is_dir fs1 (posixpath.join d [p; "labels.txt"]) = false →
  (∀ c, c ∈ entries → c ≠ "" ∧ contains_char posixpath.sep c = false) →
  (∀ c f, c ∈ entries → f ∈ listing fs1 (posixpath.join root [c]) →
          contains_char posixpath.sep f = false) →
  (∀ path, path ∈ photo_filenames →
     ∃ data h wd, fs1 !! path = Some (File data) ∧
                  run_decode_jpeg data = Some [h; wd; 3]) →
  ∃ w' converted,
    convert_images d num_valid p t w = (Ok (), w') ∧
    reads w' = reads w ++ converted ∧
    converted ≡ₚ photo_filenames ∧
    sum_list ((λ k, length (records_at (fs w')
                              (_get_dataset_filename d t "train" k)))
              <$> range _NUM_SHARDS) +
    sum_list ((λ k, length (records_at (fs w')
                              (_get_dataset_filename d t "validation" k)))
              <$> range _NUM_SHARDS) = length photo_filenames.
Proof.
  intros root fs1 photo_filenames Hplain_p Hplain_t Hexist Hroot
    Hopen_train Hopen_valid _ Hclasses Hfiles Hphotos.
  set (class_names := sorted (class_dirs fs1 root entries)).
  set (ids := dict (zip class_names (range (length class_names)))).
  set (g := λ f, match example_of fs1 ids f with
                 | Ok e => e
                 | Raise _ => TFExample [] [] 0 0 0
                 end).
  assert (∀ split_name, split_name ∈ ["train"; "validation"] →
            convertible fs1 ids d t split_name g photo_filenames) as Hgood.
  { intros split_name Hsplit path Hpath.
    destruct (Hphotos path Hpath) as (data & h & wd & Hdata & Hdec).
    split.
    { intros k Hk.
      pose proof Hpath as (c & f & Hc & _ & Hf & _ & ->)%elem_of_scan.
      destruct (Hclasses c Hc) as [Hne Hsep].
      by apply (photo_path_not_written d p t c f Hplain_p Hplain_t Hne Hsep
                  (Hfiles c f Hc Hf)). }
    destruct (scanned_photo_example fs1 root entries path data h wd
                Hclasses Hfiles Hpath Hdata Hdec) as (i & _ & Hex).
    fold class_names ids in Hex. unfold g. by rewrite Hex. }
  set (shuffled := shuffle_from (random_seed _RANDOM_SEED) photo_filenames).
  set (training := slice_from shuffled.1 num_valid).
  set (validation := slice_to shuffled.1 num_valid).
  assert (validation ++ training = shuffled.1) as Hsplit
    by apply slice_to_from.
  assert (shuffled.1 ≡ₚ photo_filenames) as Hperm
    by apply shuffle_from_Permutation.
  eexists _, (training ++ validation). split; [|split; [|split]].
  - apply (convert_images_ok d num_valid p t g w entries training validation
             Hexist Hroot Hopen_train Hopen_valid);
      [apply Hgood; by left|apply Hgood; by right; left|done|done].
  - done.
  - by rewrite (comm (++)), Hsplit.
  - cbn [fs].
    destruct (converted_shards_count d p t
                (dict (zip (range (length class_names)) class_names))
                (g <$> training) (g <$> validation) fs1) as [Ht Hv].
    fold root fs1 class_names. rewrite Ht, Hv, !length_fmap.
    rewrite <-Hperm, <-Hsplit, length_app. lia.
Qed.

(** X18: a negative [num_valid] counts from the end of the shuffled list,
    as Python slices do. Under the conditions of C3 (plain subdirectory
    names, record files not found, the photos directory read, the ten record
    files open for writing, no directory with the name of the label file,
    every scanned photo gives a record) the last
    [-num_valid] shuffled files, all of them when there are fewer, are the
    training set and the files before them the validation set, the other way
    round from a positive [num_valid]. *)
Theorem negative_num_valid_counts_from_the_end d num_valid p t g w entries :
  let root := posixpath.join d [p] in
  let fs1 := ensure_dir (fs w) (posixpath.join d [t]) in
  let photo_filenames := scan fs1 root entries in
  let class_names := sorted (class_dirs fs1 root entries) in
  let ids := dict (zip class_names (range (length class_names))) in
  let shuffled := (shuffle_from (random_seed _RANDOM_SEED) photo_filenames).1 in
  let cut := length shuffled - Z.to_nat (- num_valid) in
  let validation := take cut shuffled in
  let training := drop cut shuffled in
  plain_name p = true → plain_name t = true →
  shards_exist fs1 d p = false →
  fs1 !! root = Some (Dir entries) →
  writable fs1 d t "train" →
  writable fs1 d t "validation" →
  is_dir fs1 (posixpath.join d [p; "labels.txt"]) = false →
  convertible fs1 ids d t "train" g photo_filenames →
  convertible fs1 ids d t "validation" g photo_filenames →
  (num_valid < 0)%Z →
  ∃ w',
    convert_images d num_valid p t w = (Ok (), w') ∧
    length training = Z.to_nat (- num_valid) `min` length photo_filenames ∧
    (∀ k, k < _NUM_SHARDS →
       fs w' !! _get_dataset_filename d t "validation" k =
         Some (RecordFile (g <$> shard_files validation k)) ∧
       fs w' !! _get_dataset_filename d t "train" k =
         Some (RecordFile (g <$> shard_files training k))) ∧
    reads w' = reads w ++ training ++ validation.
Proof.
  intros root fs1 photo_filenames class_names ids shuffled cut validation
    training _ _ Hexist Hroot Hopen_train Hopen_valid _ Htrain Hvalid Hneg.
  assert (shuffled ≡ₚ photo_filenames) as Hperm
    by apply shuffle_from_Permutation.
  assert (slice_index (length shuffled) num_valid = cut) as Hidx.
  { unfold slice_index, cut. destruct (Z.ltb_spec num_valid 0); lia. }
  eexists. split.
  { apply (convert_images_ok d num_valid p t g w entries training validation);
      try done.
    - change (slice_from shuffled num_valid = training).
      unfold slice_from. by rewrite Hidx.
    - change (slice_to shuffled num_valid = validation).
      unfold slice_to. by rewrite Hidx. }
  cbn [fs reads]. split; [|split; [|done]].
  - unfold training, cut. rewrite length_drop, <-Hperm. lia.
  - intros k Hk. rewrite <-!shard_files_fmap. by apply converted_shards.
Qed.

(** The directory of a record file. *)
Lemma dataset_filename_dirname d t split_name k :
  posixpath.join d [t] ≠ "" →
  posixpath.endswith_sep (posixpath.join d [t]) = false →
  split_name ∈ ["train"; "validation"] → k < _NUM_SHARDS →
  posixpath.dirname (_get_dataset_filename d t split_name k) =
  posixpath.join d [t].
Proof.
  intros Hdir Hend Hsplit Hk.
  change (_get_dataset_filename d t split_name k)
    with (posixpath.join (posixpath.join d [t]) [shard_name split_name k]).
  apply posixpath_facts.dirname_join; [done|done|].
  by apply shard_name_no_sep.
Qed.

(** X19: a completed run is not recognised by the next one. When the two
    subdirectories are different plain names, a run that converts (the ten
    record files open for writing, no directory with the name of the label
    file, every scanned photo gives a record)
    leaves all ten record files below [tfrecords_subdir], yet the test that
    [convert_images] makes, below [photos_subdir], still answers that the
    dataset does not exist. *)
Theorem completed_run_is_not_recognised
    d num_valid p t g w entries training validation :
  let root := posixpath.join d [p] in
  let out_dir := posixpath.join d [t] in
  let fs1 := ensure_dir (fs w) out_dir in
  let photo_filenames := scan fs1 root entries in
  let class_names := sorted (class_dirs fs1 root entries) in
  let ids := dict (zip class_names (range (length class_names))) in
  let shuffled := shuffle_from (random_seed _RANDOM_SEED) photo_filenames in
  plain_name p = true → plain_name t = true → p ≠ t →
  shards_exist fs1 d p = false →
  fs1 !! root = Some (Dir entries) →
  writable fs1 d t "train" →
  writable fs1 d t "validation" →
  is_dir fs1 (posixpath.join d [p; "labels.txt"]) = false →
  convertible fs1 ids d t "train" g photo_filenames →
  convertible fs1 ids d t "validation" g photo_filenames →
  slice_from shuffled.1 num_valid = training →
  slice_to shuffled.1 num_valid = validation →
  ∃ w',
    convert_images d num_valid p t w = (Ok (), w') ∧
    _dataset_exists d t w' = (Ok true, w') ∧
    _dataset_exists d p w' = (Ok false, w').
Proof.
  intros root out_dir fs1 photo_filenames class_names ids shuffled
    Hplain_p Hplain_t Hdirs Hexist Hroot Hopen_train Hopen_valid _ Htrain Hvalid
    Htraining Hvalidation.
  eexists. split; [by eapply convert_images_ok|].
  rewrite !_dataset_exists_run. cbn [fs]. fold root out_dir fs1 class_names.
  split; f_equal; f_equal.
  - apply shards_exist_true. intros split_name k Hsplit Hk.
    destruct (converted_shards d p t
                (dict (zip (range (length class_names)) class_names))
                (g <$> training) (g <$> validation) fs1 k Hk) as [Hv Ht].
    assert (split_name = "train" ∨ split_name = "validation") as [-> | ->]
      by (rewrite !elem_of_cons, elem_of_nil in Hsplit; tauto).
    + rewrite Ht. eauto.
    + rewrite Hv. eauto.
  - apply not_true_is_false. intros Hall. rewrite shards_exist_true in Hall.
    apply not_true_iff_false in Hexist. apply Hexist, shards_exist_true.
    intros split_name k Hsplit Hk. specialize (Hall split_name k Hsplit Hk).
    assert (∀ split_name' k', split_name' ∈ ["train"; "validation"] →
              k' < _NUM_SHARDS →
              _get_dataset_filename d p split_name k ≠
              _get_dataset_filename d t split_name' k') as Hne.
    { intros split_name' k' Hsplit' Hk'.
      by apply dataset_filename_subdir_ne. }
    rewrite lookup_insert_ne in Hall
      by (by apply labels_path_ne).
    rewrite !write_shards_lookup_ne in Hall; [done| |].
    + intros k' Hk'%range_shards. apply Hne; [by left|done].
    + intros k' Hk'%range_shards. apply Hne; [by right; left|done].
Qed.

End Runs.

(** ** What a run leaves alone *)

Section Frame.
Context `{!PyRandom} `{!TensorFlow}.

Lemma writes_within_preorder written : PreOrder (writes_within written).
Proof.
  split.
  - by intros w q _.
  - intros w1 w2 w3 H1 H2 q Hq. by rewrite H2, H1.
Qed.

#[local] Existing Instance writes_within_preorder.

Lemma writes_within_insert (written : string → Prop) w p x out rs rd :
  written p → writes_within written w (World (<[p := x]> (fs w)) rs out rd).
Proof.
  intros Hp q Hq. cbn [fs]. apply lookup_insert_ne. by intros ->.
Qed.

Lemma scanner_leaves_world d p w : (_get_filenames_and_classes d p w).2 = w.
Proof.
  destruct (fs w !! posixpath.join d [p]) as [[entries|data|records|labels]|]
    eqn:Hroot;
    [by rewrite (_get_filenames_and_classes_run d p w entries Hroot)
    |rewrite _get_filenames_and_classes_raise;
       [done|by intros ?; rewrite Hroot]..].
Qed.

Lemma writes_within_convert_image written filenames ids out k i :
  written out →
  preserves (writes_within written) (convert_image filenames ids out k i).
Proof.
  intros Hout. unfold convert_image.
  apply (preserves_bind (writes_within written));
    [by intros w q _|intros _].
  unfold getitem at 1. destruct (filenames !! i) as [f|] eqn:Hf;
    [|intros w; unfold bind, raise; simpl; reflexivity].
  apply (preserves_bind_ret (writes_within written)).
  apply (preserves_bind (writes_within written)); [|intros image_data].
  { intros w q _. unfold gfile_read.
    by destruct (fs w !! f) as [[entries|data|records|labels]|]. }
  apply (preserves_bind (writes_within written)); [|intros [h wd]].
  { apply (preserves_pure (writes_within written)). intros w.
    by rewrite read_image_dims_run. }
  unfold getitem. rewrite Hf.
  apply (preserves_bind_ret (writes_within written)).
  apply (preserves_bind (writes_within written)); [|intros class_id].
  { unfold dict_getitem. destruct (ids !! _);
      [apply (preserves_ret (writes_within written))
      |apply (preserves_raise (writes_within written))]. }
  intros w. by apply writes_within_insert.
Qed.

Lemma writes_within__convert_dataset written split_name filenames ids d t :
  (∀ k, k < _NUM_SHARDS → written (_get_dataset_filename d t split_name k)) →
  preserves (writes_within written)
            (_convert_dataset split_name filenames ids d t).
Proof.
  intros Hout. unfold _convert_dataset.
  apply (preserves_bind (writes_within written)); [|intros _].
  { unfold assert. case_bool_decide;
      [apply (preserves_ret (writes_within written))
      |apply (preserves_raise (writes_within written))]. }
  apply (preserves_bind (writes_within written));
    [|by intros _ w q _].
  apply (preserves_for_each (writes_within written)).
  intros k Hk%range_shards.
  apply (preserves_bind (writes_within written)); [|intros _].
  { intros w. unfold TFRecordWriter.
    destruct (open_error (fs w) _); simpl; [reflexivity|].
    by apply writes_within_insert, Hout. }
  apply (preserves_for_each (writes_within written)). intros i _.
  by apply writes_within_convert_image, Hout.
Qed.

(** X20: whatever the outcome of [_convert_dataset], also when it stops at
    an exception: a path that is in the store afterwards and was not there
    before is one of the five record files of the split, and every file that
    is none of the five holds what it held before, so that no photo and no
    record file of the other split is written or removed. *)
Theorem convert_dataset_writes_only_its_shards split_name filenames ids d t w :
  let w' := (_convert_dataset split_name filenames ids d t w).2 in
  let shard_paths := _get_dataset_filename d t split_name <$> range _NUM_SHARDS in
  (∀ q, fs w !! q = None → is_Some (fs w' !! q) → q ∈ shard_paths) ∧
  (∀ q x, fs w !! q = Some x → is_dir (fs w) q = false → q ∉ shard_paths →
          fs w' !! q = Some x).
Proof.
  intros w' shard_paths.
  assert (∀ q, q ∉ shard_paths → fs w' !! q = fs w !! q) as Hframe.
  { intros q Hq.
    apply (writes_within__convert_dataset (λ q, q ∈ shard_paths)); [|done].
    intros k Hk. apply list_elem_of_fmap. exists k. by rewrite range_shards. }
  split.
  - intros q Hq Hnew.
    destruct (decide (q ∈ shard_paths)) as [|Hout]; [done|].
    rewrite (Hframe q Hout), Hq in Hnew. by destruct Hnew.
  - intros q x Hq _ Hout. by rewrite (Hframe q Hout).
Qed.

(** What [convert_images] writes, whatever its outcome: the output
    directory, the label file and the ten record files. *)
Lemma convert_images_writes_within d num_valid p t w q :
  q ≠ posixpath.join d [t] →
  q ≠ posixpath.join d [p; "labels.txt"] →
  (∀ split_name k, split_name ∈ ["train"; "validation"] → k < _NUM_SHARDS →
     q ≠ _get_dataset_filename d t split_name k) →
  fs (convert_images d num_valid p t w).2 !! q = fs w !! q.
Proof.
  intros Hdir Hlabels Hshards.
  set (written := λ q : string,
         q = posixpath.join d [t] ∨ q = posixpath.join d [p; "labels.txt"] ∨
         ∃ split_name k, split_name ∈ ["train"; "validation"] ∧
                         k < _NUM_SHARDS ∧
                         q = _get_dataset_filename d t split_name k).
  assert (preserves (writes_within written) (convert_images d num_valid p t))
    as Hrun.
  { unfold convert_images.
    apply (preserves_bind (writes_within written));
      [by intros w0 q0 _|intros tfrecords_exists].
    apply (preserves_bind (writes_within written)); [|intros _].
    { destruct tfrecords_exists; cbn [negb]; [by intros w0 q0 _|].
      intros w0. unfold gfile_MakeDirs.
      destruct (fs w0 !! posixpath.join d [t]); [reflexivity|].
      apply (writes_within_insert written w0). by left. }
    apply (preserves_bind (writes_within written));
      [by intros w0 q0 _|intros [|]]; [by intros w0 q0 _|].
    apply (preserves_bind (writes_within written)).
    { apply (preserves_pure (writes_within written)), scanner_leaves_world. }
    intros [photo_filenames class_names]. cbv beta iota.
    apply (preserves_bind (writes_within written));
      [by intros w0 q0 _|intros _].
    apply (preserves_bind (writes_within written)); [|intros shuffled].
    { intros w0 q0 _. unfold shuffle. by destruct (shuffle_from _ _). }
    apply (preserves_bind (writes_within written)); [|intros _].
    { apply writes_within__convert_dataset. intros k Hk.
      right; right. exists "train", k. split; [by left|done]. }
    apply (preserves_bind (writes_within written)); [|intros _].
    { apply writes_within__convert_dataset. intros k Hk.
      right; right. exists "validation", k. split; [by right; left|done]. }
    apply (preserves_bind (writes_within written)); [|by intros _ w0 q0 _].
    intros w0. apply writes_within_insert. right. by left. }
  apply Hrun. intros [->|[->|(split_name & k & Hsplit & Hk & ->)]]; [done..|].
  by apply (Hshards split_name k).
Qed.

(** X21: whatever the outcome of [convert_images], no photo is written or
    removed. When the two subdirectories are plain names and the entries of
    the photos directory and of the class directories are file names (not
    empty for a class directory, without [/]), every photo that the scan of
    the photos directory finds holds afterwards what it held before. *)
Theorem convert_images_writes_only_outputs d num_valid p t w path :
  let root := posixpath.join d [p] in
  let entries := listing (fs w) root in
  plain_name p = true → plain_name t = true →
  (∀ c, c ∈ entries → c ≠ "" ∧ contains_char posixpath.sep c = false) →
  (∀ c f, c ∈ entries → f ∈ listing (fs w) (posixpath.join root [c]) →
          contains_char posixpath.sep f = false) →
  path ∈ scan (fs w) root entries →
  fs (convert_images d num_valid p t w).2 !! path = fs w !! path.
Proof.
  intros root entries Hplain_p Hplain_t Hclasses Hfiles
    (c & f & Hc & _ & Hf & _ & ->)%elem_of_scan.
  destruct (Hclasses c Hc) as [Hne Hsep].
  destruct (photo_path_not_written d p t c f Hplain_p Hplain_t Hne Hsep
              (Hfiles c f Hc Hf)) as (Hdir & Hlabels & Hshards).
  by apply convert_images_writes_within.
Qed.

End Frame.

(** ** The console *)

Section Console.
Context `{!PyRandom} `{!TensorFlow}.

Lemma shard_files_seq n k :
  shard_files (seq 0 n) k = range2 (shard_start n k) (shard_end n k).
Proof.
  unfold shard_files, range2. rewrite length_seq, drop_seq, take_seq.
  unfold shard_start, shard_end. f_equal; lia.
Qed.

Lemma progress_lines_seq n :
  progress_lines n (range _NUM_SHARDS) =
  (λ i, progress n (i `div` ceil_div n _NUM_SHARDS) i) <$> seq 0 n.
Proof.
  rewrite <-(shard_files_partition (seq 0 n)).
  unfold progress_lines.
  induction (range _NUM_SHARDS) as [|k ks IH]; [done|].
  rewrite !bind_cons, fmap_app, IH, shard_files_seq. f_equal.
  apply list_fmap_ext. intros j i Hi%list_elem_of_lookup_2.
  unfold range2, shard_start, shard_end in Hi. apply elem_of_seq in Hi.
  f_equal. apply (Nat.div_unique _ _ _ (i - k * ceil_div n _NUM_SHARDS)); lia.
Qed.

(** X22: the console of a completed [_convert_dataset], when the five
    record files can be opened for writing and every file gives a record.
    One line is written for every image before it is read, in the order of
    the list: the line of the image at index [i] counts it as [i + 1] of [n]
    and names the shard [i // num_per_shard]; a single newline follows the
    last one. *)
Theorem console_counts_every_image split_name filenames ids d t g w :
  split_name ∈ ["train"; "validation"] →
  writable (fs w) d t split_name →
  convertible (fs w) ids d t split_name g filenames →
  let n := length filenames in
  let num_per_shard := ceil_div n _NUM_SHARDS in
  ∃ w',
    _convert_dataset split_name filenames ids d t w = (Ok (), w') ∧
    stdout w' =
      stdout w ++
      ((λ i, carriage_return +:+ ">> Converting image " +:+ fmt_d (i + 1) +:+
             "/" +:+ fmt_d n +:+ " shard " +:+ fmt_d (i `div` num_per_shard))
         <$> seq 0 n) ++
      [newline].
Proof.
  intros Hsplit Hopen Hgood n num_per_shard.
  eexists. split; [by apply _convert_dataset_ok|]. cbn [stdout].
  by rewrite progress_lines_seq.
Qed.

End Console.

(** ** Photos and record files in one directory *)

Section SameDirectory.
Context `{!PyRandom} `{!TensorFlow}.

Lemma ensure_dir_id m q : is_Some (m !! q) → ensure_dir m q = m.
Proof. unfold ensure_dir. by intros [x ->]. Qed.

(** X23: when the record files are written to the photos directory itself
    ([tfrecords_subdir = photos_subdir]), the test for an existing dataset
    looks where the files are: after a run that converts (the ten record
    files open for writing, no directory with the name of the label file,
    every scanned photo gives a record), the next
    run, with any [num_valid], prints that the dataset files exist and
    returns at once, with the store, the generator and the files read as
    they were. *)
Theorem same_subdir_rerun_exits_early
    d num_valid num_valid' p g w entries training validation :
  let root := posixpath.join d [p] in
  let fs1 := ensure_dir (fs w) root in
  let photo_filenames := scan fs1 root entries in
  let class_names := sorted (class_dirs fs1 root entries) in
  let ids := dict (zip class_names (range (length class_names))) in
  let shuffled := shuffle_from (random_seed _RANDOM_SEED) photo_filenames in
  shards_exist fs1 d p = false →
  fs1 !! root = Some (Dir entries) →
  writable fs1 d p "train" →
  writable fs1 d p "validation" →
  is_dir fs1 (posixpath.join d [p; "labels.txt"]) = false →
  convertible fs1 ids d p "train" g photo_filenames →
  convertible fs1 ids d p "validation" g photo_filenames →
  slice_from shuffled.1 num_valid = training →
  slice_to shuffled.1 num_valid = validation →
  ∃ w',
    convert_images d num_valid p p w = (Ok (), w') ∧
    convert_images d num_valid' p p w' =
      (Ok (), World (fs w') (rng w') (stdout w' ++ [exists_message]) (reads w')).
Proof.
  intros root fs1 photo_filenames class_names ids shuffled
    Hexist Hroot Hopen_train Hopen_valid _ Htrain Hvalid Htraining Hvalidation.
  pose proof (convert_images_ok d num_valid p p g w entries training validation
                Hexist Hroot Hopen_train Hopen_valid Htrain Hvalid
                Htraining Hvalidation) as Hrun.
  cbv zeta in Hrun. fold root fs1 class_names in Hrun.
  set (labels := dict (zip (range (length class_names)) class_names)) in Hrun.
  set (w' := World _ _ _ _) in Hrun.
  exists w'. split; [exact Hrun|].
  assert (is_Some (fs w' !! root)) as Hdir.
  { destruct (convert_images_grows d num_valid p p w) as [Hgrow _].
    rewrite Hrun in Hgrow. apply Hgrow. cbn [fs]. fold root fs1.
    rewrite Hroot. eauto. }
  assert (shards_exist (fs w') d p = true) as Hall.
  { apply shards_exist_true. intros split_name k Hsplit Hk.
    destruct (converted_shards d p p labels (g <$> training)
                (g <$> validation) fs1 k Hk) as [Hv Ht].
    assert (split_name = "train" ∨ split_name = "validation") as [-> | ->]
      by (rewrite !elem_of_cons, elem_of_nil in Hsplit; tauto).
    - unfold w'. cbn [fs]. rewrite Ht. eauto.
    - unfold w'. cbn [fs]. rewrite Hv. eauto. }
  rewrite (convert_images_exists d num_valid' p p w');
    fold root; rewrite (ensure_dir_id _ _ Hdir); [done|exact Hall].
Qed.

End SameDirectory.

(** ** The output directory and the decode op *)

Section OutputDirectory.
Context `{!PyRandom} `{!TensorFlow}.

Lemma all_sep_plain x t :
  plain_name t = true → posixpath.all_sep (x +:+ t) = false.
Proof.
  intros [Hne Hsep]%plain_name_spec. induction x as [|c r IH].
  - rewrite posixpath_facts.append_empty_l. destruct t as [|c r]; [done|].
    simpl in *. apply orb_false_iff in Hsep as [Hc _]. by rewrite Hc.
  - rewrite posixpath_facts.append_String. simpl. by rewrite IH, andb_false_r.
Qed.

(** What stops the first record file of a split when the output directory
    is no directory. *)
Lemma open_error_no_directory m d t split_name :
  plain_name t = true → split_name ∈ ["train"; "validation"] →
  is_dir m (posixpath.join d [t]) = false →
  is_dir m (_get_dataset_filename d t split_name 0) = false →
  open_error m (_get_dataset_filename d t split_name 0) =
  Some (if bool_decide (is_Some (m !! posixpath.join d [t]))
        then FailedPreconditionError else NotFoundError).
Proof.
  intros Ht Hsplit Hdir Hfirst.
  destruct (join_plain d t Ht) as (Heq & Hne & Hend).
  unfold open_error, is_dir in *.
  rewrite (dataset_filename_dirname d t split_name 0 Hne Hend Hsplit)
    by (unfold _NUM_SHARDS; lia).
  assert (posixpath.all_sep (posixpath.join d [t]) = false) as ->
    by (rewrite Heq; by apply all_sep_plain).
  destruct (m !! _get_dataset_filename d t split_name 0)
    as [[entries|data|records|labels]|]; [done|..];
    destruct (m !! posixpath.join d [t]) as [[entries'|data'|records'|labels']|];
    first [done | by rewrite bool_decide_eq_true_2 by eauto
          | by rewrite bool_decide_eq_false_2 by (by intros [? ?])].
Qed.

(** X24: [_convert_dataset] does not create its directory. When the
    subdirectory is a plain name, the dataset directory is there and there
    is no directory at [<dataset_dir>/<tfrecords_subdir>], the first record
    file cannot be opened, whatever the list of files: the run ends with
    [NotFoundError] when nothing is there and with [FailedPreconditionError]
    when a file is there, before anything is read, written or printed. *)
Theorem convert_dataset_needs_output_directory split_name filenames ids d t w :
  let out_dir := posixpath.join d [t] in
  split_name ∈ ["train"; "validation"] →
  plain_name t = true →
  is_dir (fs w) d = true →
  is_dir (fs w) out_dir = false →
  is_dir (fs w) (_get_dataset_filename d t split_name 0) = false →
  _convert_dataset split_name filenames ids d t w =
  (Raise (if bool_decide (is_Some (fs w !! out_dir))
          then FailedPreconditionError else NotFoundError), w).
Proof.
  intros out_dir Hsplit Ht _ Hdir Hfirst.
  apply _convert_dataset_blocked; [done|].
  by apply open_error_no_directory.
Qed.

(** X27: a record file that cannot be opened stops the run where it is.
    When the subdirectory is a plain name, the record files before a
    shard [s > 0] open, the files of these shards give records and the file
    of shard [s] does not open (a directory has its name),
    [_convert_dataset] ends with the error of the writer:
    the shards before [s] are complete and stay in the store, no later
    record file is touched, and the files read are those of the shards
    before [s]. *)
Theorem convert_dataset_stops_at_blocked_shard
    split_name filenames ids d t g w s e :
  let path := _get_dataset_filename d t split_name in
  let done_files := take (shard_start (length filenames) s) filenames in
  split_name ∈ ["train"; "validation"] →
  plain_name t = true →
  0 < s < _NUM_SHARDS →
  (∀ k, k < s → open_error (fs w) (path k) = None) →
  open_error (fs w) (path s) = Some e →
  convertible (fs w) ids d t split_name g done_files →
  ∃ w',
    _convert_dataset split_name filenames ids d t w = (Raise e, w') ∧
    (∀ k, k < s →
       fs w' !! path k = Some (RecordFile (g <$> shard_files filenames k))) ∧
    (∀ k, s ≤ k < _NUM_SHARDS → fs w' !! path k = fs w !! path k) ∧
    reads w' = reads w ++ done_files.
Proof.
  intros path done_files Hsplit _ [_ Hs] Hopen Hblocked Hgood.
  assert (∀ k k', k < _NUM_SHARDS → k' < _NUM_SHARDS → k ≠ k' →
            path k ≠ path k') as Hinj.
  { intros k k' ? ? ? Heq.
    by apply posixpath_facts.dataset_filename_inj in Heq as [_ ?]. }
  eexists. split.
  { unfold _convert_dataset.
    rewrite bool_decide_eq_true_2 by done.
    erewrite bind_ok by reflexivity.
    apply bind_raise.
    apply (shards_loop_blocked d t split_name filenames ids g
             (λ k k', dataset_filename_ne_dirname d t split_name split_name k k'
                        Hsplit Hsplit) _ s e);
      [done|done|done| |done|].
    - intros k f Hk Hf.
      destruct (Hgood f) as [Hne Hex].
      { unfold done_files. rewrite <-shard_files_prefix.
        apply list_elem_of_bind. exists k. split; [done|].
        apply elem_of_seq. lia. }
      split; [|done]. intros k' Hk'. apply Hne. lia.
    - intros k Hk. apply Hinj; lia. }
  cbn [fs reads]. split; [|split].
  - intros k Hk. rewrite <-shard_files_fmap.
    apply write_shards_lookup_seq; [done|done|lia].
  - intros k [Hk1 Hk2]. apply write_shards_lookup_ne.
    intros k' Hk'%elem_of_seq. apply Hinj; lia.
  - by rewrite shard_files_prefix.
Qed.

(** X25: a file in the place of the output directory stops
    [convert_images]. The directory is not created over it; when the record
    files are not found and the photos directory is read, the photos are
    scanned and shuffled and the first record file of the training split
    cannot be opened: the run ends with [FailedPreconditionError], no photo
    was read, nothing was written to the store or to the console. *)
Theorem convert_images_output_is_a_file d num_valid p t w entries :
  let root := posixpath.join d [p] in
  let out_dir := posixpath.join d [t] in
  plain_name t = true →
  is_Some (fs w !! out_dir) →
  is_dir (fs w) out_dir = false →
  is_dir (fs w) (_get_dataset_filename d t "train" 0) = false →
  shards_exist (fs w) d p = false →
  fs w !! root = Some (Dir entries) →
  ∃ w',
    convert_images d num_valid p t w = (Raise FailedPreconditionError, w') ∧
    fs w' = fs w ∧ reads w' = reads w ∧ stdout w' = stdout w.
Proof.
  intros root out_dir Ht Hthere Hdir Hfirst Hexist Hroot.
  unfold convert_images.
  rewrite convert_images_prelude, ensure_dir_id, world_eta by done.
  unfold bind at 1. rewrite _dataset_exists_run, Hexist.
  erewrite bind_ok by (by apply _get_filenames_and_classes_run).
  cbv beta iota. unfold bind at 1, seed at 1. unfold bind at 1, shuffle at 1.
  cbn [fs rng stdout reads].
  destruct (shuffle_from _ _) as [shuffled s'].
  eexists. split.
  { apply bind_raise, _convert_dataset_blocked; [by left|]. cbn [fs].
    rewrite open_error_no_directory by (done || by left).
    by rewrite bool_decide_eq_true_2. }
  done.
Qed.

(** X26: in a session the assertions of [decode_jpeg] do not fail. The op
    is built for three channels, so the call returns the shape
    [[height; width; 3]] that the op gives, or raises the error of the op;
    the world is left as it was. *)
Theorem decode_jpeg_in_session image_data w :
  (∃ height width,
     run_decode_jpeg image_data = Some [height; width; 3] ∧
     decode_jpeg image_data w = (Ok [height; width; 3], w)) ∨
  (run_decode_jpeg image_data = None ∧
   decode_jpeg image_data w = (Raise InvalidArgumentError, w)).
Proof.
  unfold decode_jpeg, sess_run_decode_jpeg, bind.
  destruct (run_decode_jpeg image_data) as [shape|] eqn:Hop; [left|by right].
  destruct (run_decode_jpeg_channels image_data shape Hop)
    as (height & width & ->).
  by exists height, width.
Qed.

End OutputDirectory.

(** ** The converter on the small instance *)

Import Demo.

Lemma convert_dataset_shards_partition_witness :
  ∃ w',
    _convert_dataset "train" files ids "data" "tfrecords" (start photos_out) =
      (Ok (), w') ∧
    sum_list ((λ shard_id,
                 length (records_at (fs w')
                           (_get_dataset_filename "data" "tfrecords" "train" shard_id)))
              <$> range _NUM_SHARDS) = 4.
Proof.
  destruct (convert_dataset_shards_partition "train" files ids "data" "tfrecords"
              (record_of photos_out) (start photos_out))
    as (w' & Hrun & _ & _ & Hsum & _).
  - by left.
  - writable_by_computation.
  - convertible_by_computation.
  - exists w'. split; [exact Hrun|exact Hsum].
Defined.

Lemma convert_dataset_five_shards_witness :
  ∃ w',
    _convert_dataset "validation" files ids "data" "tfrecords" (start photos_out) =
      (Ok (), w') ∧
    fs w' !! "data/tfrecords/tumblr_validation_00004-of-00005.tfrecord" =
      Some (RecordFile []) ∧
    fs w' !! "data/tfrecords/tumblr_validation_00003-of-00005.tfrecord" =
      Some (RecordFile [record_of photos_out "data/photos/happy/d.jpg"]).
Proof.
  destruct (convert_dataset_five_shards "validation" files ids "data" "tfrecords"
              (record_of photos_out) (start photos_out))
    as (w' & Hrun & Hshards & _).
  - by right; left.
  - writable_by_computation.
  - convertible_by_computation.
  - exists w'. split; [exact Hrun|]. split.
    + path_of "data/tfrecords/tumblr_validation_00004-of-00005.tfrecord"
              (_get_dataset_filename "data" "tfrecords" "validation" 4).
      destruct (Hshards 4) as (_ & H4 & _); [unfold _NUM_SHARDS; lia|].
      exact H4.
    + path_of "data/tfrecords/tumblr_validation_00003-of-00005.tfrecord"
              (_get_dataset_filename "data" "tfrecords" "validation" 3).
      destruct (Hshards 3) as (_ & H3 & _); [unfold _NUM_SHARDS; lia|].
      exact H3.
Defined.


Lemma validation_takes_first_num_valid_witness :
  ∃ w',
    convert_images "data" 1 "photos" "tfrecords" (start photos) = (Ok (), w') ∧
    reads w' = ["data/photos/happy/b.jpg"; "data/photos/happy/d.jpg";
                "data/photos/sad/c.jpg"; "data/photos/happy/a.jpg"] ∧
    fs w' !! "data/tfrecords/tumblr_validation_00000-of-00005.tfrecord" =
      Some (RecordFile [record_of photos "data/photos/happy/a.jpg"]).
Proof.
  destruct (validation_takes_first_num_valid "data" 1 "photos" "tfrecords"
              (record_of photos) (start photos) ["sad"; "README"; "happy"])
    as (w' & Hrun & _ & _ & _ & Hshards & Hreads).
  - reflexivity.
  - reflexivity.
  - by vm_compute.
  - by vm_compute.
  - writable_by_computation.
  - writable_by_computation.
  - by vm_compute.
  - convertible_by_computation.
  - convertible_by_computation.
  - by vm_compute.
  - exists w'. split; [exact Hrun|]. split; [exact Hreads|].
    path_of "data/tfrecords/tumblr_validation_00000-of-00005.tfrecord"
            (_get_dataset_filename "data" "tfrecords" "validation" 0).
    destruct (Hshards 0) as [H0 _]; [unfold _NUM_SHARDS; lia|].
    exact H0.
Defined.

Lemma num_valid_beyond_total_witness :
  ∃ w',
    convert_images "data" 9 "photos" "tfrecords" (start photos) = (Ok (), w') ∧
    reads w' = ["data/photos/happy/a.jpg"; "data/photos/happy/b.jpg";
                "data/photos/happy/d.jpg"; "data/photos/sad/c.jpg"] ∧
    fs w' !! "data/tfrecords/tumblr_train_00000-of-00005.tfrecord" =
      Some (RecordFile []).
Proof.
  destruct (num_valid_beyond_total "data" 9 "photos" "tfrecords"
              (record_of photos) (start photos) ["sad"; "README"; "happy"])
    as (w' & Hrun & _ & _ & Hshards & Hreads).
  - reflexivity.
  - reflexivity.
  - by vm_compute.
  - by vm_compute.
  - writable_by_computation.
  - writable_by_computation.
  - by vm_compute.
  - convertible_by_computation.
  - convertible_by_computation.
  - by vm_compute.
  - exists w'. split; [exact Hrun|]. split; [exact Hreads|].
    path_of "data/tfrecords/tumblr_train_00000-of-00005.tfrecord"
            (_get_dataset_filename "data" "tfrecords" "train" 0).
    destruct (Hshards 0) as [_ H0]; [unfold _NUM_SHARDS; lia|].
    exact H0.
Defined.

Lemma class_ids_by_sorted_index_witness :
  ∃ w' labels,
    convert_images "data" 1 "photos" "tfrecords" (start photos) = (Ok (), w') ∧
    fs w' !! "data/photos/labels.txt" = Some (LabelFile labels) ∧
    labels !! 0 = Some "happy" ∧ labels !! 1 = Some "sad" ∧ labels !! 2 = None ∧
    ∀ record,
      record ∈ records_at (fs w')
                 (_get_dataset_filename "data" "tfrecords" "train" 2) →
      ∃ f, example_of (fs (start photos)) ids f = Ok record ∧
           labels !! image_class record =
             Some (posixpath.basename (posixpath.dirname f)).
Proof.
  destruct (class_ids_by_sorted_index "data" 1 "photos" "tfrecords"
              (record_of photos) (start photos) ["sad"; "README"; "happy"])
    as (w' & labels & Hrun & Hfile & _ & _ & _ & Hrecords & Hlabels & Hdom & _).
  - reflexivity.
  - reflexivity.
  - by vm_compute.
  - by vm_compute.
  - apply (bool_decide_unpack (NoDup ["sad"; "README"; "happy"])). by vm_compute.
  - writable_by_computation.
  - writable_by_computation.
  - by vm_compute.
  - convertible_by_computation.
  - convertible_by_computation.
  - exists w', labels. split; [exact Hrun|]. split.
    { path_of "data/photos/labels.txt"
              (posixpath.join "data" ["photos"; "labels.txt"]).
      exact Hfile. }
    split; [apply Hlabels; by vm_compute|].
    split; [apply Hlabels; by vm_compute|].
    split.
    { apply eq_None_not_Some. rewrite Hdom. vm_compute. lia. }
    intros record Hrecord.
    destruct (Hrecords "train" 2 record) as (f & c & _ & Hex & -> & _ & Hlabel);
      [by left|unfold _NUM_SHARDS; lia|exact Hrecord|].
    exists f. split; [|exact Hlabel].
    rewrite <-Hex. apply example_of_ext. cbn [fs start].
    unfold ensure_dir.
    destruct (photos !! posixpath.join "data" ["tfrecords"]) eqn:Hdir;
      [done|].
    apply eq_sym, lookup_insert_ne. intros <-.
    unfold example_of, read_data in Hex. cbn [fs start] in Hex.
    unfold ensure_dir in Hex. rewrite Hdir, lookup_insert_eq in Hex. done.
Defined.

Lemma scanner_skips_ds_store_witness :
  ∃ photo_filenames class_names,
    _get_filenames_and_classes "data" "photos" (start photos) =
      (Ok (photo_filenames, class_names), start photos) ∧
    ("data/photos/sad/.DS_Store" ∉ photo_filenames) ∧
    ("data/photos/sad/c.jpg" ∈ photo_filenames).
Proof.
  destruct (scanner_skips_ds_store "data" "photos" (start photos)
              ["sad"; "README"; "happy"])
    as (photo_filenames & class_names & Hrun & Hscan & _).
  - by vm_compute.
  - intros c f Hc Hf.
    repeat (apply elem_of_cons in Hc as [-> | Hc]);
      [..|by apply elem_of_nil in Hc];
      by_cases_on_files Hf; by vm_compute.
  - exists photo_filenames, class_names. split; [exact Hrun|].
    assert ("sad" ∈ ["sad"; "README"; "happy"]) as Hsad by (by left).
    set (sad := posixpath.join (posixpath.join "data" ["photos"]) ["sad"]) in *.
    assert (is_dir (fs (start photos)) sad = true) as Hdir by (by vm_compute).
    assert (listing (fs (start photos)) sad = ["c.jpg"; ".DS_Store"]) as Hlist
      by (by vm_compute).
    assert (".DS_Store" ∈ listing (fs (start photos)) sad) as Hds
      by (rewrite Hlist; by right; left).
    assert ("c.jpg" ∈ listing (fs (start photos)) sad) as Hjpg
      by (rewrite Hlist; by left).
    pose proof (Hscan "sad" ".DS_Store" Hsad Hdir Hds) as [Hskip _].
    pose proof (Hscan "sad" "c.jpg" Hsad Hdir Hjpg) as [_ Hkeep].
    split.
    + path_of "data/photos/sad/.DS_Store" (posixpath.join sad [".DS_Store"]).
      intros Hin. by apply Hskip.
    + path_of "data/photos/sad/c.jpg" (posixpath.join sad ["c.jpg"]).
      by apply Hkeep.
Defined.


(** C1, on the code: the record files are looked for below [photos_subdir],
    not below [tfrecords_subdir] where they are written. After a first run
    that has written all ten record files below [data/tfrecords], a second
    run on the resulting store does not leave early: it reads every photo
    again, writes the record files and the label file again and prints the
    lines of a full conversion. *)
Theorem rerun_converts_again :
  let first := (convert_images "data" 1 "photos" "tfrecords" (start photos)).2 in
  let second := convert_images "data" 1 "photos" "tfrecords" first in
  shards_exist (fs first) "data" "tfrecords" = true ∧
  shards_exist (fs first) "data" "photos" = false ∧
  second.1 = Ok () ∧
  reads second.2 = reads first ++ reads first ∧
  stdout second.2 = stdout first ++ stdout first ∧
  length (reads first) = 4 ∧
  last (stdout second.2) = Some finished_message.
Proof. by vm_compute. Qed.

(** ** Further runs on the small instance *)

Lemma convert_dataset_refuses_split_witness :
  _convert_dataset "test" files ids "data" "tfrecords" (start photos) =
  (Raise AssertionError, start photos).
Proof.
  apply convert_dataset_refuses_split.
  intros [?|[?|?%elem_of_nil]%elem_of_cons]%elem_of_cons; done.
Defined.

Lemma convert_dataset_of_nothing_witness :
  ∃ w',
    _convert_dataset "validation" [] ids "data" "tfrecords" (start photos_out) =
      (Ok (), w') ∧
    fs w' !! _get_dataset_filename "data" "tfrecords" "validation" 4 =
      Some (RecordFile []) ∧
    reads w' = [].
Proof.
  destruct (convert_dataset_of_nothing "validation" ids "data" "tfrecords"
              (start photos_out)) as (w' & Hrun & Hshards & _ & _ & Hreads & _).
  - right. by left.
  - writable_by_computation.
  - exists w'. split; [exact Hrun|]. split; [|exact Hreads].
    apply Hshards. unfold _NUM_SHARDS. lia.
Defined.

Lemma convert_image_appends_record_witness :
  ∃ w',
    convert_image files ids
      (_get_dataset_filename "data" "tfrecords" "train" 1) 1 1 (start photos) =
      (Ok (), w') ∧
    reads w' = ["data/photos/happy/a.jpg"] ∧
    records_at (fs w') (_get_dataset_filename "data" "tfrecords" "train" 1) =
      [TFExample [Byte.x01; Byte.x02; Byte.x03; Byte.xff] b_jpg 1 2 0].
Proof.
  eexists. split.
  - apply (convert_image_appends_record files ids _ 1 1
             "data/photos/happy/a.jpg"
             [Byte.x01; Byte.x02; Byte.x03; Byte.xff] 1 2 0 (start photos));
      by vm_compute.
  - split; by vm_compute.
Defined.

Lemma missing_class_raises_KeyError_witness :
  ∃ w',
    _convert_dataset "train" files (dict (zip ["happy"] (range 1)))
      "data" "tfrecords" (start photos_out) = (Raise KeyError, w') ∧
    reads w' = ["data/photos/sad/c.jpg"].
Proof.
  destruct (missing_class_raises_KeyError "train" files
              (dict (zip ["happy"] (range 1))) "data" "tfrecords"
              (record_of photos_out) (start photos_out) 0 "data/photos/sad/c.jpg"
              [Byte.x05; Byte.x06; Byte.x03; Byte.xff] 5 6)
    as (w' & Hrun & Hreads & _).
  - by left.
  - writable_by_computation.
  - reflexivity.
  - away_from_shards.
  - by vm_compute.
  - reflexivity.
  - by vm_compute.
  - by intros f Hf%elem_of_nil.
  - exists w'. split; [exact Hrun|exact Hreads].
Defined.

Lemma missing_file_raises_NotFoundError_witness :
  ∃ w',
    _convert_dataset "train"
      ["data/photos/happy/a.jpg"; "data/photos/happy/e.jpg"] ids
      "data" "tfrecords" (start photos_out) = (Raise NotFoundError, w') ∧
    reads w' = ["data/photos/happy/a.jpg"; "data/photos/happy/e.jpg"] ∧
    fs w' !! _get_dataset_filename "data" "tfrecords" "train" 0 =
      Some (RecordFile [record_of photos_out "data/photos/happy/a.jpg"]).
Proof.
  destruct (missing_file_raises_NotFoundError "train"
              ["data/photos/happy/a.jpg"; "data/photos/happy/e.jpg"] ids
              "data" "tfrecords" (record_of photos_out) (start photos_out) 1
              "data/photos/happy/e.jpg")
    as (w' & Hrun & Hreads & Hbefore & _).
  - by left.
  - writable_by_computation.
  - reflexivity.
  - away_from_shards.
  - by vm_compute.
  - by vm_compute.
  - convertible_by_computation.
  - exists w'. split; [exact Hrun|]. split; [exact Hreads|].
    apply (Hbefore 0). by vm_compute.
Defined.

Lemma shard_sizes_witness :
  ∃ w',
    _convert_dataset "train" files ids "data" "tfrecords" (start photos_out) =
      (Ok (), w') ∧
    length (records_at (fs w')
              (_get_dataset_filename "data" "tfrecords" "train" 3)) = 1 ∧
    length (records_at (fs w')
              (_get_dataset_filename "data" "tfrecords" "train" 4)) = 0.
Proof.
  destruct (shard_sizes "train" files ids "data" "tfrecords"
              (record_of photos_out) (start photos_out)) as (w' & Hrun & Hsizes).
  - by left.
  - writable_by_computation.
  - convertible_by_computation.
  - exists w'. split; [exact Hrun|]. split.
    + destruct (Hsizes 3) as (_ & Hfull & _); [unfold _NUM_SHARDS; lia|].
      apply Hfull. by vm_compute.
    + destruct (Hsizes 4) as (_ & _ & Hnone); [unfold _NUM_SHARDS; lia|].
      apply Hnone. by vm_compute.
Defined.

Lemma convert_dataset_twice_witness :
  ∃ w1 w2,
    _convert_dataset "train" files ids "data" "tfrecords" (start photos_out) =
      (Ok (), w1) ∧
    _convert_dataset "train" files ids "data" "tfrecords" w1 = (Ok (), w2) ∧
    fs w2 = fs w1 ∧
    length (reads w2) = 8.
Proof.
  destruct (convert_dataset_twice "train" files ids "data" "tfrecords"
              (record_of photos_out) (start photos_out))
    as (w1 & w2 & Hrun1 & Hrun2 & Hfs & Hreads).
  - by left.
  - writable_by_computation.
  - convertible_by_computation.
  - exists w1, w2. split; [exact Hrun1|]. split; [exact Hrun2|].
    split; [exact Hfs|]. by rewrite Hreads.
Defined.

Lemma shard_path_round_trip_witness :
  posixpath.dirname (_get_dataset_filename "data" "tfrecords" "train" 2) =
    "data/tfrecords" ∧
  posixpath.basename (_get_dataset_filename "data" "tfrecords" "train" 2) =
    "tumblr_train_00002-of-00005.tfrecord".
Proof.
  destruct (shard_path_round_trip "data" "tfrecords" "train" 2)
    as (_ & Hdir & Hbase).
  - by vm_compute.
  - reflexivity.
  - by left.
  - unfold _NUM_SHARDS. lia.
  - split; [exact Hdir|exact Hbase].
Defined.

Lemma absolute_subdir_drops_dataset_dir_witness :
  _get_dataset_filename "data" "/records" "train" 0 =
  _get_dataset_filename "elsewhere" "/records" "train" 0.
Proof.
  apply (absolute_subdir_drops_dataset_dir "data" "elsewhere" "/records" "train" 0).
  reflexivity.
Defined.

Lemma scanner_follows_listing_order_witness :
  _get_filenames_and_classes "data" "photos" (start photos) =
  (Ok (["data/photos/sad/c.jpg"; "data/photos/happy/a.jpg";
        "data/photos/happy/b.jpg"; "data/photos/happy/d.jpg"],
       ["happy"; "sad"]), start photos).
Proof.
  destruct (scanner_follows_listing_order "data" "photos" (start photos)
              ["sad"; "README"; "happy"]) as (Hrun & _).
  - by vm_compute.
  - rewrite Hrun. repeat f_equal; by vm_compute.
Defined.

Lemma scanned_photo_has_class_id_witness :
  ∃ photo_filenames class_names,
    _get_filenames_and_classes "data" "photos" (start photos) =
      (Ok (photo_filenames, class_names), start photos) ∧
    ∃ i, dict (zip class_names (range (length class_names))) !!
           posixpath.basename (posixpath.dirname "data/photos/sad/c.jpg") = Some i ∧
         class_names !! i = Some "sad".
Proof.
  destruct (scanned_photo_has_class_id "data" "photos" (start photos)
              ["sad"; "README"; "happy"])
    as (photo_filenames & class_names & Hrun & Hids).
  - by vm_compute.
  - intros c Hc. by_cases_on_files Hc; by vm_compute.
  - intros c f Hc Hf. by_cases_on_files Hc; by_cases_on_files Hf; by vm_compute.
  - exists photo_filenames, class_names. split; [exact Hrun|].
    destruct (Hids "data/photos/sad/c.jpg") as (_ & _ & i & Hi & Hname).
    + rewrite (_get_filenames_and_classes_run "data" "photos" (start photos)
                 ["sad"; "README"; "happy"]) in Hrun by (by vm_compute).
      apply (f_equal (λ r, match r.1 with
                           | Ok (found, _) => found
                           | Raise _ => []
                           end)) in Hrun.
      cbv beta iota delta [fst] in Hrun. rewrite <-Hrun. vm_compute. by left.
    + exists i. split; [exact Hi|exact Hname].
Defined.


Lemma convert_images_without_classes_witness :
  ∃ w',
    convert_images "data" 1 "photos" "tfrecords"
      (start (<["data/photos" := Dir ["README"]]> ∅)) = (Ok (), w') ∧
    fs w' !! posixpath.join "data" ["photos"; "labels.txt"] = Some (LabelFile ∅) ∧
    reads w' = [].
Proof.
  destruct (convert_images_without_classes "data" 1 "photos" "tfrecords"
              (start (<["data/photos" := Dir ["README"]]> ∅)) ["README"])
    as (w' & Hrun & _ & Hlabels & Hreads).
  - reflexivity.
  - reflexivity.
  - by vm_compute.
  - by vm_compute.
  - writable_by_computation.
  - writable_by_computation.
  - by vm_compute.
  - intros c Hc. by_cases_on_files Hc. by vm_compute.
  - exists w'. split; [exact Hrun|]. split; [exact Hlabels|exact Hreads].
Defined.

Lemma every_photo_converted_once_witness :
  ∃ w' converted,
    convert_images "data" (-3) "photos" "tfrecords" (start photos) = (Ok (), w') ∧
    reads w' = converted ∧
    converted ≡ₚ files.
Proof.
  destruct (every_photo_converted_once "data" (-3) "photos" "tfrecords"
              (start photos) ["sad"; "README"; "happy"])
    as (w' & converted & Hrun & Hreads & Hperm & _).
  - reflexivity.
  - reflexivity.
  - by vm_compute.
  - by vm_compute.
  - writable_by_computation.
  - writable_by_computation.
  - by vm_compute.
  - intros c Hc. by_cases_on_files Hc; by vm_compute.
  - intros c f Hc Hf. by_cases_on_files Hc; by_cases_on_files Hf; by vm_compute.
  - intros path Hpath. by_cases_on_files Hpath;
      (eexists _, _, _; split; vm_compute; reflexivity).
  - exists w', converted. split; [exact Hrun|]. split; [exact Hreads|].
    exact Hperm.
Defined.

Lemma negative_num_valid_counts_from_the_end_witness :
  ∃ w',
    convert_images "data" (-1) "photos" "tfrecords" (start photos) = (Ok (), w') ∧
    reads w' = ["data/photos/sad/c.jpg"; "data/photos/happy/a.jpg";
                "data/photos/happy/b.jpg"; "data/photos/happy/d.jpg"].
Proof.
  destruct (negative_num_valid_counts_from_the_end "data" (-1) "photos"
              "tfrecords" (record_of photos) (start photos)
              ["sad"; "README"; "happy"])
    as (w' & Hrun & _ & _ & Hreads).
  - reflexivity.
  - reflexivity.
  - by vm_compute.
  - by vm_compute.
  - writable_by_computation.
  - writable_by_computation.
  - by vm_compute.
  - convertible_by_computation.
  - convertible_by_computation.
  - lia.
  - exists w'. split; [exact Hrun|]. rewrite Hreads. by vm_compute.
Defined.

Lemma completed_run_is_not_recognised_witness :
  ∃ w',
    convert_images "data" 1 "photos" "tfrecords" (start photos) = (Ok (), w') ∧
    _dataset_exists "data" "tfrecords" w' = (Ok true, w') ∧
    _dataset_exists "data" "photos" w' = (Ok false, w').
Proof.
  eapply (completed_run_is_not_recognised "data" 1 "photos" "tfrecords"
            (record_of photos) (start photos) ["sad"; "README"; "happy"]).
  - reflexivity.
  - reflexivity.
  - done.
  - by vm_compute.
  - by vm_compute.
  - writable_by_computation.
  - writable_by_computation.
  - by vm_compute.
  - convertible_by_computation.
  - convertible_by_computation.
  - reflexivity.
  - reflexivity.
Defined.

Lemma convert_dataset_writes_only_its_shards_witness :
  fs (_convert_dataset "train" files ids "data" "tfrecords"
        (start photos_broken)).2 !! "data/photos/happy/b.jpg" =
  Some broken.
Proof.
  destruct (convert_dataset_writes_only_its_shards "train" files ids
              "data" "tfrecords" (start photos_broken)) as [_ Hfiles].
  apply Hfiles.
  - by vm_compute.
  - by vm_compute.
  - apply (bool_decide_unpack _). by vm_compute.
Defined.

Lemma convert_images_writes_only_outputs_witness :
  fs (convert_images "data" 1 "photos" "tfrecords" (start photos_broken)).2
    !! "data/photos/happy/b.jpg" =
  Some broken.
Proof.
  rewrite (convert_images_writes_only_outputs "data" 1 "photos" "tfrecords"
             (start photos_broken) "data/photos/happy/b.jpg").
  - by vm_compute.
  - reflexivity.
  - reflexivity.
  - intros c Hc. by_cases_on_files Hc; by vm_compute.
  - intros c f Hc Hf. by_cases_on_files Hc; by_cases_on_files Hf; by vm_compute.
  - apply (bool_decide_unpack _). by vm_compute.
Defined.

Lemma console_counts_every_image_witness :
  ∃ w',
    _convert_dataset "train" files ids "data" "tfrecords" (start photos_out) =
      (Ok (), w') ∧
    length (stdout w') = 5 ∧
    stdout w' !! 2 = Some (carriage_return +:+ ">> Converting image 3/4 shard 2").
Proof.
  destruct (console_counts_every_image "train" files ids "data" "tfrecords"
              (record_of photos_out) (start photos_out)) as (w' & Hrun & Hout).
  - by left.
  - writable_by_computation.
  - convertible_by_computation.
  - exists w'. split; [exact Hrun|]. rewrite Hout. split; by vm_compute.
Defined.

Lemma same_subdir_rerun_exits_early_witness :
  ∃ w',
    convert_images "data" 1 "photos" "photos" (start photos) = (Ok (), w') ∧
    convert_images "data" 2 "photos" "photos" w' =
      (Ok (), World (fs w') (rng w') (stdout w' ++ [exists_message]) (reads w')).
Proof.
  eapply (same_subdir_rerun_exits_early "data" 1 2 "photos" (record_of photos)
            (start photos) ["sad"; "README"; "happy"]).
  - by vm_compute.
  - by vm_compute.
  - writable_by_computation.
  - writable_by_computation.
  - by vm_compute.
  - convertible_by_computation.
  - convertible_by_computation.
  - reflexivity.
  - reflexivity.
Defined.

Lemma convert_dataset_needs_output_directory_witness :
  _convert_dataset "train" files ids "data" "tfrecords" (start photos_in_data) =
    (Raise NotFoundError, start photos_in_data) ∧
  _convert_dataset "train" files ids "data" "tfrecords"
    (start photos_blocked_in_data) =
    (Raise FailedPreconditionError, start photos_blocked_in_data).
Proof.
  split.
  - apply (convert_dataset_needs_output_directory "train" files ids
             "data" "tfrecords" (start photos_in_data));
      [by left|reflexivity|by vm_compute|by vm_compute|by vm_compute].
  - apply (convert_dataset_needs_output_directory "train" files ids
             "data" "tfrecords" (start photos_blocked_in_data));
      [by left|reflexivity|by vm_compute|by vm_compute|by vm_compute].
Defined.

Lemma convert_images_output_is_a_file_witness :
  ∃ w',
    convert_images "data" 1 "photos" "tfrecords" (start photos_blocked) =
      (Raise FailedPreconditionError, w') ∧
    fs w' = photos_blocked ∧ reads w' = [] ∧ stdout w' = [].
Proof.
  apply (convert_images_output_is_a_file "data" 1 "photos" "tfrecords"
           (start photos_blocked) ["sad"; "README"; "happy"]).
  - reflexivity.
  - apply (bool_decide_unpack _). by vm_compute.
  - by vm_compute.
  - by vm_compute.
  - by vm_compute.
  - by vm_compute.
Defined.

Lemma convert_dataset_stops_at_blocked_shard_witness :
  ∃ w',
    _convert_dataset "train" files ids "data" "tfrecords"
      (start photos_shard_dir) = (Raise FailedPreconditionError, w') ∧
    fs w' !! _get_dataset_filename "data" "tfrecords" "train" 0 =
      Some (RecordFile [record_of photos_out "data/photos/sad/c.jpg"]) ∧
    fs w' !! _get_dataset_filename "data" "tfrecords" "train" 2 = None ∧
    reads w' = ["data/photos/sad/c.jpg"].
Proof.
  destruct (convert_dataset_stops_at_blocked_shard "train" files ids
              "data" "tfrecords" (record_of photos_out)
              (start photos_shard_dir) 1 FailedPreconditionError)
    as (w' & Hrun & Hbefore & Hlater & Hreads).
  - by left.
  - reflexivity.
  - unfold _NUM_SHARDS. lia.
  - intros k Hk. destruct k as [|k]; [by vm_compute|lia].
  - by vm_compute.
  - convertible_by_computation.
  - exists w'. split; [exact Hrun|]. split; [|split; [|exact Hreads]].
    + apply (Hbefore 0). lia.
    + rewrite (Hlater 2) by (unfold _NUM_SHARDS; lia). by vm_compute.
Defined.
